(** * Turn-detection orchestration of the voice agent

    A shallow embedding of the streaming recorder component (the client side
    state machine that consumes Deepgram Flux turn events, races them against
    the eager-end and silence timers and calls the wait-intent and
    process-stream endpoints), of the check-wait-intent route handler, of the
    process-stream route handler with the client's reading of its events, and
    of the transcribe route handler with the one-shot recorder that calls it.

    JavaScript strings are sequences of 16-bit code units; React state is the
    latest value given to its setter; refs are record fields; the event loop
    is a list of triggers, each handled to completion, a promise that is
    already resolved running its continuation within the same trigger.

    A [Session] follows one call of [startListening], from the moment the
    socket is constructed; [Launch] covers the call up to that moment, the
    token and microphone requests entering by their outcome. Outside the
    model: the conversion of samples to 16-bit PCM and the level meter
    (floating point), rendering, and unmounting. *)

From Stdlib Require Import List ZArith NArith QArith Bool Lia String Ascii.
From Stdlib Require DecimalString.
Import ListNotations.

Set Implicit Arguments.
Close Scope Q_scope.
Set Warnings "-register-all".

(* ================================================================== *)
(** ** JavaScript strings *)

Module Js.

Definition code_unit := N.
Definition jsstring := list code_unit.

(** A literal: every character of an ASCII literal is one code unit. *)
Definition lit (s : string) : jsstring :=
  map N_of_ascii (list_ascii_of_string s).

Definition eqb (a b : jsstring) : bool :=
  if list_eq_dec N.eq_dec a b then true else false.

(** WhiteSpace and LineTerminator of ECMAScript, the code units removed by
    [String.prototype.trim]. *)
Definition is_white_space (c : code_unit) : bool :=
  ((9 <=? c) && (c <=? 13) || (c =? 32) || (c =? 160) || (c =? 5760)
   || (8192 <=? c) && (c <=? 8202) || (c =? 8232) || (c =? 8233)
   || (c =? 8239) || (c =? 8287) || (c =? 12288) || (c =? 65279))%N.

Fixpoint trimStart (s : jsstring) : jsstring :=
  match s with
  | c :: r => if is_white_space c then trimStart r else s
  | [] => []
  end.

Definition trimEnd (s : jsstring) : jsstring := rev (trimStart (rev s)).

Definition trim (s : jsstring) : jsstring := trimEnd (trimStart s).

Definition is_empty (s : jsstring) : bool :=
  match s with [] => true | _ => false end.

(** [!s.trim()] *)
Definition blank (s : jsstring) : bool := is_empty (trim s).

(** Truthiness of a string: [if (s)]. *)
Definition truthy (s : jsstring) : bool := negb (is_empty s).

End Js.

(* ================================================================== *)
(** ** JSON values and the two property reads the code performs *)

Module Json.
Import Js.

(** The values [JSON.parse] gives. A numeral beyond the range of a double
    ([1e999]) is read as an infinity; [JSON.stringify] writes an infinity as
    [null]. *)
Inductive json : Type :=
| JNull
| JBool (b : bool)
| JNum (q : Q)
| JInfinity (negative : bool)
| JStr (s : jsstring)
| JArr (l : list json)
| JObj (fields : list (jsstring * json)).

(** A JavaScript value read from parsed JSON: a JSON value or [undefined]. *)
Inductive jsvalue : Type :=
| Undefined
| Val (j : json).

Fixpoint lookup (k : jsstring) (fields : list (jsstring * json)) : jsvalue :=
  match fields with
  | [] => Undefined
  | (k', v) :: r => if eqb k k' then Val v else lookup k r
  end.

(** [d.k] for a key [k] that no prototype defines ([transcript],
    [isWaitIntent]): reading it off [null] throws a TypeError ([None]),
    off an object it is the field or [undefined], off anything else it is
    [undefined]. *)
Definition get_prop (d : json) (k : jsstring) : option jsvalue :=
  match d with
  | JNull => None
  | JObj fields => Some (lookup k fields)
  | _ => Some Undefined
  end.

(** [v === true] *)
Definition is_true (v : jsvalue) : bool :=
  match v with
  | Val (JBool true) => true
  | _ => false
  end.

(** [!v] *)
Definition falsy (v : jsvalue) : bool :=
  match v with
  | Undefined => true
  | Val JNull => true
  | Val (JBool b) => negb b
  | Val (JNum q) => Qeq_bool q 0%Q
  | Val (JInfinity _) => false
  | Val (JStr s) => is_empty s
  | Val (JArr _) => false
  | Val (JObj _) => false
  end.

(** What [JSON.parse] reads back from what [JSON.stringify] writes for [v]:
    [v] with every infinity replaced by [null]. *)
Fixpoint wire (v : json) : json :=
  match v with
  | JInfinity _ => JNull
  | JArr l => JArr (map wire l)
  | JObj fields =>
      JObj (map (fun kv : jsstring * json => let (k, x) := kv in (k, wire x))
              fields)
  | _ => v
  end.

End Json.

(* ================================================================== *)
(** ** The check-wait-intent route handler *)

Module Route.
Import Js Json.

Record Response : Type := mkResponse {
  status : Z;
  body : json
}.

(** What [model.generateContent(prompt)] followed by
    [result.response.text()] gives: an exception or the reply text. *)
Inductive LlmOutcome : Type :=
| LlmThrows
| LlmText (text : jsstring).

Definition dq : jsstring := [34%N].
Definition nl : jsstring := [10%N].

Definition prompt_prefix : jsstring :=
  lit "You are analyzing a user's speech to determine if they are asking for more time to think or formulate their question."
  ++ nl ++ nl ++ lit "The user said: " ++ dq.

Definition quoted (s : string) : jsstring := dq ++ lit s ++ dq.

Definition prompt_suffix : jsstring :=
  dq ++ nl ++ nl
  ++ lit "Determine if the user is expressing any of these intents:" ++ nl
  ++ lit "- Asking to wait or hold on (e.g., " ++ quoted "hold on" ++ lit ", "
  ++ quoted "wait a moment" ++ lit ", " ++ quoted "give me a second" ++ lit ", "
  ++ quoted "let me think" ++ lit ", " ++ quoted "one moment" ++ lit ", "
  ++ quoted "hang on" ++ lit ", " ++ quoted "just a sec" ++ lit ", "
  ++ quoted "um let me think" ++ lit ")" ++ nl
  ++ lit "- Indicating they need more time to respond" ++ nl
  ++ lit "- Expressing hesitation or pause requests" ++ nl ++ nl
  ++ lit "Respond ONLY with valid JSON in this exact format:" ++ nl
  ++ lit "{" ++ quoted "isWaitIntent" ++ lit ": <boolean>}" ++ nl ++ nl
  ++ lit "Where isWaitIntent is:" ++ nl
  ++ lit "- true: if the user is asking for more time/to wait" ++ nl
  ++ lit "- false: if the user is asking a question or saying something else" ++ nl ++ nl
  ++ lit "Do not include any other text, explanation, or formatting. Just the JSON.".

Definition prompt (transcript : jsstring) : jsstring :=
  prompt_prefix ++ transcript ++ prompt_suffix.

(** [text.match(/\{[\s\S]*\}/)]: the leftmost opening brace up to the last
    closing brace after it. *)
Fixpoint from_first_open (s : jsstring) : option jsstring :=
  match s with
  | [] => None
  | c :: r => if (c =? 123)%N then Some s else from_first_open r
  end.

(** The longest prefix of [s] that ends with a closing brace. *)
Fixpoint upto_last_close (s : jsstring) : option jsstring :=
  match s with
  | [] => None
  | c :: r =>
      match upto_last_close r with
      | Some m => Some (c :: m)
      | None => if (c =? 125)%N then Some [c] else None
      end
  end.

Definition brace_match (text : jsstring) : option jsstring :=
  match from_first_open text with
  | Some s => upto_last_close s
  | None => None
  end.

Definition early_reply : Response :=
  mkResponse 200 (JObj [(lit "shouldWait", JBool false);
                        (lit "isWaitIntent", JBool false)]).

Definition error_reply (msg : string) : Response :=
  mkResponse 500 (JObj [(lit "error", JStr (lit msg))]).

Definition verdict_reply (isWaitIntent : bool) : Response :=
  mkResponse 200 (JObj [(lit "isWaitIntent", JBool isWaitIntent)]).

Section Handler.

(** [JSON.parse], a builtin: [None] is a SyntaxError. *)
Variable JSON_parse : jsstring -> option json.
(** The language model behind [generateContent]. *)
Variable llm : jsstring -> LlmOutcome.

(** The inner try block reading the model's reply. *)
Definition read_verdict (responseText : jsstring) : bool :=
  match brace_match responseText with
  | Some m =>
      match JSON_parse m with
      | Some parsed =>
          match get_prop parsed (lit "isWaitIntent") with
          | Some v => is_true v
          | None => false
          end
      | None => false
      end
  | None => false
  end.

(** The part of the handler after the transcript check. The second
    component lists the prompts sent to the model. *)
Definition classify (apiKey : option jsstring) (transcript : jsstring)
  : Response * list jsstring :=
  match apiKey with
  | Some (_ :: _) =>
      let p := prompt transcript in
      match llm p with
      | LlmText responseText => (verdict_reply (read_verdict responseText), [p])
      | LlmThrows => (error_reply "Internal server error", [p])
      end
  | _ => (error_reply "Google GenAI API key not configured", [])
  end.

(** [POST]: [request] is the parsed request body ([None] when
    [request.json()] rejects), [apiKey] is
    [process.env.GOOGLE_GENAI_API_KEY]. *)
Definition POST (request : option json) (apiKey : option jsstring)
  : Response * list jsstring :=
  match request with
  | None => (error_reply "Internal server error", [])
  | Some b =>
      match get_prop b (lit "transcript") with
      | None => (error_reply "Internal server error", [])
      | Some transcript =>
          if falsy transcript then (early_reply, [])
          else
            match transcript with
            | Val (JStr s) =>
                if blank s then (early_reply, [])
                else classify apiKey s
            | _ => (error_reply "Internal server error", [])
            end
      end
  end.

End Handler.

End Route.

(* ================================================================== *)
(** ** The streaming recorder component *)

Module Recorder.
Import Js Json.

(** *** Configuration *)

Definition DEEPGRAM_SAMPLE_RATE : Z := 16000.
Definition SILENCE_PROMPT_DELAY_MS : Z := 7000.
Definition EXTENDED_SILENCE_DELAY_MS : Z := 20000.
(** The literal delay of the eager-end [setTimeout]. *)
Definition EAGER_END_DELAY_MS : Z := 800.

(** *** Types of the component *)

Inductive TurnEvent : Type :=
| Update | StartOfTurn | EagerEndOfTurn | TurnResumed | EndOfTurn.

Inductive ConnectionState : Type :=
| disconnected | connecting | connected | processing | responding.

Record TurnState : Type := mkTurnState {
  turnIndex : Z;
  event : option TurnEvent;
  confidence : Q
}.

Definition ConnectionState_eqb (a b : ConnectionState) : bool :=
  match a, b with
  | disconnected, disconnected | connecting, connecting
  | connected, connected | processing, processing
  | responding, responding => true
  | _, _ => false
  end.

(** *** Frames of the turn-event transport *)

(** A [TurnInfo] frame; [ti_event] is [None] for an event name outside
    the five known ones. *)
Record TurnInfo : Type := mkTurnInfo {
  ti_event : option TurnEvent;
  turn_index : Z;
  transcript : jsstring;
  end_of_turn_confidence : Q
}.

(** [MOther] is a frame of another type, or one [JSON.parse] rejects. *)
Inductive Message : Type :=
| MConnected
| MTurnInfo (ti : TurnInfo)
| MError (description : jsstring)
| MOther.

Inductive ReadyState : Type := CONNECTING | OPEN | CLOSING | CLOSED.

(** *** Timers and boundary calls in flight *)

Definition id := nat.

(** The two closures handed to [setTimeout], with what they capture. *)
Inductive TimerCallback : Type :=
| EagerEndCallback (transcript : jsstring)
| SilenceCallback (timeout : Z).

Record Timer : Type := mkTimer {
  tid : id;
  due : Z;
  callback : TimerCallback
}.

(** Which continuation awaits a wait-intent call. *)
Inductive GateOrigin : Type := AtEagerEnd | AtEndOfTurn.

Record GateCall : Type := mkGateCall {
  gid : id;
  gtranscript : jsstring;
  gorigin : GateOrigin
}.

(** A process-stream call; [fclosure] is the [connectionState] its
    [processTranscript] closure captured. *)
Record FinalizerCall : Type := mkFinalizerCall {
  fid : id;
  ftranscript : jsstring;
  fclosure : ConnectionState
}.

(** What [fetch("/api/check-wait-intent")] and [response.json()] give:
    a rejected fetch, or a response with its [ok] flag and its parsed body
    ([None] when the body is absent or not JSON). *)
Inductive FetchOutcome : Type :=
| NetworkError
| HttpResponse (ok : bool) (body : option json).

(** One [data: ] line of the process-stream response, parsed. *)
Inductive Frame : Type :=
| FProcessing (message : jsstring)
| FResult (questionNumber : Z) (audioUrl : option jsstring)
| FDone
| FError (message : jsstring)
| FOther.

(** How the process-stream call ends: the reader reports [done], or the
    try block throws with the given message. *)
Inductive StreamEnd : Type :=
| StreamDone
| StreamThrows (message : jsstring).

(** *** Observable effects, in the order they happen *)

Inductive Effect : Type :=
| CancelAnimationFrame
| ClearTimeout (t : id)
| SetTimeout (t : id) (delay : Z)
| ProcessorDisconnect
| AudioContextClose
| MediaTracksStop
| WsSendCloseStream
| WsClose
| FetchCheckWaitIntent (call : id) (transcript : jsstring)
| FetchProcessStream (call : id) (transcript : jsstring)
| AudioPlay (url : jsstring).

(** *** The session *)

(** React state: the value last given to each setter. *)
Record Ui : Type := mkUi {
  connectionState : ConnectionState;
  error : jsstring;
  audioLevel : Z;
  isSpeaking : bool;
  liveTranscript : jsstring;
  turnState : TurnState;
  questionNumber : option Z;
  audioUrl : option jsstring;
  processingMessage : jsstring;
  isExtendedWait : bool
}.

(** The refs. An object ref is [true] when it is not null; a timer ref
    holds the timer id (browser timer ids are positive, hence truthy). *)
Record Refs : Type := mkRefs {
  websocketRef : bool;
  mediaStreamRef : bool;
  audioContextRef : bool;
  processorRef : bool;
  animationFrameRef : bool;
  isProcessingRef : bool;
  eagerEndTimeoutRef : option id;
  silenceTimeoutRef : option id;
  isCheckingWaitIntentRef : bool
}.

(** What lives outside the component: the clock, the timer table, the
    boundary calls in flight, the socket, and the trace of effects, the
    most recent first.
    [closure] is the [connectionState] captured by the handlers that
    [startListening] installed. *)
Record World : Type := mkWorld {
  now : Z;
  nextId : id;
  timers : list Timer;
  gateCalls : list GateCall;
  finalizerCalls : list FinalizerCall;
  wsReady : ReadyState;
  audioContextClosed : bool;
  closure : ConnectionState;
  trace : list Effect
}.

Record Session : Type := mkSession {
  ui : Ui;
  refs : Refs;
  world : World
}.

(** *** Field updates *)

Definition with_ui (f : Ui -> Ui) (s : Session) : Session :=
  mkSession (f (ui s)) (refs s) (world s).
Definition with_refs (f : Refs -> Refs) (s : Session) : Session :=
  mkSession (ui s) (f (refs s)) (world s).
Definition with_world (f : World -> World) (s : Session) : Session :=
  mkSession (ui s) (refs s) (f (world s)).

Definition setConnectionState (v : ConnectionState) : Session -> Session :=
  with_ui (fun u => mkUi v (error u) (audioLevel u) (isSpeaking u)
    (liveTranscript u) (turnState u) (questionNumber u) (audioUrl u)
    (processingMessage u) (isExtendedWait u)).
Definition setError (v : jsstring) : Session -> Session :=
  with_ui (fun u => mkUi (connectionState u) v (audioLevel u) (isSpeaking u)
    (liveTranscript u) (turnState u) (questionNumber u) (audioUrl u)
    (processingMessage u) (isExtendedWait u)).
Definition setAudioLevel (v : Z) : Session -> Session :=
  with_ui (fun u => mkUi (connectionState u) (error u) v (isSpeaking u)
    (liveTranscript u) (turnState u) (questionNumber u) (audioUrl u)
    (processingMessage u) (isExtendedWait u)).
Definition setIsSpeaking (v : bool) : Session -> Session :=
  with_ui (fun u => mkUi (connectionState u) (error u) (audioLevel u) v
    (liveTranscript u) (turnState u) (questionNumber u) (audioUrl u)
    (processingMessage u) (isExtendedWait u)).
Definition setLiveTranscript (v : jsstring) : Session -> Session :=
  with_ui (fun u => mkUi (connectionState u) (error u) (audioLevel u)
    (isSpeaking u) v (turnState u) (questionNumber u) (audioUrl u)
    (processingMessage u) (isExtendedWait u)).
Definition setTurnState (v : TurnState) : Session -> Session :=
  with_ui (fun u => mkUi (connectionState u) (error u) (audioLevel u)
    (isSpeaking u) (liveTranscript u) v (questionNumber u) (audioUrl u)
    (processingMessage u) (isExtendedWait u)).
Definition setQuestionNumber (v : option Z) : Session -> Session :=
  with_ui (fun u => mkUi (connectionState u) (error u) (audioLevel u)
    (isSpeaking u) (liveTranscript u) (turnState u) v (audioUrl u)
    (processingMessage u) (isExtendedWait u)).
Definition setAudioUrl (v : option jsstring) : Session -> Session :=
  with_ui (fun u => mkUi (connectionState u) (error u) (audioLevel u)
    (isSpeaking u) (liveTranscript u) (turnState u) (questionNumber u) v
    (processingMessage u) (isExtendedWait u)).
Definition setProcessingMessage (v : jsstring) : Session -> Session :=
  with_ui (fun u => mkUi (connectionState u) (error u) (audioLevel u)
    (isSpeaking u) (liveTranscript u) (turnState u) (questionNumber u)
    (audioUrl u) v (isExtendedWait u)).
Definition setIsExtendedWait (v : bool) : Session -> Session :=
  with_ui (fun u => mkUi (connectionState u) (error u) (audioLevel u)
    (isSpeaking u) (liveTranscript u) (turnState u) (questionNumber u)
    (audioUrl u) (processingMessage u) v).

Definition set_websocketRef (v : bool) : Session -> Session :=
  with_refs (fun r => mkRefs v (mediaStreamRef r) (audioContextRef r)
    (processorRef r) (animationFrameRef r) (isProcessingRef r)
    (eagerEndTimeoutRef r) (silenceTimeoutRef r) (isCheckingWaitIntentRef r)).
Definition set_mediaStreamRef (v : bool) : Session -> Session :=
  with_refs (fun r => mkRefs (websocketRef r) v (audioContextRef r)
    (processorRef r) (animationFrameRef r) (isProcessingRef r)
    (eagerEndTimeoutRef r) (silenceTimeoutRef r) (isCheckingWaitIntentRef r)).
Definition set_audioContextRef (v : bool) : Session -> Session :=
  with_refs (fun r => mkRefs (websocketRef r) (mediaStreamRef r) v
    (processorRef r) (animationFrameRef r) (isProcessingRef r)
    (eagerEndTimeoutRef r) (silenceTimeoutRef r) (isCheckingWaitIntentRef r)).
Definition set_processorRef (v : bool) : Session -> Session :=
  with_refs (fun r => mkRefs (websocketRef r) (mediaStreamRef r)
    (audioContextRef r) v (animationFrameRef r) (isProcessingRef r)
    (eagerEndTimeoutRef r) (silenceTimeoutRef r) (isCheckingWaitIntentRef r)).
Definition set_animationFrameRef (v : bool) : Session -> Session :=
  with_refs (fun r => mkRefs (websocketRef r) (mediaStreamRef r)
    (audioContextRef r) (processorRef r) v (isProcessingRef r)
    (eagerEndTimeoutRef r) (silenceTimeoutRef r) (isCheckingWaitIntentRef r)).
Definition set_isProcessingRef (v : bool) : Session -> Session :=
  with_refs (fun r => mkRefs (websocketRef r) (mediaStreamRef r)
    (audioContextRef r) (processorRef r) (animationFrameRef r) v
    (eagerEndTimeoutRef r) (silenceTimeoutRef r) (isCheckingWaitIntentRef r)).
Definition set_eagerEndTimeoutRef (v : option id) : Session -> Session :=
  with_refs (fun r => mkRefs (websocketRef r) (mediaStreamRef r)
    (audioContextRef r) (processorRef r) (animationFrameRef r)
    (isProcessingRef r) v (silenceTimeoutRef r) (isCheckingWaitIntentRef r)).
Definition set_silenceTimeoutRef (v : option id) : Session -> Session :=
  with_refs (fun r => mkRefs (websocketRef r) (mediaStreamRef r)
    (audioContextRef r) (processorRef r) (animationFrameRef r)
    (isProcessingRef r) (eagerEndTimeoutRef r) v (isCheckingWaitIntentRef r)).
Definition set_isCheckingWaitIntentRef (v : bool) : Session -> Session :=
  with_refs (fun r => mkRefs (websocketRef r) (mediaStreamRef r)
    (audioContextRef r) (processorRef r) (animationFrameRef r)
    (isProcessingRef r) (eagerEndTimeoutRef r) (silenceTimeoutRef r) v).

Definition set_now (v : Z) : Session -> Session :=
  with_world (fun w => mkWorld v (nextId w) (timers w) (gateCalls w)
    (finalizerCalls w) (wsReady w) (audioContextClosed w) (closure w) (trace w)).
Definition set_nextId (v : id) : Session -> Session :=
  with_world (fun w => mkWorld (now w) v (timers w) (gateCalls w)
    (finalizerCalls w) (wsReady w) (audioContextClosed w) (closure w) (trace w)).
Definition set_timers (v : list Timer) : Session -> Session :=
  with_world (fun w => mkWorld (now w) (nextId w) v (gateCalls w)
    (finalizerCalls w) (wsReady w) (audioContextClosed w) (closure w) (trace w)).
Definition set_gateCalls (v : list GateCall) : Session -> Session :=
  with_world (fun w => mkWorld (now w) (nextId w) (timers w) v
    (finalizerCalls w) (wsReady w) (audioContextClosed w) (closure w) (trace w)).
Definition set_finalizerCalls (v : list FinalizerCall) : Session -> Session :=
  with_world (fun w => mkWorld (now w) (nextId w) (timers w) (gateCalls w)
    v (wsReady w) (audioContextClosed w) (closure w) (trace w)).
Definition set_wsReady (v : ReadyState) : Session -> Session :=
  with_world (fun w => mkWorld (now w) (nextId w) (timers w) (gateCalls w)
    (finalizerCalls w) v (audioContextClosed w) (closure w) (trace w)).
Definition set_audioContextClosed (v : bool) : Session -> Session :=
  with_world (fun w => mkWorld (now w) (nextId w) (timers w) (gateCalls w)
    (finalizerCalls w) (wsReady w) v (closure w) (trace w)).
Definition set_trace (v : list Effect) : Session -> Session :=
  with_world (fun w => mkWorld (now w) (nextId w) (timers w) (gateCalls w)
    (finalizerCalls w) (wsReady w) (audioContextClosed w) (closure w) v).

(** Statements in source order: [s |> f |> g] runs [f], then [g]. *)
Notation "s |> f" := (f s) (at level 45, left associativity, only parsing).

Definition when (c : bool) (f : Session -> Session) (s : Session) : Session :=
  if c then f s else s.

(** *** Browser primitives *)

Definition emit (e : Effect) (s : Session) : Session :=
  set_trace (e :: trace (world s)) s.

(** A fresh handle for a timer or a call. *)
Definition fresh (s : Session) : id * Session :=
  (nextId (world s), set_nextId (S (nextId (world s))) s).

(** [setTimeout(cb, delay)] *)
Definition setTimeout (cb : TimerCallback) (delay : Z) (s : Session)
  : id * Session :=
  let (t, s) := fresh s in
  (t, s |> set_timers (timers (world s) ++ [mkTimer t (now (world s) + delay) cb])
        |> emit (SetTimeout t delay)).

(** [clearTimeout(t)]: nothing happens when [t] is no longer pending. *)
Definition clearTimeout (t : id) (s : Session) : Session :=
  s |> set_timers (filter (fun x => negb (Nat.eqb (tid x) t)) (timers (world s)))
    |> emit (ClearTimeout t).

(** [ws.close()] *)
Definition ws_close (s : Session) : Session :=
  let s := emit WsClose s in
  match wsReady (world s) with
  | CONNECTING | OPEN => set_wsReady CLOSING s
  | CLOSING | CLOSED => s
  end.

Definition is_open (r : ReadyState) : bool :=
  match r with OPEN => true | _ => false end.

Definition is_closed (r : ReadyState) : bool :=
  match r with CLOSED => true | _ => false end.

Definition whenever (c : Session -> bool) (f : Session -> Session)
  (s : Session) : Session :=
  if c s then f s else s.

(** [if (ref.current) { ... ref.current ... }] for a timer ref. *)
Definition if_timer (r : Refs -> option id) (f : id -> Session -> Session)
  (s : Session) : Session :=
  match r (refs s) with
  | Some t => f t s
  | None => s
  end.

(** *** cleanup *)

Definition cleanup (s : Session) : Session :=
  s |> whenever (fun s => animationFrameRef (refs s))
         (fun s => s |> emit CancelAnimationFrame |> set_animationFrameRef false)
    |> if_timer eagerEndTimeoutRef
         (fun t s => s |> clearTimeout t |> set_eagerEndTimeoutRef None)
    |> if_timer silenceTimeoutRef
         (fun t s => s |> clearTimeout t |> set_silenceTimeoutRef None)
    |> whenever (fun s => processorRef (refs s))
         (fun s => s |> emit ProcessorDisconnect |> set_processorRef false)
    |> whenever (fun s => audioContextRef (refs s)
                          && negb (audioContextClosed (world s)))
         (fun s => s |> emit AudioContextClose |> set_audioContextClosed true
                     |> set_audioContextRef false)
    |> whenever (fun s => mediaStreamRef (refs s))
         (fun s => s |> emit MediaTracksStop |> set_mediaStreamRef false)
    |> whenever (fun s => websocketRef (refs s))
         (fun s => s |> whenever (fun s => is_open (wsReady (world s)))
                          (emit WsSendCloseStream)
                     |> ws_close
                     |> set_websocketRef false)
    |> setAudioLevel 0
    |> setIsSpeaking false
    |> setIsExtendedWait false.

(** *** processTranscript *)

(** Up to the [fetch] of /api/process-stream; [captured] is the
    [connectionState] of the render that made this closure. *)
Definition processTranscript (captured : ConnectionState)
  (transcript : jsstring) (s : Session) : Session :=
  if blank transcript || isProcessingRef (refs s) then s
  else
    let s := s |> set_isProcessingRef true
               |> setConnectionState processing
               |> setProcessingMessage (lit "Analyzing your question...") in
    let (c, s) := fresh s in
    s |> set_finalizerCalls
           (finalizerCalls (world s) ++ [mkFinalizerCall c transcript captured])
      |> emit (FetchProcessStream c transcript).

(** One parsed line of a chunk. The hidden audio element is always
    mounted, so [audioRef.current] is not null. *)
Definition onFrame (f : Frame) (s : Session) : Session :=
  match f with
  | FProcessing m => setProcessingMessage m s
  | FResult q url =>
      s |> setQuestionNumber (Some q)
        |> setAudioUrl url
        |> setConnectionState responding
        |> match url with
           | Some u => when (truthy u) (emit (AudioPlay u))
           | None => fun s => s
           end
  | FDone => setProcessingMessage [] s
  | FError m => setError m s
  | FOther => s
  end.

Definition onChunk (frames : list Frame) (s : Session) : Session :=
  fold_left (fun s f => onFrame f s) frames s.

(** The catch and finally blocks. *)
Definition onStreamEnd (call : FinalizerCall) (r : StreamEnd) (s : Session)
  : Session :=
  s |> match r with
       | StreamThrows m => setError m
       | StreamDone => fun s => s
       end
    |> set_isProcessingRef false
    |> when (ConnectionState_eqb (fclosure call) processing)
         (setConnectionState disconnected).

(** *** checkWaitIntent *)

(** Up to the [fetch]: [Some false] is the promise already resolved by the
    guard, [None] a request now in flight. *)
Definition checkWaitIntent (origin : GateOrigin) (transcript : jsstring)
  (s : Session) : Session * option bool :=
  if blank transcript || isCheckingWaitIntentRef (refs s) then (s, Some false)
  else
    let s := set_isCheckingWaitIntentRef true s in
    let (c, s) := fresh s in
    (s |> set_gateCalls
            (gateCalls (world s) ++ [mkGateCall c transcript origin])
       |> emit (FetchCheckWaitIntent c transcript),
     None).

(** The value the promise resolves to once the fetch has settled. *)
Definition waitIntent_of (o : FetchOutcome) : bool :=
  match o with
  | NetworkError => false
  | HttpResponse false _ => false
  | HttpResponse true None => false
  | HttpResponse true (Some data) =>
      match get_prop data (lit "isWaitIntent") with
      | Some v => is_true v
      | None => false
      end
  end.

(** *** resetSilenceTimer *)

Definition resetSilenceTimer (useExtendedTimeout : bool) (s : Session)
  : Session :=
  let s := if_timer silenceTimeoutRef clearTimeout s in
  let timeout := if useExtendedTimeout then EXTENDED_SILENCE_DELAY_MS
                 else SILENCE_PROMPT_DELAY_MS in
  let (t, s) := setTimeout (SilenceCallback timeout) timeout s in
  set_silenceTimeoutRef (Some t) s.

Definition silenceCallback (s : Session) : Session :=
  s |> cleanup |> setConnectionState disconnected |> setIsExtendedWait false.

(** *** The code that runs on the wait-intent verdict *)

Definition onWaitIntent (origin : GateOrigin) (finalTranscript : jsstring)
  (isWaitIntent : bool) (s : Session) : Session :=
  match origin with
  | AtEagerEnd =>
      if isWaitIntent then
        s |> setIsExtendedWait true |> setLiveTranscript []
          |> resetSilenceTimer true
      else
        s |> cleanup |> setConnectionState processing
          |> processTranscript (closure (world s)) finalTranscript
  | AtEndOfTurn =>
      if isWaitIntent then
        s |> setIsExtendedWait true |> setLiveTranscript []
          |> resetSilenceTimer true
      else
        s |> cleanup |> setConnectionState processing
          |> processTranscript (closure (world s)) finalTranscript
  end.

(** Calling [checkWaitIntent] and awaiting it: a promise resolved by the
    guard runs its continuation before any other trigger. *)
Definition askWaitIntent (origin : GateOrigin) (finalTranscript : jsstring)
  (s : Session) : Session :=
  match checkWaitIntent origin finalTranscript s with
  | (s, Some isWaitIntent) => onWaitIntent origin finalTranscript isWaitIntent s
  | (s, None) => s
  end.

Definition eagerEndCallback (transcript : jsstring) (s : Session) : Session :=
  if truthy transcript && websocketRef (refs s)
  then askWaitIntent AtEagerEnd transcript s
  else s.

Definition runCallback (cb : TimerCallback) : Session -> Session :=
  match cb with
  | EagerEndCallback transcript => eagerEndCallback transcript
  | SilenceCallback _ => silenceCallback
  end.

(** *** startAudioProcessing and the socket handlers *)

Definition startAudioProcessing (s : Session) : Session :=
  s |> set_audioContextClosed false |> set_audioContextRef true
    |> set_processorRef true |> set_animationFrameRef true.

Definition onopen (s : Session) : Session :=
  s |> setConnectionState connected |> startAudioProcessing
    |> resetSilenceTimer false.

Definition clearEagerEnd : Session -> Session :=
  if_timer eagerEndTimeoutRef
    (fun t s => s |> clearTimeout t |> set_eagerEndTimeoutRef None).

Definition onTurnInfo (ti : TurnInfo) (s : Session) : Session :=
  let s := s |> setTurnState (mkTurnState (turn_index ti) (ti_event ti)
                                (end_of_turn_confidence ti))
             |> when (truthy (transcript ti))
                  (setLiveTranscript (transcript ti)) in
  match ti_event ti with
  | Some StartOfTurn =>
      s |> setIsSpeaking true |> setIsExtendedWait false
        |> resetSilenceTimer false |> clearEagerEnd
  | Some Update =>
      s |> when (truthy (transcript ti)) (resetSilenceTimer false)
  | Some EagerEndOfTurn =>
      let (t, s) :=
        setTimeout (EagerEndCallback (transcript ti)) EAGER_END_DELAY_MS s in
      set_eagerEndTimeoutRef (Some t) s
  | Some TurnResumed =>
      s |> resetSilenceTimer false |> clearEagerEnd |> setIsSpeaking true
  | Some EndOfTurn =>
      s |> clearEagerEnd
        |> when (truthy (transcript ti))
             (askWaitIntent AtEndOfTurn (transcript ti))
  | None => s
  end.

Definition onmessage (m : Message) (s : Session) : Session :=
  match m with
  | MConnected => s
  | MTurnInfo ti => onTurnInfo ti s
  | MError description =>
      s |> setError (if truthy description then description
                     else lit "Deepgram error occurred")
        |> cleanup |> setConnectionState disconnected
  | MOther => s
  end.

Definition onerror (s : Session) : Session :=
  s |> setError (lit "Connection error. Please try again.")
    |> cleanup |> setConnectionState disconnected.

Definition onclose (s : Session) : Session :=
  s |> when (ConnectionState_eqb (closure (world s)) connected)
         (setConnectionState disconnected).

(** *** The two buttons *)

Definition stopListening (s : Session) : Session :=
  let transcript := liveTranscript (ui s) in
  let s' := cleanup s in
  if negb (blank transcript)
  then processTranscript (connectionState (ui s)) transcript s'
  else setConnectionState disconnected s'.

Definition handleAudioEnded : Session -> Session :=
  setConnectionState disconnected.

(** *** The event loop *)

Inductive Trigger : Type :=
| WsOpen
| WsMessage (m : Message)
| WsError
| WsClosed
| Elapse (ms : Z)
| TimerFires (t : id)
| GateResolves (call : id) (o : FetchOutcome)
| FinalizerChunk (call : id) (frames : list Frame)
| FinalizerEnds (call : id) (r : StreamEnd)
| StopListening
| AudioEnded.

Definition find_timer (t : id) (s : Session) : option Timer :=
  find (fun x => Nat.eqb (tid x) t) (timers (world s)).
Definition find_gateCall (c : id) (s : Session) : option GateCall :=
  find (fun x => Nat.eqb (gid x) c) (gateCalls (world s)).
Definition find_finalizerCall (c : id) (s : Session) : option FinalizerCall :=
  find (fun x => Nat.eqb (fid x) c) (finalizerCalls (world s)).

Definition drop_timer (t : id) (s : Session) : Session :=
  set_timers (filter (fun x => negb (Nat.eqb (tid x) t)) (timers (world s))) s.
Definition drop_gateCall (c : id) (s : Session) : Session :=
  set_gateCalls
    (filter (fun x => negb (Nat.eqb (gid x) c)) (gateCalls (world s))) s.
Definition drop_finalizerCall (c : id) (s : Session) : Session :=
  set_finalizerCalls
    (filter (fun x => negb (Nat.eqb (fid x) c)) (finalizerCalls (world s))) s.

(** One trigger handled to completion; [None] when the trigger cannot
    happen in [s]: a frame on a socket that is not open, a timer that is
    not pending or not yet due, the settling of a call that is not in
    flight, the stop button while it is not shown. *)
Definition step (s : Session) (tr : Trigger) : option Session :=
  match tr with
  | WsOpen =>
      match wsReady (world s) with
      | CONNECTING => Some (s |> set_wsReady OPEN |> onopen)
      | _ => None
      end
  | WsMessage m =>
      if is_open (wsReady (world s)) then Some (onmessage m s) else None
  | WsError =>
      if is_closed (wsReady (world s)) then None else Some (onerror s)
  | WsClosed =>
      if is_closed (wsReady (world s)) then None
      else Some (s |> set_wsReady CLOSED |> onclose)
  | Elapse ms =>
      if (0 <=? ms)%Z then Some (set_now (now (world s) + ms) s) else None
  | TimerFires t =>
      match find_timer t s with
      | Some x =>
          if (due x <=? now (world s))%Z
          then Some (s |> drop_timer t |> runCallback (callback x))
          else None
      | None => None
      end
  | GateResolves c o =>
      match find_gateCall c s with
      | Some g =>
          Some (s |> drop_gateCall c
                  |> set_isCheckingWaitIntentRef false
                  |> onWaitIntent (gorigin g) (gtranscript g) (waitIntent_of o))
      | None => None
      end
  | FinalizerChunk c frames =>
      match find_finalizerCall c s with
      | Some _ => Some (onChunk frames s)
      | None => None
      end
  | FinalizerEnds c r =>
      match find_finalizerCall c s with
      | Some f => Some (s |> drop_finalizerCall c |> onStreamEnd f r)
      | None => None
      end
  | StopListening =>
      if ConnectionState_eqb (connectionState (ui s)) connected
      then Some (stopListening s) else None
  | AudioEnded => Some (handleAudioEnded s)
  end.

Fixpoint run (s : Session) (l : list Trigger) : option Session :=
  match l with
  | [] => Some s
  | tr :: r =>
      match step s tr with
      | Some s' => run s' r
      | None => None
      end
  end.

(** The session once [startListening] has its microphone stream and has
    constructed the socket; [captured] is the [connectionState] of the
    render whose [startListening] ran. *)
Definition initial_session (captured : ConnectionState) : Session :=
  mkSession
    (mkUi connecting [] 0 false [] (mkTurnState 0 None 0%Q) None None [] false)
    (mkRefs true true false false false false None None false)
    (mkWorld 0 1%nat [] [] [] CONNECTING false captured []).

End Recorder.

(* ================================================================== *)
(** ** Vocabulary of the properties *)

Module Vocabulary.
Import Js Json Recorder.

(** The effects that happened between [s] and a later [s']. *)
Definition since (s s' : Session) : list Effect :=
  rev (firstn (List.length (trace (world s')) - List.length (trace (world s)))
         (trace (world s'))).

(** The transcripts handed to the Finalizer (requests to
    /api/process-stream) among some effects, in order. *)
Fixpoint finalized (es : list Effect) : list jsstring :=
  match es with
  | [] => []
  | FetchProcessStream _ t :: r => t :: finalized r
  | _ :: r => finalized r
  end.

(** The transcripts sent to the Wait-Intent Gate among some effects. *)
Fixpoint gated (es : list Effect) : list jsstring :=
  match es with
  | [] => []
  | FetchCheckWaitIntent _ t :: r => t :: gated r
  | _ :: r => gated r
  end.

(** [clearTimeout] of what a timer ref holds, on the timer table. *)
Definition cancel (r : option id) (l : list Timer) : list Timer :=
  match r with
  | Some t => filter (fun x => negb (Nat.eqb (tid x) t)) l
  | None => l
  end.

(** What [cleanup] does to the outside, read off the refs. *)
Definition cleanup_effects (s : Session) : list Effect :=
  (if animationFrameRef (refs s) then [CancelAnimationFrame] else [])
  ++ match eagerEndTimeoutRef (refs s) with
     | Some t => [ClearTimeout t] | None => [] end
  ++ match silenceTimeoutRef (refs s) with
     | Some t => [ClearTimeout t] | None => [] end
  ++ (if processorRef (refs s) then [ProcessorDisconnect] else [])
  ++ (if audioContextRef (refs s) && negb (audioContextClosed (world s))
      then [AudioContextClose] else [])
  ++ (if mediaStreamRef (refs s) then [MediaTracksStop] else [])
  ++ (if websocketRef (refs s)
      then (if is_open (wsReady (world s)) then [WsSendCloseStream] else [])
           ++ [WsClose]
      else []).

Definition closing (r : ReadyState) : ReadyState :=
  match r with
  | CONNECTING | OPEN => CLOSING
  | CLOSING | CLOSED => r
  end.

(** Every resource ref is null and no timer ref is set. *)
Definition torn_down (s : Session) : Prop :=
  websocketRef (refs s) = false /\ mediaStreamRef (refs s) = false
  /\ processorRef (refs s) = false /\ animationFrameRef (refs s) = false
  /\ eagerEndTimeoutRef (refs s) = None /\ silenceTimeoutRef (refs s) = None.

(** The four kinds of resource the teardown releases. *)
Inductive Resource : Type :=
| PendingTimers | OutboundAudio | Microphone | Transport.

Definition released_by (e : Effect) : option Resource :=
  match e with
  | CancelAnimationFrame | ClearTimeout _ => Some PendingTimers
  | ProcessorDisconnect | AudioContextClose => Some OutboundAudio
  | MediaTracksStop => Some Microphone
  | WsSendCloseStream | WsClose => Some Transport
  | _ => None
  end.

(** The order in the words of the specification: timers, outbound audio,
    transport close, microphone. *)
Definition stated_rank (r : Resource) : nat :=
  match r with
  | PendingTimers => 0 | OutboundAudio => 1 | Transport => 2 | Microphone => 3
  end.

(** The order of the statements of [cleanup]: timers, outbound audio,
    microphone, transport close. *)
Definition cleanup_rank (r : Resource) : nat :=
  match r with
  | PendingTimers => 0 | OutboundAudio => 1 | Microphone => 2 | Transport => 3
  end.

Definition not_after (rank : Resource -> nat) (e e' : Effect) : bool :=
  match released_by e, released_by e' with
  | Some r, Some r' => Nat.leb (rank r) (rank r')
  | _, _ => true
  end.

(** No effect releases a resource of a later rank than an effect after it. *)
Fixpoint in_order (rank : Resource -> nat) (es : list Effect) : bool :=
  match es with
  | [] => true
  | e :: r => forallb (not_after rank e) r && in_order rank r
  end.

(** The ways a wait-intent request fails: the fetch rejects, the response
    is not OK, the body is absent or not JSON, or the body holds no boolean
    [isWaitIntent]. *)
Inductive GateFailure : FetchOutcome -> Prop :=
| transport_failure : GateFailure NetworkError
| response_not_ok : forall body, GateFailure (HttpResponse false body)
| body_absent : forall ok, GateFailure (HttpResponse ok None)
| body_malformed : forall ok data,
    (forall b, get_prop data (lit "isWaitIntent") <> Some (Val (JBool b))) ->
    GateFailure (HttpResponse ok (Some data)).

(** A [transcript] field that is missing, empty or only whitespace. *)
Inductive NoTranscript : jsvalue -> Prop :=
| transcript_missing : NoTranscript Undefined
| transcript_blank : forall s,
    forallb is_white_space s = true -> NoTranscript (Val (JStr s)).

(** The flag [isCheckingWaitIntentRef] counts the requests in flight. *)
Definition one_gate_call (s : Session) : Prop :=
  List.length (gateCalls (world s))
  = if isCheckingWaitIntentRef (refs s) then 1%nat else 0%nat.

Definition pending (t : id) (s : Session) : Prop :=
  In t (map tid (timers (world s))).

(** Handles are handed out in increasing order. *)
Definition timers_fresh (s : Session) : Prop :=
  forall x, In x (timers (world s)) -> (tid x < nextId (world s))%nat.

(** The triggers that never touch the watchdog: time passing, and frames
    that carry no speech (no [StartOfTurn], no [TurnResumed], no end of
    turn, no [Update] with a transcript). *)
Definition quiet (tr : Trigger) : bool :=
  match tr with
  | Elapse _ => true
  | WsMessage MConnected => true
  | WsMessage MOther => true
  | WsMessage (MTurnInfo ti) =>
      match ti_event ti with
      | None => true
      | Some Update => negb (truthy (transcript ti))
      | Some _ => false
      end
  | _ => false
  end.

(** Timer [k] has been handed out, and it is pending only if [live] and
    then only as the timer [eagerEndTimeoutRef] holds. *)
Definition candidate (k : id) (live : bool) (s : Session) : Prop :=
  (k < nextId (world s))%nat
  /\ (pending k s -> live = true /\ eagerEndTimeoutRef (refs s) = Some k).

Definition is_eagerEnd (tr : Trigger) : bool :=
  match tr with
  | WsMessage (MTurnInfo ti) =>
      match ti_event ti with
      | Some EagerEndOfTurn => true
      | _ => false
      end
  | _ => false
  end.

(** A trigger inside the confirmation window of the candidate whose timer
    is [k]: not the firing of [k], and not a further [EagerEndOfTurn]. *)
Definition within_window (k : id) (tr : Trigger) : bool :=
  match tr with
  | TimerFires t => negb (Nat.eqb t k)
  | _ => negb (is_eagerEnd tr)
  end.

(** Between [s] and [s'] there were effects, none of them a Gate or a
    Finalizer request. *)
Definition no_request (s s' : Session) : Prop :=
  exists es, trace (world s') = es ++ trace (world s)
             /\ gated es = [] /\ finalized es = [].

(** The session right after the socket has opened. *)
Definition listening : Session :=
  match step (initial_session disconnected) WsOpen with
  | Some s => s
  | None => initial_session disconnected
  end.

(** The session after some triggers on a listening one. *)
Definition after (l : list Trigger) : Session :=
  match run listening l with
  | Some s => s
  | None => listening
  end.

Definition turnInfo (e : TurnEvent) (t : string) : Trigger :=
  WsMessage (MTurnInfo (mkTurnInfo (Some e) 0 (lit t) 0%Q)).

Definition reply (isWaitIntent : bool) : FetchOutcome :=
  HttpResponse true (Some (JObj [(lit "isWaitIntent", JBool isWaitIntent)])).

End Vocabulary.

(* ================================================================== *)
(** ** Invariants of the event loop *)

Module Invariants.
Import Js Json Recorder Vocabulary.

(** The flag [isProcessingRef] counts the process-stream calls in flight. *)
Definition one_finalizer_call (s : Session) : Prop :=
  List.length (finalizerCalls (world s))
  = if isProcessingRef (refs s) then 1%nat else 0%nat.

Definition is_watchdog (x : Timer) : bool :=
  match callback x with
  | SilenceCallback _ => true
  | EagerEndCallback _ => false
  end.

(** The pending timers armed by [resetSilenceTimer]. *)
Definition watchdogs (s : Session) : list Timer :=
  filter is_watchdog (timers (world s)).

(** At most one watchdog is pending, and [silenceTimeoutRef] holds it. *)
Definition one_watchdog (s : Session) : Prop :=
  (List.length (watchdogs s) <= 1)%nat
  /\ forall x, In x (watchdogs s) -> silenceTimeoutRef (refs s) = Some (tid x).

Definition shut (r : ReadyState) : Prop := r = CLOSING \/ r = CLOSED.

(** A socket the ref no longer holds has been closed by [cleanup]. *)
Definition dropped_socket_shut (s : Session) : Prop :=
  websocketRef (refs s) = false -> shut (wsReady (world s)).

(** The socket ref is null and the socket closing or closed. *)
Definition closed_down (s : Session) : Prop :=
  websocketRef (refs s) = false /\ shut (wsReady (world s)).

(** Socket, microphone stream and audio processor have been released. *)
Definition released (s : Session) : Prop :=
  websocketRef (refs s) = false /\ mediaStreamRef (refs s) = false
  /\ processorRef (refs s) = false.

(** No transcript has been handed to the Finalizer yet, or the session
    holds no resource any more. *)
Definition idle_once_handed_off (s : Session) : Prop :=
  finalized (trace (world s)) = [] \/ released s.

(** Between [s] and [s'] no wait-intent request was sent. *)
Definition no_gate (s s' : Session) : Prop :=
  exists es, trace (world s') = es ++ trace (world s) /\ gated es = [].

(** No [processTranscript] closure, of the handlers or of a call in flight,
    captured the state [processing]. *)
Definition never_captured_processing (s : Session) : Prop :=
  closure (world s) <> processing
  /\ forall f, In f (finalizerCalls (world s)) -> fclosure f <> processing.

(** Timer handles, pending or held by a ref, are below the next handle. *)
Definition handles_fresh (s : Session) : Prop :=
  timers_fresh s
  /\ (forall e, eagerEndTimeoutRef (refs s) = Some e ->
        (e < nextId (world s))%nat)
  /\ (forall w, silenceTimeoutRef (refs s) = Some w ->
        (w < nextId (world s))%nat).

(** The refs other than the two in-flight flags, which only
    [checkWaitIntent] and [processTranscript] set. *)
Record RefsButFlags : Type := mkRefsButFlags {
  rb_websocket : bool;
  rb_mediaStream : bool;
  rb_audioContext : bool;
  rb_processor : bool;
  rb_animationFrame : bool;
  rb_eagerEnd : option id;
  rb_silence : option id
}.

Definition refs_but_flag (r : Refs) : RefsButFlags :=
  mkRefsButFlags (websocketRef r) (mediaStreamRef r) (audioContextRef r)
    (processorRef r) (animationFrameRef r) (eagerEndTimeoutRef r)
    (silenceTimeoutRef r).

(** A frame that tells of speech: [StartOfTurn], [TurnResumed], or an
    [Update] that carries a transcript. *)
Definition speech (ti : TurnInfo) : bool :=
  match ti_event ti with
  | Some StartOfTurn => true
  | Some TurnResumed => true
  | Some Update => truthy (transcript ti)
  | _ => false
  end.

Definition is_result (f : Frame) : bool :=
  match f with
  | FResult _ _ => true
  | _ => false
  end.

(** As long as nothing has been handed to the Finalizer, no process-stream
    call is in flight. *)
Definition idle_until_handed_off (s : Session) : Prop :=
  finalized (trace (world s)) = [] -> isProcessingRef (refs s) = false.

(** The effects of [s] are those of [base] and what came after. *)
Definition extends (base : list Effect) (s : Session) : Prop :=
  exists es, trace (world s) = es ++ base.

(** The wait-intent request [g] has been sent: its handle is used up, and a
    request in flight under that handle is [g]. *)
Definition call_issued (g : GateCall) (s : Session) : Prop :=
  (gid g < nextId (world s))%nat
  /\ forall x, In x (gateCalls (world s)) -> gid x = gid g -> x = g.

(** The wait-intent request with handle [c] is in flight. *)
Definition in_flight (c : id) (s : Session) : Prop :=
  In c (map gid (gateCalls (world s))).

End Invariants.

(* ================================================================== *)
(** ** startListening *)

Module Launch.
Import Js Json Recorder.

(** What a catch block sees: an [Error] with its message, or another value. *)
Definition Thrown := option jsstring.

(** How the awaited steps of [startListening] turn out, in source order:
    the token request, its body, the microphone request, the construction of
    the socket. *)
Inductive Outcome : Type :=
| TokenFetchRejected (err : Thrown)
| TokenNotOk
| TokenBodyUnusable (err : Thrown)
| MicrophoneRejected (err : Thrown)
| SocketThrows (err : Thrown)
| SocketConstructed.

Definition set_closure (v : ConnectionState) : Session -> Session :=
  with_world (fun w => mkWorld (now w) (nextId w) (timers w) (gateCalls w)
    (finalizerCalls w) (wsReady w) (audioContextClosed w) v (trace w)).

(** The component as mounted: the initial values of [useState] and
    [useRef]; there is no socket yet. *)
Definition mounted : Session :=
  mkSession
    (mkUi disconnected [] 0 false [] (mkTurnState 0 None 0%Q) None None [] false)
    (mkRefs false false false false false false None None false)
    (mkWorld 0 1%nat [] [] [] CLOSED false disconnected []).

(** Up to the token request. The handlers installed later close over the
    [connectionState] of the render that made this [startListening].
    Pausing the audio element changes nothing a session records. *)
Definition begin (s : Session) : Session :=
  s |> set_closure (connectionState (ui s))
    |> setError []
    |> setConnectionState connecting
    |> setLiveTranscript []
    |> setQuestionNumber None
    |> setAudioUrl None
    |> setTurnState (mkTurnState 0 None 0%Q)
    |> setIsExtendedWait false.

(** The catch block. *)
Definition caught (err : Thrown) (s : Session) : Session :=
  s |> setError (match err with
                 | Some message => message
                 | None => lit "Failed to start listening"
                 end)
    |> cleanup
    |> setConnectionState disconnected.

(** [mediaStreamRef.current = stream] *)
Definition gotStream : Session -> Session := set_mediaStreamRef true.

(** [websocketRef.current = ws], a socket that is connecting. *)
Definition gotSocket (s : Session) : Session :=
  s |> set_wsReady CONNECTING |> set_websocketRef true.

(** [startListening] when nothing else happens between its awaits. *)
Definition startListening (o : Outcome) (s : Session) : Session :=
  let s := begin s in
  match o with
  | TokenFetchRejected err => caught err s
  | TokenNotOk => caught (Some (lit "Failed to get Deepgram token")) s
  | TokenBodyUnusable err => caught err s
  | MicrophoneRejected err => caught err s
  | SocketThrows err => s |> gotStream |> caught err
  | SocketConstructed => s |> gotStream |> gotSocket
  end.

Definition failed (o : Outcome) : bool :=
  match o with
  | SocketConstructed => false
  | _ => true
  end.

(** The message the catch block shows for a failed launch. *)
Definition shown (o : Outcome) : jsstring :=
  let message (err : Thrown) :=
    match err with
    | Some m => m
    | None => lit "Failed to start listening"
    end in
  match o with
  | TokenFetchRejected err => message err
  | TokenNotOk => lit "Failed to get Deepgram token"
  | TokenBodyUnusable err => message err
  | MicrophoneRejected err => message err
  | SocketThrows err => message err
  | SocketConstructed => []
  end.

End Launch.

(* ================================================================== *)
(** ** The process-stream route handler *)

Module StreamRoute.
Import Js Json.

(** What [model.generateContent(prompt)] followed by
    [result.response.text()] gives: a thrown value (an [Error] with its
    message, or something else), or the reply text. *)
Inductive Generated : Type :=
| Throws (err : option jsstring)
| Replies (text : jsstring).

(** A JSON response with its status, or an event stream with the events
    enqueued, in order, before the stream is closed, each as
    [JSON.stringify] writes it. *)
Inductive Reply : Type :=
| Plain (status : Z) (body : json)
| EventStream (frames : list json).

Definition prompt_prefix : jsstring :=
  lit "You are analyzing a user's question about money transfers. The user may ask their question in a vague or indirect way, so you need to reason about what they're likely asking."
  ++ Route.nl ++ Route.nl
  ++ lit "Here are the possible questions:" ++ Route.nl
  ++ lit "1. How do I check my transfer's status?" ++ Route.nl
  ++ lit "2. When will my money arrive?" ++ Route.nl
  ++ lit "3. Why does it say my transfer's complete when the money hasn't arrived yet?" ++ Route.nl
  ++ lit "4. Why is my transfer taking longer than the estimate?" ++ Route.nl
  ++ lit "5. What is a proof of payment?" ++ Route.nl
  ++ lit "6. What's a banking partner reference number?" ++ Route.nl ++ Route.nl
  ++ lit "User's question: " ++ Route.dq.

Definition prompt_suffix : jsstring :=
  Route.dq ++ Route.nl ++ Route.nl
  ++ lit "Analyze the user's question and determine which of the above questions (1, 2, ..., 6) they are most likely asking."
  ++ Route.nl ++ Route.nl
  ++ lit "If the question doesn't match any of the above, return -1."
  ++ Route.nl ++ Route.nl
  ++ lit "Respond ONLY with valid JSON in this exact format:" ++ Route.nl
  ++ lit "{" ++ Route.quoted "questionNumber" ++ lit ": <number>}"
  ++ Route.nl ++ Route.nl
  ++ lit "Do not include any other text, explanation, or formatting. Just the JSON.".

Definition prompt (transcript : jsstring) : jsstring :=
  prompt_prefix ++ transcript ++ prompt_suffix.

(** The objects handed to [JSON.stringify]. *)
Definition processing_frame : json :=
  JObj [(lit "type", JStr (lit "processing"));
        (lit "message", JStr (lit "Analyzing your question..."))].

Definition result_frame (questionNumber : json) (audioUrl : option jsstring)
  (transcript : jsstring) : json :=
  JObj [(lit "type", JStr (lit "result"));
        (lit "questionNumber", questionNumber);
        (lit "audioUrl", match audioUrl with
                         | Some u => JStr u
                         | None => JNull
                         end);
        (lit "transcript", JStr transcript)].

Definition done_frame : json := JObj [(lit "type", JStr (lit "done"))].

Definition error_frame (message : jsstring) : json :=
  JObj [(lit "type", JStr (lit "error")); (lit "message", JStr message)].

Definition minus_one : json := JNum (-1 # 1).

Definition is_integer (q : Q) : bool :=
  (Qnum q mod Zpos (Qden q) =? 0)%Z.

(** A JavaScript number as a comparison sees it. *)
Inductive number : Type :=
| NaN
| Finite (q : Q)
| Infinite (negative : bool).

(** [a <= b] *)
Definition leq (a b : number) : bool :=
  match a, b with
  | NaN, _ => false
  | _, NaN => false
  | Infinite true, _ => true
  | _, Infinite false => true
  | Infinite false, _ => false
  | _, Infinite true => false
  | Finite x, Finite y => Qle_bool x y
  end.

(** The decimal digits of an integer, as [Number::toString] prints them. *)
Definition decimal (z : Z) : jsstring :=
  lit (DecimalString.NilZero.string_of_int (Z.to_int z)).

Section Handler.

(** Builtins: [JSON.parse] ([None] is a SyntaxError), the number a string
    converts to, and the string a value converts to where it is not written
    out below. *)
Variable JSON_parse : jsstring -> option json.
Variable StringToNumber : jsstring -> number.
Variable ToString : json -> jsstring.
(** The language model behind [generateContent]. *)
Variable llm : jsstring -> Generated.

(** [`${v}`]: integers below 10^21 print their decimal digits. *)
Definition to_string (v : json) : jsstring :=
  match v with
  | JNull => lit "null"
  | JBool true => lit "true"
  | JBool false => lit "false"
  | JStr s => s
  | JNum q =>
      if is_integer q && (Z.abs (Qnum q / Zpos (Qden q)) <? 10 ^ 21)%Z
      then decimal (Qnum q / Zpos (Qden q))
      else ToString v
  | JInfinity false => lit "Infinity"
  | JInfinity true => lit "-Infinity"
  | _ => ToString v
  end.

(** The number a value is compared as. *)
Definition to_number (v : json) : number :=
  match v with
  | JNull => Finite 0
  | JBool b => Finite (if b then 1 else 0)
  | JNum q => Finite q
  | JInfinity negative => Infinite negative
  | JStr s => StringToNumber s
  | _ => StringToNumber (ToString v)
  end.

(** [questionNumber >= 1 && questionNumber <= 6] *)
Definition in_range (questionNumber : json) : bool :=
  leq (Finite 1) (to_number questionNumber)
  && leq (to_number questionNumber) (Finite 6).

(** The inner try block: [parsed.questionNumber || -1], and [-1] when the
    reply holds no object or [JSON.parse] or the property read throws. *)
Definition read_questionNumber (responseText : jsstring) : json :=
  match Route.brace_match responseText with
  | Some m =>
      match JSON_parse m with
      | Some parsed =>
          match get_prop parsed (lit "questionNumber") with
          | Some (Val v) => if falsy (Val v) then minus_one else v
          | Some Undefined => minus_one
          | None => minus_one
          end
      | None => minus_one
      end
  | None => minus_one
  end.

Definition audioUrl_of (questionNumber : json) : option jsstring :=
  if in_range questionNumber
  then Some (lit "/" ++ to_string questionNumber ++ lit "question.mp3")
  else None.

(** What [start(controller)] enqueues: each object as [JSON.stringify]
    writes it. *)
Definition stream (transcript : jsstring) : list json :=
  map wire
    (processing_frame
     :: match llm (prompt transcript) with
        | Replies responseText =>
            let questionNumber := read_questionNumber responseText in
            [result_frame questionNumber (audioUrl_of questionNumber)
               transcript;
             done_frame]
        | Throws err =>
            [error_frame (match err with
                          | Some message => message
                          | None => lit "Unknown error"
                          end)]
        end).

Definition plain_error (status : Z) (msg : string) : Reply :=
  Plain status (JObj [(lit "error", JStr (lit msg))]).

(** [POST]; the second component lists the prompts sent to the model. *)
Definition POST (request : option json) (apiKey : option jsstring)
  : Reply * list jsstring :=
  match request with
  | None => (plain_error 500 "Internal server error", [])
  | Some b =>
      match get_prop b (lit "transcript") with
      | None => (plain_error 500 "Internal server error", [])
      | Some transcript =>
          if falsy transcript
          then (plain_error 400 "No transcript provided", [])
          else
            match transcript with
            | Val (JStr s) =>
                if blank s then (plain_error 400 "No transcript provided", [])
                else
                  match apiKey with
                  | Some (_ :: _) => (EventStream (stream s), [prompt s])
                  | _ => (plain_error 500
                            "Google GenAI API key not configured", [])
                  end
            | _ => (plain_error 500 "Internal server error", [])
            end
      end
  end.

End Handler.

(** The replies from which the route reads no question number: no text
    between braces, text that is not JSON, [null], no [questionNumber] or a
    falsy one; those with an integer outside 1..6 that a double holds
    exactly; and those with a numeral beyond the range of a double. The
    index is the question number the event then carries. *)
Inductive Unmatched (JSON_parse : jsstring -> option json) (text : jsstring)
  : json -> Prop :=
| no_braces : Route.brace_match text = None ->
    Unmatched JSON_parse text minus_one
| not_json m : Route.brace_match text = Some m -> JSON_parse m = None ->
    Unmatched JSON_parse text minus_one
| no_number m parsed : Route.brace_match text = Some m ->
    JSON_parse m = Some parsed ->
    (forall v, get_prop parsed (lit "questionNumber") = Some v ->
               falsy v = true) ->
    Unmatched JSON_parse text minus_one
| out_of_range m parsed n : Route.brace_match text = Some m ->
    JSON_parse m = Some parsed ->
    get_prop parsed (lit "questionNumber") = Some (Val (JNum (inject_Z n))) ->
    (n < 0 \/ 6 < n)%Z ->
    (- 2 ^ 53 <= n <= 2 ^ 53)%Z ->
    Unmatched JSON_parse text (JNum (inject_Z n))
| beyond_double m parsed negative : Route.brace_match text = Some m ->
    JSON_parse m = Some parsed ->
    get_prop parsed (lit "questionNumber") = Some (Val (JInfinity negative)) ->
    Unmatched JSON_parse text JNull.

(** [`data: ${payload}\n\n`] *)
Definition encode_event (payload : jsstring) : jsstring :=
  lit "data: " ++ payload ++ [10%N; 10%N].

End StreamRoute.

(* ================================================================== *)
(** ** The lines of a process-stream chunk, on the client *)

Module EventLines.
Import Js.

(** [chunk.split("\n")] *)
Fixpoint split_lines (chunk : jsstring) : list jsstring :=
  match chunk with
  | [] => [[]]
  | c :: r =>
      if (c =? 10)%N then [] :: split_lines r
      else
        match split_lines r with
        | l :: ls => (c :: l) :: ls
        | [] => [[c]]
        end
  end.

(** [line.startsWith(prefix)] *)
Fixpoint startsWith (prefix line : jsstring) : bool :=
  match prefix, line with
  | [], _ => true
  | p :: ps, c :: cs => (p =? c)%N && startsWith ps cs
  | _ :: _, [] => false
  end.

(** [line.slice(6)] *)
Definition slice6 (line : jsstring) : jsstring := skipn 6 line.

(** The texts handed to [JSON.parse], in order. *)
Definition payloads (chunk : jsstring) : list jsstring :=
  map slice6 (filter (startsWith (lit "data: ")) (split_lines chunk)).

Definition no_newline (s : jsstring) : bool :=
  forallb (fun c => negb (c =? 10)%N) s.

End EventLines.

(* ================================================================== *)
(** ** The transcribe route handler *)

Module Transcribe.
Import Js Json.

(** What a catch block sees: an [Error] with its message, or another value. *)
Definition Thrown := option jsstring.

(** The errors the engine itself throws in this code; their messages are
    the engine's. *)
Inductive Fault : Type :=
| ReadOfNull
| NotAFunction
| StatusOutOfRange
| NullBodyStatus
| NotJson.

(** [formData.get('audio')], or the rejection of [request.formData()] or of
    [audioFile.arrayBuffer()]. *)
Inductive Form : Type :=
| FormThrows (err : Thrown)
| Absent
| Text (value : jsstring)
| UnreadableFile (err : Thrown)
| File (type : jsstring) (content : list N).

(** The request to Deepgram: [fetch] or the reading of the body rejects, or
    the response arrives with its status and the text of its body. *)
Inductive Upstream : Type :=
| UpThrows (err : Thrown)
| UpResponds (status : Z) (text : jsstring).

(** A request sent to Deepgram. *)
Record Listen : Type := mkListen {
  authorization : jsstring;
  contentType : jsstring;
  payload : list N
}.

(** [response.ok] *)
Definition ok (status : Z) : bool := (200 <=? status)%Z && (status <=? 299)%Z.

(** [v?.k] for a key no prototype defines. *)
Definition opt_prop (v : jsvalue) (k : jsstring) : jsvalue :=
  match v with
  | Val (JObj fields) => lookup k fields
  | _ => Undefined
  end.

(** [v?.[0]] *)
Definition opt_first (v : jsvalue) : jsvalue :=
  match v with
  | Val (JArr (x :: _)) => Val x
  | Val (JStr (c :: _)) => Val (JStr [c])
  | Val (JObj fields) => lookup (lit "0") fields
  | _ => Undefined
  end.

(** [data.results?.channels?.[0]?.alternatives?.[0]?.transcript]; [None]
    when [data] is [null]. *)
Definition transcript_of (data : json) : option jsvalue :=
  match get_prop data (lit "results") with
  | Some results =>
      Some (opt_prop (opt_first (opt_prop (opt_first
              (opt_prop results (lit "channels"))) (lit "alternatives")))
              (lit "transcript"))
  | None => None
  end.

(** A transcript that is missing, falsy or only whitespace. *)
Definition silent (v : jsvalue) : Prop :=
  falsy v = true
  \/ exists s, v = Val (JStr s) /\ forallb is_white_space s = true.

Definition prompt_prefix : jsstring :=
  lit "You are analyzing a user's question about money transfers. The user may ask their question in a vague or indirect way, so you need to reason about what they're likely asking."
  ++ Route.nl ++ Route.nl
  ++ lit "Here are the possible questions:" ++ Route.nl
  ++ lit "1. How do I check my transfer's status?" ++ Route.nl
  ++ lit "2. When will my money arrive?" ++ Route.nl
  ++ lit "3. Why does it say my transfer's complete when the money hasn't arrived yet?" ++ Route.nl
  ++ lit "4. Why is my transfer taking longer than the estimate?" ++ Route.nl
  ++ lit "5. What is a proof of payment?" ++ Route.nl
  ++ lit "6. What's a banking partner reference number?" ++ Route.nl
  ++ Route.nl ++ Route.nl
  ++ lit "User's question: " ++ Route.dq.

Definition prompt (transcript : jsstring) : jsstring :=
  prompt_prefix ++ transcript ++ StreamRoute.prompt_suffix.

Definition plain_error (status : Z) (msg : string) : Route.Response :=
  Route.mkResponse status (JObj [(lit "error", JStr (lit msg))]).

Definition upstream_error (status : Z) (errorText : jsstring)
  : Route.Response :=
  Route.mkResponse status
    (JObj [(lit "error", JStr (lit "Failed to transcribe audio"));
           (lit "details", JStr errorText)]).

(** The reply for an empty transcript. *)
Definition early_reply : Route.Response :=
  Route.mkResponse 200
    (JObj [(lit "transcript", JStr []);
           (lit "questionNumber", StreamRoute.minus_one)]).

(** The reply with the result, as [NextResponse.json] writes it. *)
Definition result_reply (transcript : jsstring) (questionNumber : json)
  (audioUrl : option jsstring) : Route.Response :=
  Route.mkResponse 200
    (wire (JObj [(lit "transcript", JStr transcript);
                 (lit "questionNumber", questionNumber);
                 (lit "audioUrl", match audioUrl with
                                  | Some u => JStr u
                                  | None => JNull
                                  end)])).

Section Handler.

Variable JSON_parse : jsstring -> option json.
Variable StringToNumber : jsstring -> StreamRoute.number.
Variable ToString : json -> jsstring.
Variable engine_message : Fault -> jsstring.
(** Deepgram, and the language model behind [generateContent]. *)
Variable deepgram : Listen -> Upstream.
Variable llm : jsstring -> StreamRoute.Generated.

(** The catch block. *)
Definition internal_error (err : Thrown) : Route.Response :=
  Route.mkResponse 500
    (JObj [(lit "error", JStr (lit "Internal server error"));
           (lit "details", JStr (match err with
                                 | Some message => message
                                 | None => lit "Unknown error"
                                 end))]).

Definition engine_error (f : Fault) : Route.Response :=
  internal_error (Some (engine_message f)).

(** From the check of the Gemini key on; the parsing of the reply and the
    choice of the audio file are those of the process-stream route, line for
    line. *)
Definition classify (geminiKey : option jsstring) (transcript : jsstring)
  : Route.Response * list jsstring :=
  match geminiKey with
  | Some (_ :: _) =>
      match llm (prompt transcript) with
      | StreamRoute.Throws err => (internal_error err, [prompt transcript])
      | StreamRoute.Replies responseText =>
          let questionNumber :=
            StreamRoute.read_questionNumber JSON_parse responseText in
          (result_reply transcript questionNumber
             (StreamRoute.audioUrl_of StringToNumber ToString questionNumber),
           [prompt transcript])
      end
  | _ => (plain_error 500 "Google GenAI API key not configured", [])
  end.

(** From the response of Deepgram on. A response with a body is made with
    a status from 200 to 599 only, and not with 304 (204 and 205 are ok). *)
Definition onUpstream (geminiKey : option jsstring) (u : Upstream)
  : Route.Response * list jsstring :=
  match u with
  | UpThrows err => (internal_error err, [])
  | UpResponds status text =>
      if ok status then
        match JSON_parse text with
        | None => (engine_error NotJson, [])
        | Some data =>
            match transcript_of data with
            | None => (engine_error ReadOfNull, [])
            | Some v =>
                if falsy v then (early_reply, [])
                else
                  match v with
                  | Val (JStr s) =>
                      if blank s then (early_reply, [])
                      else classify geminiKey s
                  | _ => (engine_error NotAFunction, [])
                  end
            end
        end
      else if negb ((200 <=? status)%Z && (status <=? 599)%Z)
      then (engine_error StatusOutOfRange, [])
      else if (status =? 304)%Z then (engine_error NullBodyStatus, [])
      else (upstream_error status text, [])
  end.

(** [POST]: the response, the requests sent to Deepgram and the prompts
    sent to the model. *)
Definition POST (apiKey : option jsstring) (form : Form)
  (geminiKey : option jsstring)
  : Route.Response * list Listen * list jsstring :=
  match apiKey with
  | Some (k :: key) =>
      match form with
      | FormThrows err => (internal_error err, [], [])
      | Absent => (plain_error 400 "No audio file provided", [], [])
      | Text [] => (plain_error 400 "No audio file provided", [], [])
      | Text (_ :: _) => (engine_error NotAFunction, [], [])
      | UnreadableFile err => (internal_error err, [], [])
      | File type content =>
          let request :=
            mkListen (lit "Token " ++ k :: key)
              (if is_empty type then lit "audio/webm" else type) content in
          let (response, prompts) := onUpstream geminiKey (deepgram request) in
          (response, [request], prompts)
      end
  | _ => (plain_error 500 "Deepgram API key not configured", [], [])
  end.

End Handler.

End Transcribe.

(* ================================================================== *)
(** ** The one-shot recorder: transcribeAudio *)

Module OneShot.
Import Js Json.

(** The state [transcribeAudio] sets. What the response carries is shown as
    it comes, whatever its type. *)
Record View : Type := mkView {
  isLoading : bool;
  error : jsstring;
  transcript : json;
  questionNumber : json;
  audioUrl : json
}.

(** The request to the route: [fetch] rejects, or the response arrives with
    its status and [response.json()] gives a value or rejects ([None]). *)
Inductive Fetched : Type :=
| FetchThrows (err : Transcribe.Thrown)
| Responds (status : Z) (body : option json).

(** The response of the route as the fetch of the client sees it: its
    status, and its body, which the route holds as written, parsed. *)
Definition of_response (r : Route.Response) : Fetched :=
  Responds (Route.status r) (Some (Route.body r)).

Section Client.

Variable ToString : json -> jsstring.
Variable engine_message : Transcribe.Fault -> jsstring.

(** Before the request. *)
Definition begin (v : View) : View :=
  mkView true [] (JStr []) JNull JNull.

(** The catch and finally blocks. *)
Definition fail (err : Transcribe.Thrown) (v : View) : View :=
  mkView false
    (match err with
     | Some message => message
     | None => lit "Failed to transcribe audio"
     end)
    (transcript v) (questionNumber v) (audioUrl v).

(** [x || 'No transcript available'] *)
Definition or_placeholder (x : jsvalue) : json :=
  match x with
  | Val j => if falsy x then JStr (lit "No transcript available") else j
  | Undefined => JStr (lit "No transcript available")
  end.

(** [x !== undefined ? x : null] *)
Definition or_null (x : jsvalue) : json :=
  match x with
  | Val j => j
  | Undefined => JNull
  end.

(** The try block on a response that is ok, and the finally block. The
    three reads throw together: off [null], and only then. *)
Definition show (data : json) (v : View) : View :=
  match get_prop data (lit "transcript"),
        get_prop data (lit "questionNumber"),
        get_prop data (lit "audioUrl") with
  | Some t, Some q, Some u =>
      mkView false (error v) (or_placeholder t) (or_null q)
        (if falsy u then audioUrl v else or_null u)
  | _, _, _ => fail (Some (engine_message Transcribe.ReadOfNull)) v
  end.

(** [new Error(errorData.error || 'Failed to transcribe audio')] *)
Definition thrown_for (errorData : json) : Transcribe.Thrown :=
  match get_prop errorData (lit "error") with
  | None => Some (engine_message Transcribe.ReadOfNull)
  | Some (Val e) =>
      Some (if falsy (Val e) then lit "Failed to transcribe audio"
            else StreamRoute.to_string ToString e)
  | Some Undefined => Some (lit "Failed to transcribe audio")
  end.

Definition transcribeAudio (f : Fetched) (v : View) : View :=
  let v := begin v in
  match f with
  | FetchThrows err => fail err v
  | Responds status body =>
      match body with
      | None => fail (Some (engine_message Transcribe.NotJson)) v
      | Some data =>
          if Transcribe.ok status then show data v
          else fail (thrown_for data) v
      end
  end.

End Client.

End OneShot.

(* ================================================================== *)
(** ** Proofs *)

Import Js Json Recorder Vocabulary.
Open Scope Z_scope.
Unset Implicit Arguments.
Arguments since : simpl never.

(** *** Peeling the statements of a handler off a goal *)

Ltac head_of t :=
  lazymatch t with
  | ?f _ => head_of f
  | _ => t
  end.

(** One step on a goal [P (g (f s))]: the last statement [g] is removed by
    the lemma for the operation it names ([named]), or by the lemma of the
    record it updates; a branch is split; another function is unfolded. *)
Ltac peel_with named ui_lemma refs_lemma world_lemma :=
  first
    [ eassumption
    | progress unfold when
    | match goal with
      | |- _ (if ?c then _ else _) => destruct c
      end
    | match goal with
      | |- _ (cleanup _) => named
      | |- _ (resetSilenceTimer _ _) => named
      | |- _ (clearEagerEnd _) => named
      | |- _ (processTranscript _ _ _) => named
      | |- _ (with_ui _ _) => apply ui_lemma
      | |- _ (with_refs _ _) => apply refs_lemma; [intros; reflexivity ..|]
      | |- _ (with_world _ _) => apply world_lemma; [intros; reflexivity ..|]
      | |- _ (?f _) => let h := head_of f in progress unfold h
      end ].


(** *** Strings *)

Lemma trimStart_white (s : jsstring) :
  forallb is_white_space s = true -> trimStart s = [].
Proof.
  induction s as [|c r IH]; simpl; [reflexivity|].
  intros H. apply andb_true_iff in H as [Hc Hr]. rewrite Hc. auto.
Qed.

Lemma blank_white (s : jsstring) :
  forallb is_white_space s = true -> blank s = true.
Proof.
  intros H. unfold blank, trim. rewrite (trimStart_white s H). reflexivity.
Qed.

Lemma blank_false_truthy (t : jsstring) : blank t = false -> truthy t = true.
Proof. destruct t; [discriminate|reflexivity]. Qed.

(** *** The effects between two states *)

Lemma finalized_app (a b : list Effect) :
  finalized (a ++ b) = finalized a ++ finalized b.
Proof.
  induction a as [|e a IH]; [reflexivity|].
  destruct e; simpl; rewrite ?IH; reflexivity.
Qed.

Lemma finalized_rev (a : list Effect) : finalized (rev a) = rev (finalized a).
Proof.
  induction a as [|e a IH]; [reflexivity|].
  simpl. rewrite finalized_app, IH.
  destruct e; simpl; rewrite ?app_nil_r; reflexivity.
Qed.

Lemma gated_app (a b : list Effect) : gated (a ++ b) = gated a ++ gated b.
Proof.
  induction a as [|e a IH]; [reflexivity|].
  destruct e; simpl; rewrite ?IH; reflexivity.
Qed.

Lemma gated_rev (a : list Effect) : gated (rev a) = rev (gated a).
Proof.
  induction a as [|e a IH]; [reflexivity|].
  simpl. rewrite gated_app, IH.
  destruct e; simpl; rewrite ?app_nil_r; reflexivity.
Qed.

Lemma since_app (s s' : Session) (es : list Effect) :
  trace (world s') = es ++ trace (world s) -> since s s' = rev es.
Proof.
  intros H. unfold since. rewrite H, length_app, Nat.add_sub.
  rewrite firstn_app, Nat.sub_diag, firstn_all, app_nil_r. reflexivity.
Qed.

(** *** cleanup, as one record *)

Lemma cleanup_eq (s : Session) :
  cleanup s =
  mkSession
    (mkUi (connectionState (ui s)) (error (ui s)) 0 false
       (liveTranscript (ui s)) (turnState (ui s)) (questionNumber (ui s))
       (audioUrl (ui s)) (processingMessage (ui s)) false)
    (mkRefs false false
       (audioContextRef (refs s) && audioContextClosed (world s))
       false false (isProcessingRef (refs s)) None None
       (isCheckingWaitIntentRef (refs s)))
    (mkWorld (now (world s)) (nextId (world s))
       (cancel (silenceTimeoutRef (refs s))
          (cancel (eagerEndTimeoutRef (refs s)) (timers (world s))))
       (gateCalls (world s)) (finalizerCalls (world s))
       (if websocketRef (refs s) then closing (wsReady (world s))
        else wsReady (world s))
       (audioContextClosed (world s) || audioContextRef (refs s))
       (closure (world s))
       (rev (cleanup_effects s) ++ trace (world s))).
Proof.
  destruct s as [u [ws ms ac pr af ip ee st ic] [n k tm gc fc rs acc cl tr]].
  destruct af, ee as [e|], st as [t|], pr, ac, acc, ms, ws, rs;
    reflexivity.
Qed.

Lemma cleanup_trace (s : Session) :
  since s (cleanup s) = cleanup_effects s.
Proof.
  rewrite (since_app s (cleanup s) (rev (cleanup_effects s))).
  - apply rev_involutive.
  - rewrite cleanup_eq. reflexivity.
Qed.

Lemma cleanup_effects_no_request (s : Session) :
  finalized (cleanup_effects s) = [] /\ gated (cleanup_effects s) = [].
Proof.
  unfold cleanup_effects.
  destruct (animationFrameRef (refs s)), (eagerEndTimeoutRef (refs s)),
    (silenceTimeoutRef (refs s)), (processorRef (refs s)),
    (audioContextRef (refs s) && negb (audioContextClosed (world s))),
    (mediaStreamRef (refs s)), (websocketRef (refs s)),
    (is_open (wsReady (world s))); split; reflexivity.
Qed.

Lemma cleanup_torn_down (s : Session) : torn_down (cleanup s).
Proof. rewrite cleanup_eq. repeat split. Qed.

(** *** resetSilenceTimer, as one record *)

Lemma resetSilenceTimer_eq (useExtendedTimeout : bool) (s : Session) :
  let timeout := if useExtendedTimeout then 20000 else 7000 in
  resetSilenceTimer useExtendedTimeout s =
  mkSession (ui s)
    (mkRefs (websocketRef (refs s)) (mediaStreamRef (refs s))
       (audioContextRef (refs s)) (processorRef (refs s))
       (animationFrameRef (refs s)) (isProcessingRef (refs s))
       (eagerEndTimeoutRef (refs s)) (Some (nextId (world s)))
       (isCheckingWaitIntentRef (refs s)))
    (mkWorld (now (world s)) (S (nextId (world s)))
       (cancel (silenceTimeoutRef (refs s)) (timers (world s))
        ++ [mkTimer (nextId (world s)) (now (world s) + timeout)
              (SilenceCallback timeout)])
       (gateCalls (world s)) (finalizerCalls (world s)) (wsReady (world s))
       (audioContextClosed (world s)) (closure (world s))
       (SetTimeout (nextId (world s)) timeout
        :: match silenceTimeoutRef (refs s) with
           | Some t => [ClearTimeout t] | None => [] end
        ++ trace (world s))).
Proof.
  destruct s as [u [ws ms ac pr af ip ee st ic] [n k tm gc fc rs acc cl tr]].
  destruct useExtendedTimeout, st; reflexivity.
Qed.

(** *** C9: the order of the teardown *)

(** C9, as the code has it: every teardown releases in the order of the
    statements of [cleanup]: pending timers are cancelled first, then the
    outbound audio is stopped, then the microphone stream is released, and
    the transport is closed last. *)
Theorem cleanup_releases_in_source_order (s : Session) :
  since s (cleanup s) = cleanup_effects s
  /\ in_order cleanup_rank (since s (cleanup s)) = true.
Proof.
  rewrite cleanup_trace. split; [reflexivity|].
  unfold cleanup_effects.
  destruct (animationFrameRef (refs s)), (eagerEndTimeoutRef (refs s)),
    (silenceTimeoutRef (refs s)), (processorRef (refs s)),
    (audioContextRef (refs s) && negb (audioContextClosed (world s))),
    (mediaStreamRef (refs s)), (websocketRef (refs s)),
    (is_open (wsReady (world s))); reflexivity.
Qed.

(** C9, as stated, fails on a listening session: the microphone tracks are
    stopped before the CloseStream frame is sent and the socket closed, so
    the effects are not in the stated order (transport before microphone). *)
Lemma cleanup_not_in_stated_order :
  since listening (cleanup listening)
  = [CancelAnimationFrame; ClearTimeout 1%nat; ProcessorDisconnect;
     AudioContextClose; MediaTracksStop; WsSendCloseStream; WsClose]
  /\ in_order stated_rank (since listening (cleanup listening)) = false.
Proof. split; reflexivity. Qed.

(** *** C7: the Wait-Intent Gate client fails safe *)

(** C7: when the wait-intent request fails (rejected fetch, response not
    OK, body absent or malformed), the call resolves to [false]: it settles,
    releases its flag and the awaiting code runs with the verdict "not a wait
    request". *)
Theorem checkWaitIntent_fails_safe (o : FetchOutcome) :
  GateFailure o ->
  waitIntent_of o = false
  /\ forall s c g, find_gateCall c s = Some g ->
       step s (GateResolves c o)
       = Some (s |> drop_gateCall c |> set_isCheckingWaitIntentRef false
                 |> onWaitIntent (gorigin g) (gtranscript g) false).
Proof.
  intros F.
  assert (E : waitIntent_of o = false).
  { destruct F as [| body | ok | ok data H]; try reflexivity.
    - destruct ok; reflexivity.
    - destruct ok; [|reflexivity]. simpl.
      destruct (get_prop data (lit "isWaitIntent")) as [v|] eqn:G;
        [|reflexivity].
      destruct v as [|j]; [reflexivity|].
      destruct j as [|b| | | | |]; try reflexivity.
      destruct b; [|reflexivity]. exfalso. exact (H true eq_refl). }
  split; [exact E|].
  intros s c g Hg. unfold step. rewrite Hg, E. reflexivity.
Qed.

Lemma checkWaitIntent_fails_safe_witness :
  waitIntent_of
    (HttpResponse true (Some (JObj [(lit "isWaitIntent", JStr (lit "true"))])))
  = false.
Proof.
  refine (proj1 (@checkWaitIntent_fails_safe _ (body_malformed true _ _))).
  intros b. vm_compute. discriminate.
Defined.

(** *** C10: the route answers a blank transcript without the model *)

(** C10: a request whose [transcript] is missing, empty or only whitespace
    is answered 200 with [isWaitIntent] false, and no prompt is sent to the
    language model. *)
Theorem POST_blank_transcript
  (JSON_parse : jsstring -> option json) (llm : jsstring -> Route.LlmOutcome)
  (b : json) (apiKey : option jsstring) (v : jsvalue) :
  get_prop b (lit "transcript") = Some v ->
  NoTranscript v ->
  Route.POST JSON_parse llm (Some b) apiKey = (Route.early_reply, [])
  /\ Route.status Route.early_reply = 200
  /\ get_prop (Route.body Route.early_reply) (lit "isWaitIntent")
     = Some (Val (JBool false)).
Proof.
  intros G N. split; [|split; reflexivity].
  unfold Route.POST. rewrite G.
  destruct N as [|t W]; [reflexivity|].
  simpl. destruct (is_empty t); [reflexivity|].
  rewrite (blank_white t W). reflexivity.
Qed.

Lemma POST_blank_transcript_witness :
  Route.POST (fun _ => None) (fun _ => Route.LlmText (lit "{}"))
    (Some (JObj [(lit "transcript", JStr (lit "  "))])) (Some (lit "key"))
  = (Route.early_reply, []).
Proof.
  refine (proj1 (@POST_blank_transcript _ _ _ _ (Val (JStr (lit "  "))) _ _)).
  - reflexivity.
  - apply transcript_blank. reflexivity.
Defined.

(** The route itself reads a reply of the model it cannot parse as "not a
    wait request". *)
Lemma read_verdict_fails_safe
  (JSON_parse : jsstring -> option json) (text : jsstring) :
  (forall m, Route.brace_match text = Some m -> JSON_parse m = None) ->
  Route.read_verdict JSON_parse text = false.
Proof.
  intros H. unfold Route.read_verdict.
  destruct (Route.brace_match text) as [m|]; [|reflexivity].
  now rewrite (H m eq_refl).
Qed.

(** *** C5: a wait decision extends the listening window *)

(** C5: when a wait-intent call, awaited at the eager or at the definitive
    end of turn, settles with the verdict "wait", the live transcript is
    cleared, [isExtendedWait] is set, the watchdog is rearmed 20 s ahead in
    place of the timer the ref held, no transcript is handed to the
    Finalizer, and [connectionState] is left as it was. *)
Theorem wait_decision_extends
  (s : Session) (c : id) (g : GateCall) (o : FetchOutcome) :
  find_gateCall c s = Some g ->
  waitIntent_of o = true ->
  exists s',
    step s (GateResolves c o) = Some s'
    /\ liveTranscript (ui s') = []
    /\ isExtendedWait (ui s') = true
    /\ silenceTimeoutRef (refs s') = Some (nextId (world s))
    /\ timers (world s')
       = cancel (silenceTimeoutRef (refs s)) (timers (world s))
         ++ [mkTimer (nextId (world s)) (now (world s) + 20000)
               (SilenceCallback 20000)]
    /\ finalized (since s s') = []
    /\ connectionState (ui s') = connectionState (ui s).
Proof.
  intros Hg Hw. unfold step. rewrite Hg, Hw.
  eexists. split; [reflexivity|].
  assert (E : forall origin t s0,
             onWaitIntent origin t true s0
             = resetSilenceTimer true
                 (setLiveTranscript [] (setIsExtendedWait true s0)))
    by (intros [|] ? ?; reflexivity).
  rewrite E, resetSilenceTimer_eq.
  repeat split.
  destruct (silenceTimeoutRef (refs s)) as [t|] eqn:St.
  - rewrite (since_app _ _ [SetTimeout (nextId (world s)) 20000;
                            ClearTimeout t]); [reflexivity|].
    cbn. now rewrite St.
  - rewrite (since_app _ _ [SetTimeout (nextId (world s)) 20000]);
      [reflexivity|].
    cbn. now rewrite St.
Qed.

Lemma wait_decision_extends_witness :
  let s := after [turnInfo EagerEndOfTurn "hold on"; Elapse 800;
                  TimerFires 2%nat] in
  exists s',
    step s (GateResolves 3%nat (reply true)) = Some s'
    /\ liveTranscript (ui s') = []
    /\ isExtendedWait (ui s') = true
    /\ silenceTimeoutRef (refs s') = Some 4%nat
    /\ finalized (since s s') = []
    /\ connectionState (ui s') = connected.
Proof.
  intros s.
  destruct (wait_decision_extends s 3%nat
              (mkGateCall 3%nat (lit "hold on") AtEagerEnd) (reply true)
              eq_refl eq_refl)
    as (s' & H1 & H2 & H3 & H4 & _ & H6 & H7).
  exists s'. repeat split; assumption.
Defined.

(** *** A definitive end of turn that is not a wait request *)

(** The else branch of the code awaiting the verdict. *)
Lemma not_wait_finalizes (origin : GateOrigin) (t : jsstring) (s : Session) :
  blank t = false ->
  isProcessingRef (refs s) = false ->
  let s' := onWaitIntent origin t false s in
  connectionState (ui s') = processing
  /\ torn_down s'
  /\ isProcessingRef (refs s') = true
  /\ finalizerCalls (world s')
     = finalizerCalls (world s)
       ++ [mkFinalizerCall (nextId (world s)) t (closure (world s))]
  /\ trace (world s')
     = FetchProcessStream (nextId (world s)) t
       :: rev (cleanup_effects s) ++ trace (world s).
Proof.
  intros Hb Hp.
  assert (E : onWaitIntent origin t false s
              = processTranscript (closure (world s)) t
                  (setConnectionState processing (cleanup s)))
    by (destruct origin; reflexivity).
  cbv zeta. rewrite E, cleanup_eq. unfold processTranscript. cbn.
  rewrite Hb, Hp. cbn. repeat split.
Qed.

(** An [EndOfTurn] frame whose verdict "not wait" is the next thing the
    session handles: from the guard at once, while another request is in
    flight, or from the request the frame sends. *)
Lemma endOfTurn_verdict_next (s : Session) (ti : TurnInfo) (o : FetchOutcome) :
  wsReady (world s) = OPEN ->
  ti_event ti = Some EndOfTurn ->
  blank (transcript ti) = false ->
  one_gate_call s ->
  isProcessingRef (refs s) = false ->
  waitIntent_of o = false ->
  exists s1 s2,
    step s (WsMessage (MTurnInfo ti)) = Some s1
    /\ (if isCheckingWaitIntentRef (refs s) then s2 = s1
        else gated (since s s1) = [transcript ti]
             /\ step s1 (GateResolves (nextId (world s)) o) = Some s2)
    /\ connectionState (ui s2) = processing
    /\ torn_down s2
    /\ finalized (since s s2) = [transcript ti].
Proof.
  intros Hws Hev Hb Hg Hp Ho.
  pose proof (blank_false_truthy _ Hb) as Ht.
  destruct ti as [ev ix t cf]. cbn in Hev, Hb, Ht |- *. subst ev.
  unfold step. rewrite Hws. cbn [is_open onmessage].
  unfold onTurnInfo. cbn [ti_event transcript turn_index end_of_turn_confidence].
  rewrite Ht. cbn [when].
  set (s0 := clearEagerEnd _).
  assert (T0 : exists es, trace (world s0) = es ++ trace (world s)
                          /\ finalized es = [] /\ gated es = []).
  { subst s0. unfold clearEagerEnd, if_timer. cbn.
    destruct (eagerEndTimeoutRef (refs s)) as [e|].
    - exists [ClearTimeout e]. repeat split.
    - exists []. repeat split. }
  destruct T0 as (es0 & T0 & F0 & G0).
  assert (R0 : refs s0 = mkRefs (websocketRef (refs s)) (mediaStreamRef (refs s))
       (audioContextRef (refs s)) (processorRef (refs s))
       (animationFrameRef (refs s)) (isProcessingRef (refs s))
       None (silenceTimeoutRef (refs s))
       (isCheckingWaitIntentRef (refs s))).
  { subst s0. unfold clearEagerEnd, if_timer. cbn.
    destruct s as [u [ws ms ac pr af ip [e|] st ic] w]; reflexivity. }
  assert (W0 : gateCalls (world s0) = gateCalls (world s)
               /\ nextId (world s0) = nextId (world s)).
  { subst s0. unfold clearEagerEnd, if_timer. cbn.
    destruct (eagerEndTimeoutRef (refs s)); split; reflexivity. }
  destruct W0 as [W0 N0].
  assert (P0 : isProcessingRef (refs s0) = false) by (rewrite R0; exact Hp).
  unfold askWaitIntent, checkWaitIntent. rewrite Hb, R0.
  cbn [isCheckingWaitIntentRef orb].
  unfold one_gate_call in Hg.
  destruct (isCheckingWaitIntentRef (refs s)) eqn:Hc.
  - destruct (not_wait_finalizes AtEndOfTurn t s0 Hb P0) as (C & TD & _ & _ & T).
    eexists. eexists. split; [reflexivity|]. split; [reflexivity|].
    split; [exact C|]. split; [exact TD|].
    rewrite (since_app s _ (FetchProcessStream (nextId (world s0)) t
                            :: rev (cleanup_effects s0) ++ es0)).
    + rewrite finalized_rev. cbn. rewrite finalized_app, finalized_rev.
      rewrite (proj1 (cleanup_effects_no_request s0)), F0. reflexivity.
    + rewrite T, T0. cbn. now rewrite app_assoc.
  - apply length_zero_iff_nil in Hg.
    cbn [fresh].
    set (s1 := emit _ _).
    assert (Hf : find_gateCall (nextId (world s)) s1
                 = Some (mkGateCall (nextId (world s)) t AtEndOfTurn)).
    { subst s1. unfold find_gateCall. cbn. rewrite W0, Hg, N0. cbn.
      now rewrite Nat.eqb_refl. }
    set (s1' := set_isCheckingWaitIntentRef false
                  (drop_gateCall (nextId (world s)) s1)).
    assert (P1 : isProcessingRef (refs s1') = false).
    { subst s1' s1. cbn. rewrite R0. exact Hp. }
    assert (T1 : trace (world s1)
                 = FetchCheckWaitIntent (nextId (world s)) t :: es0
                   ++ trace (world s)).
    { subst s1. cbn. now rewrite T0, N0. }
    destruct (not_wait_finalizes AtEndOfTurn t s1' Hb P1) as (C & TD & _ & _ & T).
    exists s1, (onWaitIntent AtEndOfTurn t false s1').
    split; [reflexivity|]. split.
    { split.
      - rewrite (since_app s s1 (FetchCheckWaitIntent (nextId (world s)) t :: es0)).
        + rewrite gated_rev. cbn. now rewrite G0.
        + exact T1.
      - rewrite Hf, Ho. reflexivity. }
    split; [exact C|]. split; [exact TD|].
    rewrite (since_app s _ (FetchProcessStream (nextId (world s1')) t
                            :: rev (cleanup_effects s1')
                            ++ FetchCheckWaitIntent (nextId (world s)) t :: es0)).
    + rewrite finalized_rev. cbn [finalized]. rewrite finalized_app, finalized_rev.
      rewrite (proj1 (cleanup_effects_no_request s1')). cbn [finalized app rev].
      now rewrite F0.
    + rewrite T. change (trace (world s1')) with (trace (world s1)).
      rewrite T1. cbn [app]. now rewrite <- app_assoc.
Qed.

(** *** The watchdog *)

Lemma quiet_step (s s' : Session) (tr : Trigger) :
  quiet tr = true -> step s tr = Some s' ->
  timers (world s') = timers (world s) /\ refs s' = refs s
  /\ nextId (world s') = nextId (world s)
  /\ gateCalls (world s') = gateCalls (world s)
  /\ finalizerCalls (world s') = finalizerCalls (world s)
  /\ trace (world s') = trace (world s)
  /\ connectionState (ui s') = connectionState (ui s)
  /\ now (world s) <= now (world s').
Proof.
  intros Q H. destruct tr as [|m| | |ms| | | | | |]; try discriminate Q.
  - (* a frame *)
    simpl in H. destruct (is_open (wsReady (world s))); [|discriminate].
    injection H as <-.
    destruct m as [|ti| |]; try discriminate Q;
      try (repeat split; apply Z.le_refl).
    simpl in Q. unfold onmessage, onTurnInfo.
    destruct (ti_event ti) as [[| | | |]|]; try discriminate Q.
    + apply negb_true_iff in Q. rewrite Q. repeat split; apply Z.le_refl.
    + destruct (truthy (transcript ti)); repeat split; apply Z.le_refl.
  - (* time passes *)
    simpl in H. destruct (0 <=? ms) eqn:E; [|discriminate].
    injection H as <-. apply Z.leb_le in E.
    repeat split. cbn. lia.
Qed.

Lemma quiet_run (mid : list Trigger) : forall s s',
  forallb quiet mid = true -> run s mid = Some s' ->
  timers (world s') = timers (world s) /\ refs s' = refs s
  /\ nextId (world s') = nextId (world s)
  /\ gateCalls (world s') = gateCalls (world s)
  /\ finalizerCalls (world s') = finalizerCalls (world s)
  /\ trace (world s') = trace (world s)
  /\ connectionState (ui s') = connectionState (ui s)
  /\ now (world s) <= now (world s').
Proof.
  induction mid as [|tr mid IH]; intros s s' Q H.
  - injection H as <-. repeat split. apply Z.le_refl.
  - simpl in Q, H. apply andb_true_iff in Q as [Q1 Q2].
    destruct (step s tr) as [s1|] eqn:E; [|discriminate].
    destruct (quiet_step s s1 tr Q1 E) as (A1 & A2 & A3 & A4 & A5 & A6 & A7 & A8).
    destruct (IH s1 s' Q2 H) as (B1 & B2 & B3 & B4 & B5 & B6 & B7 & B8).
    repeat split; try congruence. lia.
Qed.

Lemma find_cancel_other (t : id) (r : option id) (l : list Timer) :
  r <> Some t ->
  find (fun x => Nat.eqb (tid x) t) (cancel r l)
  = find (fun x => Nat.eqb (tid x) t) l.
Proof.
  intros N. destruct r as [e|]; [|reflexivity]. simpl.
  induction l as [|x l IH]; [reflexivity|]. simpl.
  destruct (Nat.eqb (tid x) e) eqn:E1; simpl.
  - destruct (Nat.eqb (tid x) t) eqn:E2; [|exact IH].
    apply Nat.eqb_eq in E1, E2. exfalso. apply N. congruence.
  - now rewrite IH.
Qed.

Lemma find_cancel_same (t : id) (l : list Timer) :
  find (fun x => Nat.eqb (tid x) t) (cancel (Some t) l) = None.
Proof.
  induction l as [|x l IH]; [reflexivity|]. simpl.
  destruct (Nat.eqb (tid x) t) eqn:E; simpl; [exact IH|].
  now rewrite E.
Qed.

Lemma in_cancel (r : option id) (l : list Timer) (x : Timer) :
  In x (cancel r l) -> In x l.
Proof.
  destruct r; [|exact (fun H => H)]. simpl. intros H.
  now apply filter_In in H.
Qed.

Lemma find_app_fresh (t : id) (l : list Timer) (x : Timer) :
  (forall y, In y l -> (tid y < t)%nat) -> tid x = t ->
  find (fun y => Nat.eqb (tid y) t) (l ++ [x]) = Some x.
Proof.
  intros F E. induction l as [|y l IH]; simpl.
  - now rewrite E, Nat.eqb_refl.
  - destruct (Nat.eqb (tid y) t) eqn:E1.
    + apply Nat.eqb_eq in E1. specialize (F y (or_introl eq_refl)). lia.
    + apply IH. intros z Hz. apply F. now right.
Qed.

(** The watchdog callback, on any state. *)
Lemma since_same_trace (a b c : Session) :
  trace (world a) = trace (world b) -> since a c = since b c.
Proof. unfold since. intros ->. reflexivity. Qed.

Lemma silenceCallback_tears_down (s : Session) :
  connectionState (ui (silenceCallback s)) = disconnected
  /\ isExtendedWait (ui (silenceCallback s)) = false
  /\ torn_down (silenceCallback s)
  /\ since s (silenceCallback s) = cleanup_effects s
  /\ gateCalls (world (silenceCallback s)) = gateCalls (world s)
  /\ finalizerCalls (world (silenceCallback s)) = finalizerCalls (world s)
  /\ timers (world (silenceCallback s))
     = cancel (silenceTimeoutRef (refs s))
         (cancel (eagerEndTimeoutRef (refs s)) (timers (world s))).
Proof.
  unfold silenceCallback.
  repeat split; try (rewrite cleanup_eq; reflexivity).
  rewrite (since_app s _ (rev (cleanup_effects s))).
  - apply rev_involutive.
  - rewrite cleanup_eq. reflexivity.
Qed.

(** X22: the firing of the watchdog. Once it is armed, short (7 s) or
    extended (20 s), and nothing follows but time and frames that are no
    error and carry neither speech nor an end of turn, eager or definitive,
    the timer cannot fire before its deadline, and firing it at or after
    the deadline tears the session down,
    sets it to [disconnected] and clears [isExtendedWait]; the firing itself
    sends nothing to the Gate and hands nothing to the Finalizer, and it
    cancels the eager-end timer the ref holds. It leaves the requests in
    flight as they are. *)
Theorem watchdog_deadline_tears_down
  (s : Session) (useExtendedTimeout : bool) (mid : list Trigger) (s2 : Session) :
  timers_fresh s ->
  run (resetSilenceTimer useExtendedTimeout s) mid = Some s2 ->
  forallb quiet mid = true ->
  let t := nextId (world s) in
  let deadline := now (world s) + (if useExtendedTimeout then 20000 else 7000) in
  (now (world s2) < deadline -> step s2 (TimerFires t) = None)
  /\ (deadline <= now (world s2) ->
      exists s',
        step s2 (TimerFires t) = Some s'
        /\ connectionState (ui s') = disconnected
        /\ isExtendedWait (ui s') = false
        /\ torn_down s'
        /\ finalized (since s2 s') = []
        /\ gated (since s2 s') = []
        /\ gateCalls (world s') = gateCalls (world s2)
        /\ finalizerCalls (world s') = finalizerCalls (world s2)
        /\ (forall e, eagerEndTimeoutRef (refs s2) = Some e ->
                      find_timer e s' = None)).
Proof.
  intros F R Q t deadline.
  destruct (quiet_run mid _ _ Q R) as (Tm & Rf & _ & _ & _ & _ & _ & Nw).
  rewrite resetSilenceTimer_eq in Tm, Rf, Nw. cbn in Tm, Rf, Nw.
  assert (Hf : find_timer t s2
               = Some (mkTimer t deadline
                         (SilenceCallback
                            (if useExtendedTimeout then 20000 else 7000)))).
  { unfold find_timer. rewrite Tm. apply find_app_fresh; [|reflexivity].
    intros y Hy. apply F. exact (in_cancel _ _ _ Hy). }
  split.
  - intros L. unfold step. rewrite Hf. cbn [due].
    destruct (deadline <=? now (world s2)) eqn:E; [|reflexivity].
    apply Z.leb_le in E. lia.
  - intros L. apply Z.leb_le in L.
    exists (silenceCallback (drop_timer t s2)).
    split.
    { unfold step. rewrite Hf. cbn [due callback runCallback]. rewrite L.
      reflexivity. }
    destruct (silenceCallback_tears_down (drop_timer t s2))
      as (A1 & A2 & A3 & A4 & A5 & A6 & A7).
    rewrite (since_same_trace s2 (drop_timer t s2) _ eq_refl), A4.
    split; [exact A1|]. split; [exact A2|]. split; [exact A3|].
    split; [apply cleanup_effects_no_request|].
    split; [apply cleanup_effects_no_request|].
    split; [exact A5|]. split; [exact A6|].
    intros e He. unfold find_timer. rewrite A7.
    replace (eagerEndTimeoutRef (refs (drop_timer t s2))) with (Some e)
      by (rewrite <- He; reflexivity).
    destruct (silenceTimeoutRef (refs (drop_timer t s2))) as [w|].
    + destruct (Nat.eq_dec w e) as [->|Ne]; [apply find_cancel_same|].
      rewrite find_cancel_other by congruence. apply find_cancel_same.
    + apply find_cancel_same.
Qed.

Lemma watchdog_deadline_tears_down_witness :
  exists s2 s',
    run listening [Elapse 7001] = Some s2
    /\ step s2 (TimerFires 1%nat) = Some s'
    /\ connectionState (ui s') = disconnected
    /\ finalized (since s2 s') = [].
Proof.
  pose (s0 := initial_session disconnected |> set_wsReady OPEN
              |> setConnectionState connected |> startAudioProcessing).
  pose (s2 := set_now 7001 listening).
  assert (F : timers_fresh s0) by (intros x []).
  assert (R : run (resetSilenceTimer false s0) [Elapse 7001] = Some s2)
    by reflexivity.
  assert (L : now (world s0) + 7000 <= now (world s2)) by (cbn; lia).
  destruct (proj2 (watchdog_deadline_tears_down s0 false [Elapse 7001] s2
                     F R eq_refl) L)
    as (s' & H1 & H2 & _ & _ & H5 & _).
  exists s2, s'. repeat split; assumption.
Defined.

(** *** C8: one wait-intent call in flight *)

Section GateInvariant.

(** Code that touches neither the flag nor the calls in flight. *)
Lemma gate_frame (s s' : Session) :
  gateCalls (world s') = gateCalls (world s) ->
  isCheckingWaitIntentRef (refs s') = isCheckingWaitIntentRef (refs s) ->
  one_gate_call s -> one_gate_call s'.
Proof. unfold one_gate_call. intros -> ->. exact (fun H => H). Qed.

Lemma gate_cleanup (s : Session) : one_gate_call s -> one_gate_call (cleanup s).
Proof. apply gate_frame; rewrite cleanup_eq; reflexivity. Qed.

Lemma gate_resetSilenceTimer (b : bool) (s : Session) :
  one_gate_call s -> one_gate_call (resetSilenceTimer b s).
Proof. apply gate_frame; rewrite resetSilenceTimer_eq; reflexivity. Qed.

Lemma gate_clearEagerEnd (s : Session) :
  one_gate_call s -> one_gate_call (clearEagerEnd s).
Proof.
  unfold clearEagerEnd, if_timer.
  destruct (eagerEndTimeoutRef (refs s)); [|exact (fun H => H)].
  apply gate_frame; reflexivity.
Qed.

Lemma gate_processTranscript (c : ConnectionState) (t : jsstring) (s : Session) :
  one_gate_call s -> one_gate_call (processTranscript c t s).
Proof.
  unfold processTranscript.
  destruct (blank t || isProcessingRef (refs s)); [exact (fun H => H)|].
  apply gate_frame; reflexivity.
Qed.

Lemma gate_with_ui (f : Ui -> Ui) (s : Session) :
  one_gate_call s -> one_gate_call (with_ui f s).
Proof. exact (fun H => H). Qed.

Lemma gate_with_refs (f : Refs -> Refs) (s : Session) :
  (forall r, isCheckingWaitIntentRef (f r) = isCheckingWaitIntentRef r) ->
  one_gate_call s -> one_gate_call (with_refs f s).
Proof. intros E. apply gate_frame; [reflexivity|apply E]. Qed.

Lemma gate_with_world (f : World -> World) (s : Session) :
  (forall w, gateCalls (f w) = gateCalls w) ->
  one_gate_call s -> one_gate_call (with_world f s).
Proof. intros E. apply gate_frame; [apply E|reflexivity]. Qed.

Ltac gate_step :=
  peel_with
    ltac:(first [ apply gate_cleanup | apply gate_resetSilenceTimer
                | apply gate_clearEagerEnd | apply gate_processTranscript ])
    gate_with_ui gate_with_refs gate_with_world.

Lemma gate_onWaitIntent (origin : GateOrigin) (t : jsstring) (w : bool)
  (s : Session) : one_gate_call s -> one_gate_call (onWaitIntent origin t w s).
Proof. intros H. destruct origin, w; unfold onWaitIntent; repeat gate_step. Qed.

Lemma gate_askWaitIntent (origin : GateOrigin) (t : jsstring) (s : Session) :
  one_gate_call s -> one_gate_call (askWaitIntent origin t s).
Proof.
  intros H. unfold askWaitIntent, checkWaitIntent.
  destruct (blank t); cbn [orb]; [now apply gate_onWaitIntent|].
  destruct (isCheckingWaitIntentRef (refs s)) eqn:E;
    [now apply gate_onWaitIntent|].
  unfold one_gate_call in *. rewrite E in H. cbn.
  rewrite length_app, H. reflexivity.
Qed.

Lemma gate_runCallback (cb : TimerCallback) (s : Session) :
  one_gate_call s -> one_gate_call (runCallback cb s).
Proof.
  intros H. destruct cb as [t|d]; cbn [runCallback].
  - unfold eagerEndCallback.
    destruct (truthy t && websocketRef (refs s)); [|exact H].
    now apply gate_askWaitIntent.
  - unfold silenceCallback. repeat gate_step.
Qed.

Lemma gate_onTurnInfo (ti : TurnInfo) (s : Session) :
  one_gate_call s -> one_gate_call (onTurnInfo ti s).
Proof.
  intros H. unfold onTurnInfo.
  destruct (ti_event ti) as [[| | | |]|]; repeat gate_step;
    try (apply gate_askWaitIntent; repeat gate_step).
  unfold setTimeout, fresh, when.
  destruct (truthy (transcript ti)); exact H.
Qed.

Lemma gate_onmessage (m : Message) (s : Session) :
  one_gate_call s -> one_gate_call (onmessage m s).
Proof.
  intros H. destruct m; cbn [onmessage]; repeat gate_step.
  now apply gate_onTurnInfo.
Qed.

Lemma gate_onChunk (frames : list Frame) : forall s,
  one_gate_call s -> one_gate_call (onChunk frames s).
Proof.
  unfold onChunk. induction frames as [|f r IH]; intros s H; [exact H|].
  cbn [fold_left]. apply IH.
  destruct f as [m|q [u|]|  |m| ]; cbn [onFrame]; repeat gate_step.
Qed.

(** A settled call leaves none in flight. *)
Lemma gate_settle (c : id) (g : GateCall) (s : Session) :
  one_gate_call s -> find_gateCall c s = Some g ->
  one_gate_call (set_isCheckingWaitIntentRef false (drop_gateCall c s)).
Proof.
  unfold one_gate_call, find_gateCall. intros H F. cbn.
  destruct (gateCalls (world s)) as [|x [|y l]] eqn:E.
  - discriminate F.
  - cbn in F |- *. destruct (Nat.eqb (gid x) c); [reflexivity|discriminate F].
  - destruct (isCheckingWaitIntentRef (refs s)); discriminate H.
Qed.

Lemma gate_step_preserved (s s' : Session) (tr : Trigger) :
  one_gate_call s -> step s tr = Some s' -> one_gate_call s'.
Proof.
  intros H S. destruct tr as [|m| | |ms|t|c o|c fr|c r| |]; cbn [step] in S.
  - destruct (wsReady (world s)); try discriminate S. injection S as <-.
    unfold onopen, startAudioProcessing. repeat gate_step.
  - destruct (is_open _); [|discriminate S]. injection S as <-.
    now apply gate_onmessage.
  - destruct (is_closed _); [discriminate S|]. injection S as <-.
    unfold onerror. repeat gate_step.
  - destruct (is_closed _); [discriminate S|]. injection S as <-.
    unfold onclose. repeat gate_step.
  - destruct (0 <=? ms); [|discriminate S]. injection S as <-. exact H.
  - destruct (find_timer t s) as [x|]; [|discriminate S].
    destruct (due x <=? now (world s)); [|discriminate S]. injection S as <-.
    apply gate_runCallback. exact H.
  - destruct (find_gateCall c s) as [g|] eqn:F; [|discriminate S].
    injection S as <-. apply gate_onWaitIntent. exact (gate_settle c g s H F).
  - destruct (find_finalizerCall c s); [|discriminate S]. injection S as <-.
    now apply gate_onChunk.
  - destruct (find_finalizerCall c s) as [f|]; [|discriminate S].
    injection S as <-. unfold onStreamEnd. destruct r; repeat gate_step.
  - destruct (ConnectionState_eqb _ _); [|discriminate S]. injection S as <-.
    unfold stopListening. repeat gate_step.
  - injection S as <-. exact H.
Qed.

Lemma gate_run_preserved (l : list Trigger) : forall s s',
  one_gate_call s -> run s l = Some s' -> one_gate_call s'.
Proof.
  induction l as [|tr l IH]; intros s s' H R; cbn [run] in R.
  - injection R as <-. exact H.
  - destruct (step s tr) as [s1|] eqn:S; [|discriminate R].
    exact (IH s1 s' (gate_step_preserved s s1 tr H S) R).
Qed.

End GateInvariant.

(** C8: in every state the session can reach, at most one wait-intent
    request is in flight; and while one is, a call of [checkWaitIntent]
    changes nothing (no request is sent, nothing is queued) and is answered
    [false] at once. *)
Theorem one_wait_intent_call_in_flight
  (captured : ConnectionState) (l : list Trigger) (s : Session) :
  run (initial_session captured) l = Some s ->
  (List.length (gateCalls (world s)) <= 1)%nat
  /\ (gateCalls (world s) <> [] ->
      forall origin t, checkWaitIntent origin t s = (s, Some false)).
Proof.
  intros R.
  assert (H : one_gate_call s)
    by exact (gate_run_preserved l (initial_session captured) s
                (eq_refl : one_gate_call (initial_session captured)) R).
  unfold one_gate_call in H. split.
  - rewrite H. destruct (isCheckingWaitIntentRef (refs s)); auto.
  - intros N origin t. unfold checkWaitIntent.
    destruct (isCheckingWaitIntentRef (refs s)).
    + now rewrite orb_true_r.
    + apply length_zero_iff_nil in H. contradiction.
Qed.

Lemma one_wait_intent_call_in_flight_witness :
  let s := after [turnInfo EndOfTurn "hold on"] in
  List.length (gateCalls (world s)) = 1%nat
  /\ checkWaitIntent AtEagerEnd (lit "hold on a second") s = (s, Some false).
Proof.
  assert (R : run (initial_session disconnected)
                [WsOpen; turnInfo EndOfTurn "hold on"]
              = Some (after [turnInfo EndOfTurn "hold on"]))
    by (vm_compute; reflexivity).
  destruct (one_wait_intent_call_in_flight disconnected _ _ R) as [_ H].
  split; [vm_compute; reflexivity|]. apply H. vm_compute. discriminate.
Defined.

(** *** C3: an eager end of turn that is retracted *)

Section Candidate.

Variable k : id.

Lemma cand_frame (live : bool) (s s' : Session) :
  timers (world s') = timers (world s) ->
  eagerEndTimeoutRef (refs s') = eagerEndTimeoutRef (refs s) ->
  (nextId (world s) <= nextId (world s'))%nat ->
  candidate k live s -> candidate k live s'.
Proof.
  unfold candidate, pending. intros -> -> L [H1 H2]. split; [lia|exact H2].
Qed.

Lemma cand_with_ui (live : bool) (f : Ui -> Ui) (s : Session) :
  candidate k live s -> candidate k live (with_ui f s).
Proof. exact (fun H => H). Qed.

Lemma cand_with_refs (live : bool) (f : Refs -> Refs) (s : Session) :
  (forall r, eagerEndTimeoutRef (f r) = eagerEndTimeoutRef r) ->
  candidate k live s -> candidate k live (with_refs f s).
Proof. intros E. apply cand_frame; [reflexivity|apply E|apply Nat.le_refl]. Qed.

Lemma cand_with_world (live : bool) (f : World -> World) (s : Session) :
  (forall w, timers (f w) = timers w) ->
  (forall w, nextId (f w) = nextId w) ->
  candidate k live s -> candidate k live (with_world f s).
Proof.
  intros E1 E2. apply cand_frame; [apply E1|reflexivity|].
  cbn. rewrite E2. apply Nat.le_refl.
Qed.

Lemma cand_dead (live : bool) (s : Session) :
  candidate k false s -> candidate k live s.
Proof. intros [H1 H2]. split; [exact H1|]. intros P. now destruct (H2 P). Qed.

Lemma pending_cancel (r : option id) (s : Session) (l : list Timer) :
  In k (map tid (cancel r l)) -> In k (map tid l) /\ r <> Some k.
Proof.
  destruct r as [t|]; simpl; [|intros H; split; [exact H|discriminate]].
  intros H. apply in_map_iff in H as (x & E & I).
  apply filter_In in I as [I N]. split.
  - apply in_map_iff. now exists x.
  - intros [= ->]. rewrite E, Nat.eqb_refl in N. discriminate N.
Qed.

(** Removing timers never revives the candidate. *)
Lemma cand_fewer (live : bool) (s s' : Session) :
  (forall x, In x (timers (world s')) -> In x (timers (world s))) ->
  eagerEndTimeoutRef (refs s') = eagerEndTimeoutRef (refs s) ->
  (nextId (world s) <= nextId (world s'))%nat ->
  candidate k live s -> candidate k live s'.
Proof.
  unfold candidate, pending. intros I -> L [H1 H2]. split; [lia|].
  intros P. apply H2. apply in_map_iff in P as (x & E & Hx).
  apply in_map_iff. exists x. split; [exact E|now apply I].
Qed.

Lemma cand_cleanup (live : bool) (s : Session) :
  candidate k live s -> candidate k false (cleanup s).
Proof.
  unfold candidate, pending. intros [H1 H2]. rewrite cleanup_eq. cbn.
  split; [exact H1|]. intros P.
  apply (pending_cancel _ s) in P as [P _].
  apply (pending_cancel _ s) in P as [P N].
  destruct (H2 P) as [_ E]. contradiction.
Qed.

Lemma cand_clearEagerEnd (live : bool) (s : Session) :
  candidate k live s -> candidate k false (clearEagerEnd s).
Proof.
  unfold candidate, pending, clearEagerEnd, if_timer. intros [H1 H2].
  destruct (eagerEndTimeoutRef (refs s)) as [e|] eqn:E; cbn.
  - split; [exact H1|]. intros P.
    apply (pending_cancel (Some e) s) in P as [P N].
    destruct (H2 P) as [_ E']. contradiction.
  - split; [exact H1|]. intros P. destruct (H2 P) as [_ E']. discriminate E'.
Qed.

Lemma cand_resetSilenceTimer (live b : bool) (s : Session) :
  candidate k live s -> candidate k live (resetSilenceTimer b s).
Proof.
  unfold candidate, pending. intros [H1 H2]. rewrite resetSilenceTimer_eq.
  cbn. split; [lia|]. intros P. apply H2.
  rewrite map_app in P. apply in_app_or in P as [P|P].
  - now apply (pending_cancel _ s) in P.
  - cbn in P. lia.
Qed.

Lemma cand_processTranscript (live : bool) (c : ConnectionState)
  (t : jsstring) (s : Session) :
  candidate k live s -> candidate k live (processTranscript c t s).
Proof.
  unfold processTranscript.
  destruct (blank t || isProcessingRef (refs s)); [exact (fun H => H)|].
  apply cand_frame; [reflexivity|reflexivity|cbn; lia].
Qed.

Lemma cand_drop_timer (live : bool) (t : id) (s : Session) :
  candidate k live s -> candidate k live (drop_timer t s).
Proof.
  apply cand_fewer; [|reflexivity|apply Nat.le_refl].
  intros x H. cbn in H. now apply filter_In in H.
Qed.

Ltac cand_step :=
  peel_with
    ltac:(first [ apply cand_dead; eapply cand_cleanup
                | apply cand_resetSilenceTimer
                | apply cand_dead; eapply cand_clearEagerEnd
                | apply cand_processTranscript ])
    cand_with_ui cand_with_refs cand_with_world.

Lemma cand_onWaitIntent (live : bool) (origin : GateOrigin) (t : jsstring)
  (w : bool) (s : Session) :
  candidate k live s -> candidate k live (onWaitIntent origin t w s).
Proof. intros H. destruct origin, w; unfold onWaitIntent; repeat cand_step. Qed.

Lemma cand_askWaitIntent (live : bool) (origin : GateOrigin) (t : jsstring)
  (s : Session) :
  candidate k live s -> candidate k live (askWaitIntent origin t s).
Proof.
  intros H. unfold askWaitIntent, checkWaitIntent.
  destruct (blank t || isCheckingWaitIntentRef (refs s));
    [now apply cand_onWaitIntent|].
  cbn [fresh]. revert H.
  apply cand_frame; [reflexivity|reflexivity|cbn; lia].
Qed.

Lemma cand_runCallback (live : bool) (cb : TimerCallback) (s : Session) :
  candidate k live s -> candidate k live (runCallback cb s).
Proof.
  intros H. destruct cb as [t|d]; cbn [runCallback].
  - unfold eagerEndCallback.
    destruct (truthy t && websocketRef (refs s)); [|exact H].
    now apply cand_askWaitIntent.
  - unfold silenceCallback. repeat cand_step.
Qed.

(** Arming a timer for another candidate. *)
Lemma cand_arm_other (cb : TimerCallback) (d : Z) (s : Session) :
  candidate k false s ->
  candidate k false
    (let (t, s') := setTimeout cb d s in set_eagerEndTimeoutRef (Some t) s').
Proof.
  intros [H1 H2]. unfold candidate, pending, setTimeout, fresh. cbn.
  split; [lia|]. intros P. rewrite map_app in P.
  apply in_app_or in P as [P|P].
  - now destruct (H2 P).
  - cbn in P. lia.
Qed.

(** A further [EagerEndOfTurn] overwrites the ref: it keeps a retracted
    candidate retracted, but would orphan a live one. *)
Lemma cand_onTurnInfo (live : bool) (ti : TurnInfo) (s : Session) :
  (live = true -> ti_event ti <> Some EagerEndOfTurn) ->
  candidate k live s -> candidate k live (onTurnInfo ti s).
Proof.
  intros N H. unfold onTurnInfo.
  destruct (ti_event ti) as [[| | | |]|]; repeat cand_step;
    try (apply cand_askWaitIntent; repeat cand_step).
  destruct live; [now exfalso; apply N|].
  apply cand_arm_other. repeat cand_step.
Qed.

Lemma cand_onChunk (live : bool) (frames : list Frame) : forall s,
  candidate k live s -> candidate k live (onChunk frames s).
Proof.
  unfold onChunk. induction frames as [|f r IH]; intros s H; [exact H|].
  cbn [fold_left]. apply IH.
  destruct f as [m|q [u|]|  |m| ]; cbn [onFrame]; repeat cand_step.
Qed.

Lemma cand_step_preserved (live : bool) (s s' : Session) (tr : Trigger) :
  (live = true -> is_eagerEnd tr = false) ->
  candidate k live s -> step s tr = Some s' -> candidate k live s'.
Proof.
  intros N H S.
  destruct tr as [|m| | |ms|t|c o|c fr|c r| |]; cbn [step] in S.
  - destruct (wsReady (world s)); try discriminate S. injection S as <-.
    unfold onopen, startAudioProcessing. repeat cand_step.
  - destruct (is_open _); [|discriminate S]. injection S as <-.
    destruct m as [|ti|d|]; cbn [onmessage]; repeat cand_step.
    apply cand_onTurnInfo; [|exact H].
    intros L E. specialize (N L). cbn in N. rewrite E in N. discriminate N.
  - destruct (is_closed _); [discriminate S|]. injection S as <-.
    unfold onerror. repeat cand_step.
  - destruct (is_closed _); [discriminate S|]. injection S as <-.
    unfold onclose. repeat cand_step.
  - destruct (0 <=? ms); [|discriminate S]. injection S as <-. exact H.
  - destruct (find_timer t s) as [x|]; [|discriminate S].
    destruct (due x <=? now (world s)); [|discriminate S]. injection S as <-.
    apply cand_runCallback. now apply cand_drop_timer.
  - destruct (find_gateCall c s) as [g|] eqn:F; [|discriminate S].
    injection S as <-. apply cand_onWaitIntent. exact H.
  - destruct (find_finalizerCall c s); [|discriminate S]. injection S as <-.
    now apply cand_onChunk.
  - destruct (find_finalizerCall c s) as [f|]; [|discriminate S].
    injection S as <-. unfold onStreamEnd. destruct r; repeat cand_step.
  - destruct (ConnectionState_eqb _ _); [|discriminate S]. injection S as <-.
    unfold stopListening. repeat cand_step.
  - injection S as <-. exact H.
Qed.

Lemma cand_run_window (l : list Trigger) : forall s s',
  forallb (within_window k) l = true ->
  candidate k true s -> run s l = Some s' -> candidate k true s'.
Proof.
  induction l as [|tr l IH]; intros s s' W H R; cbn [run] in R.
  - injection R as <-. exact H.
  - cbn in W. apply andb_true_iff in W as [W1 W2].
    destruct (step s tr) as [s1|] eqn:S; [|discriminate R].
    apply (IH s1 s' W2); [|exact R].
    apply (cand_step_preserved true s s1 tr); [|exact H|exact S].
    intros _. destruct tr; try reflexivity;
      cbn in W1; now apply negb_true_iff in W1.
Qed.

Lemma cand_run_retracted (l : list Trigger) : forall s s',
  candidate k false s -> run s l = Some s' -> candidate k false s'.
Proof.
  induction l as [|tr l IH]; intros s s' H R; cbn [run] in R.
  - injection R as <-. exact H.
  - destruct (step s tr) as [s1|] eqn:S; [|discriminate R].
    apply (IH s1 s'); [|exact R].
    apply (cand_step_preserved false s s1 tr); [discriminate|exact H|exact S].
Qed.

(** A retracted candidate's timer cannot fire. *)
Lemma retracted_never_fires (s : Session) :
  candidate k false s -> step s (TimerFires k) = None.
Proof.
  intros [_ H]. cbn [step]. unfold find_timer.
  destruct (find _ _) as [x|] eqn:F; [|reflexivity].
  apply find_some in F as [I E]. apply Nat.eqb_eq in E.
  assert (P : pending k s) by (apply in_map_iff; now exists x).
  now destruct (H P).
Qed.

End Candidate.


Lemma no_request_refl (s s' : Session) :
  trace (world s') = trace (world s) -> no_request s s'.
Proof. intros E. exists []. repeat split. exact E. Qed.

Lemma no_request_trans (a b c : Session) :
  no_request a b -> no_request b c -> no_request a c.
Proof.
  intros (e1 & T1 & G1 & F1) (e2 & T2 & G2 & F2). exists (e2 ++ e1).
  rewrite T2, T1, app_assoc, gated_app, finalized_app, G1, G2, F1, F2.
  repeat split.
Qed.

Lemma no_request_since (s s' : Session) :
  no_request s s' -> gated (since s s') = [] /\ finalized (since s s') = [].
Proof.
  intros (es & T & G & F). rewrite (since_app s s' es T).
  rewrite gated_rev, finalized_rev, G, F. split; reflexivity.
Qed.

Lemma no_request_resetSilenceTimer (b : bool) (s : Session) :
  no_request s (resetSilenceTimer b s).
Proof.
  rewrite resetSilenceTimer_eq. cbn.
  destruct (silenceTimeoutRef (refs s)) as [t|].
  - exists [SetTimeout (nextId (world s)) (if b then 20000 else 7000);
            ClearTimeout t]. repeat split.
  - exists [SetTimeout (nextId (world s)) (if b then 20000 else 7000)].
    repeat split.
Qed.

Lemma no_request_clearEagerEnd (s : Session) : no_request s (clearEagerEnd s).
Proof.
  unfold clearEagerEnd, if_timer.
  destruct (eagerEndTimeoutRef (refs s)) as [e|].
  - exists [ClearTimeout e]. repeat split.
  - exists []. repeat split.
Qed.

Lemma clearEagerEnd_ui (s : Session) : ui (clearEagerEnd s) = ui s.
Proof.
  unfold clearEagerEnd, if_timer.
  destruct (eagerEndTimeoutRef (refs s)); reflexivity.
Qed.

(** C3: an [EagerEndOfTurn] frame arms a timer 800 ms ahead for its
    transcript and sends nothing; if a [TurnResumed] frame is handled before
    that timer has fired (and no further [EagerEndOfTurn] came in between),
    the timer is cancelled and can never fire afterwards, so neither the
    Gate nor the Finalizer is ever called for that candidate; handling
    [TurnResumed] sends no request and leaves [connectionState] as it is. *)
Theorem eager_end_retracted
  (s s1 s2 s3 : Session) (ti tr : TurnInfo) (mid : list Trigger) :
  timers_fresh s ->
  ti_event ti = Some EagerEndOfTurn ->
  step s (WsMessage (MTurnInfo ti)) = Some s1 ->
  run s1 mid = Some s2 ->
  forallb (within_window (nextId (world s))) mid = true ->
  ti_event tr = Some TurnResumed ->
  step s2 (WsMessage (MTurnInfo tr)) = Some s3 ->
  find_timer (nextId (world s)) s1
  = Some (mkTimer (nextId (world s)) (now (world s) + 800)
            (EagerEndCallback (transcript ti)))
  /\ gated (since s s1) = [] /\ finalized (since s s1) = []
  /\ gated (since s2 s3) = [] /\ finalized (since s2 s3) = []
  /\ connectionState (ui s3) = connectionState (ui s2)
  /\ (forall fut s4, run s3 fut = Some s4 ->
        step s4 (TimerFires (nextId (world s))) = None).
Proof.
  intros F E1 S1 R W E2 S3.
  set (k := nextId (world s)) in *.
  (* the eager-end frame *)
  cbn [step] in S1. destruct (is_open (wsReady (world s))); [|discriminate S1].
  injection S1 as <-. cbn [onmessage]. unfold onTurnInfo in R |- *.
  rewrite E1 in R |- *.
  set (s0 := when (truthy (transcript ti)) _ _) in *.
  assert (A0 : timers (world s0) = timers (world s)
               /\ nextId (world s0) = k /\ now (world s0) = now (world s)
               /\ trace (world s0) = trace (world s))
    by (subst s0; unfold when; destruct (truthy (transcript ti));
        repeat split).
  destruct A0 as (Tm & Nx & Nw & Tr).
  unfold setTimeout, fresh in R |- *. cbn [fst snd] in R |- *.
  set (s1 := set_eagerEndTimeoutRef _ _) in *.
  assert (C1 : candidate k true s1).
  { subst s1. unfold candidate. cbn. rewrite Nx. split; [lia|].
    intros _. split; reflexivity. }
  assert (T1 : find_timer k s1
               = Some (mkTimer k (now (world s) + 800)
                         (EagerEndCallback (transcript ti)))).
  { subst s1. unfold find_timer. cbn. rewrite Tm, Nx, Nw.
    apply find_app_fresh; [exact F|reflexivity]. }
  assert (Q1 : no_request s s1).
  { exists [SetTimeout k EAGER_END_DELAY_MS]. subst s1. cbn.
    rewrite Tr, Nx. repeat split. }
  (* the window *)
  pose proof (cand_run_window k mid s1 s2 W C1 R) as C2.
  (* the retraction *)
  cbn [step] in S3. destruct (is_open (wsReady (world s2))); [|discriminate S3].
  injection S3 as <-. cbn [onmessage]. unfold onTurnInfo. rewrite E2.
  set (x := when (truthy (transcript tr)) _ _).
  assert (X : candidate k true x /\ trace (world x) = trace (world s2)
              /\ connectionState (ui x) = connectionState (ui s2)).
  { subst x. unfold when.
    destruct (truthy (transcript tr)); (split; [exact C2|split; reflexivity]). }
  destruct X as (Cx & Tx & Ux).
  assert (C3 : candidate k false
                 (setIsSpeaking true (clearEagerEnd (resetSilenceTimer false x)))).
  { apply cand_with_ui. apply (cand_clearEagerEnd k true).
    now apply cand_resetSilenceTimer. }
  assert (Q3 : no_request s2
                 (setIsSpeaking true (clearEagerEnd (resetSilenceTimer false x)))).
  { apply (no_request_trans s2 x); [now apply no_request_refl|].
    apply (no_request_trans x (resetSilenceTimer false x));
      [apply no_request_resetSilenceTimer|].
    apply (no_request_trans _ (clearEagerEnd (resetSilenceTimer false x)));
      [apply no_request_clearEagerEnd|].
    now apply no_request_refl. }
  split; [exact T1|].
  split; [exact (proj1 (no_request_since _ _ Q1))|].
  split; [exact (proj2 (no_request_since _ _ Q1))|].
  split; [exact (proj1 (no_request_since _ _ Q3))|].
  split; [exact (proj2 (no_request_since _ _ Q3))|].
  split.
  - change (connectionState (ui (clearEagerEnd (resetSilenceTimer false x)))
            = connectionState (ui s2)).
    rewrite clearEagerEnd_ui, resetSilenceTimer_eq. exact Ux.
  - intros fut s4 R4. apply retracted_never_fires.
    exact (cand_run_retracted k fut _ s4 C3 R4).
Qed.

Lemma eager_end_retracted_witness :
  let s1 := after [turnInfo EagerEndOfTurn "hold on"] in
  let s3 := after [turnInfo EagerEndOfTurn "hold on"; Elapse 300;
                   turnInfo TurnResumed "hold on a"] in
  find_timer 2%nat s1
  = Some (mkTimer 2%nat 800 (EagerEndCallback (lit "hold on")))
  /\ connectionState (ui s3) = connected
  /\ step (after [turnInfo EagerEndOfTurn "hold on"; Elapse 300;
                  turnInfo TurnResumed "hold on a"; Elapse 900])
       (TimerFires 2%nat) = None.
Proof.
  intros s1 s3.
  pose (s2 := after [turnInfo EagerEndOfTurn "hold on"; Elapse 300]).
  assert (F : timers_fresh listening)
    by (intros x [<-|[]]; vm_compute; reflexivity).
  assert (S1 : step listening (turnInfo EagerEndOfTurn "hold on") = Some s1)
    by (vm_compute; reflexivity).
  assert (R : run s1 [Elapse 300] = Some s2) by (vm_compute; reflexivity).
  assert (S3 : step s2 (turnInfo TurnResumed "hold on a") = Some s3)
    by (vm_compute; reflexivity).
  destruct (eager_end_retracted listening s1 s2 s3
              (mkTurnInfo (Some EagerEndOfTurn) 0 (lit "hold on") 0%Q)
              (mkTurnInfo (Some TurnResumed) 0 (lit "hold on a") 0%Q)
              [Elapse 300] F eq_refl S1 R eq_refl eq_refl S3)
    as (H1 & _ & _ & _ & _ & H6 & H7).
  split; [exact H1|]. split.
  - rewrite H6. vm_compute. reflexivity.
  - apply (H7 [Elapse 900]). vm_compute. reflexivity.
Defined.

(** *** C1, C2 and C4: a verdict that arrives after the session moved on *)

(** C2, on the code: the eager-end timer fires and the wait-intent request
    goes out; [TurnResumed] arrives while it is outstanding; when the verdict
    "not wait" arrives, the code awaiting it does not look at what happened
    meanwhile: it tears the session down, sets [processing] and hands the
    retracted transcript to the Finalizer. With the verdict "wait" it clears
    the transcript the caller is still speaking and sets [isExtendedWait]. *)
Theorem superseded_verdict_is_acted_on :
  let l := [turnInfo EagerEndOfTurn "hold on"; Elapse 800; TimerFires 2%nat;
            turnInfo TurnResumed "hold on a"] in
  (exists s',
     run listening (l ++ [GateResolves 3%nat (reply false)]) = Some s'
     /\ connectionState (ui s') = processing
     /\ torn_down s'
     /\ finalized (since listening s') = [lit "hold on"])
  /\ (exists s',
        run listening (l ++ [GateResolves 3%nat (reply true)]) = Some s'
        /\ liveTranscript (ui (after l)) = lit "hold on a"
        /\ liveTranscript (ui s') = []
        /\ isExtendedWait (ui s') = true).
Proof.
  split.
  - exists (after ([turnInfo EagerEndOfTurn "hold on"; Elapse 800;
                    TimerFires 2%nat; turnInfo TurnResumed "hold on a"]
                   ++ [GateResolves 3%nat (reply false)])).
    vm_compute. repeat split.
  - exists (after ([turnInfo EagerEndOfTurn "hold on"; Elapse 800;
                    TimerFires 2%nat; turnInfo TurnResumed "hold on a"]
                   ++ [GateResolves 3%nat (reply true)])).
    vm_compute. repeat split.
Qed.

(** C1, on the code: within one listening phase the Finalizer is called
    twice. The eager-end timer fires and its wait-intent request goes out;
    [EndOfTurn] arrives while it is outstanding, the guard of
    [checkWaitIntent] answers "not wait" at once and the turn is finalized;
    the process-stream call completes, which resets [isProcessingRef]; then
    the first verdict arrives and the code awaiting it finalizes again, with
    the eager transcript. *)
Theorem finalizer_invoked_twice :
  exists s',
    run listening
      [turnInfo EagerEndOfTurn "how do I"; Elapse 800; TimerFires 2%nat;
       turnInfo EndOfTurn "how do I check";
       FinalizerChunk 4%nat [FResult 1 None; FDone];
       FinalizerEnds 4%nat StreamDone;
       GateResolves 3%nat (reply false)] = Some s'
    /\ finalized (since listening s')
       = [lit "how do I check"; lit "how do I"].
Proof.
  exists (after
            [turnInfo EagerEndOfTurn "how do I"; Elapse 800; TimerFires 2%nat;
             turnInfo EndOfTurn "how do I check";
             FinalizerChunk 4%nat [FResult 1 None; FDone];
             FinalizerEnds 4%nat StreamDone;
             GateResolves 3%nat (reply false)]).
  vm_compute. repeat split.
Qed.

(** C4, on the code: the watchdog fires while a wait-intent request is
    outstanding. It tears the session down and sets [disconnected], and
    nothing has been handed on; but the request stays in flight, and when
    its verdict "not wait" arrives the code awaiting it does not look at what
    happened meanwhile: it sets [processing] and hands the buffered
    transcript to the Finalizer. *)
Theorem watchdog_then_verdict_finalizes :
  let l := [turnInfo Update "how do I check"; Elapse 1000;
            turnInfo EndOfTurn "how do I check"; Elapse 6000;
            TimerFires 2%nat] in
  (exists s1,
     run listening l = Some s1
     /\ connectionState (ui s1) = disconnected
     /\ torn_down s1
     /\ timers (world s1) = []
     /\ finalized (since listening s1) = []
     /\ map gtranscript (gateCalls (world s1)) = [lit "how do I check"])
  /\ (exists s',
        run listening (l ++ [GateResolves 3%nat (reply false)]) = Some s'
        /\ connectionState (ui s') = processing
        /\ finalized (since listening s') = [lit "how do I check"]).
Proof.
  split.
  - exists (after [turnInfo Update "how do I check"; Elapse 1000;
                   turnInfo EndOfTurn "how do I check"; Elapse 6000;
                   TimerFires 2%nat]).
    vm_compute. repeat split.
  - exists (after ([turnInfo Update "how do I check"; Elapse 1000;
                    turnInfo EndOfTurn "how do I check"; Elapse 6000;
                    TimerFires 2%nat]
                   ++ [GateResolves 3%nat (reply false)])).
    vm_compute. repeat split.
Qed.

(** *** An induction principle for the event loop *)

Lemma torn_down_ui (f : Ui -> Ui) (s : Session) :
  torn_down s -> torn_down (with_ui f s).
Proof. exact (fun H => H). Qed.

Lemma clearEagerEnd_wsReady (s : Session) :
  wsReady (world (clearEagerEnd s)) = wsReady (world s).
Proof.
  unfold clearEagerEnd, if_timer.
  destruct (eagerEndTimeoutRef (refs s)); reflexivity.
Qed.

Lemma cleanup_closure (s : Session) :
  closure (world (cleanup s)) = closure (world s).
Proof. rewrite cleanup_eq. reflexivity. Qed.

Section EventLoop.

Variable P : Session -> Prop.

Hypothesis P_ui : forall f s, P s -> P (with_ui f s).
Hypothesis P_cleanup : forall s, P s -> P (cleanup s).
Hypothesis P_reset : forall b s, P s -> P (resetSilenceTimer b s).
Hypothesis P_clearEager : forall s, P s -> P (clearEagerEnd s).
Hypothesis P_arm : forall t s, P s ->
  P (let (i, s') := setTimeout (EagerEndCallback t) EAGER_END_DELAY_MS s in
     set_eagerEndTimeoutRef (Some i) s').
Hypothesis P_fire : forall t s, P s -> P (drop_timer t s).
Hypothesis P_ask : forall o t s, P s ->
  websocketRef (refs s) = true \/ is_open (wsReady (world s)) = true ->
  P (fst (checkWaitIntent o t s)).
Hypothesis P_settle : forall c g s, P s -> find_gateCall c s = Some g ->
  P (set_isCheckingWaitIntentRef false (drop_gateCall c s)).
Hypothesis P_finalize : forall c t s, P s ->
  c = closure (world s) \/ c = connected -> torn_down s ->
  P (processTranscript c t s).
Hypothesis P_play : forall u s, P s -> P (emit (AudioPlay u) s).
Hypothesis P_end : forall c f s, P s -> find_finalizerCall c s = Some f ->
  P (set_isProcessingRef false (drop_finalizerCall c s)).
Hypothesis P_opening : forall s, P s -> wsReady (world s) = CONNECTING ->
  P (startAudioProcessing (set_wsReady OPEN s)).
Hypothesis P_closed : forall s, P s -> P (set_wsReady CLOSED s).
Hypothesis P_now : forall n s, P s -> now (world s) <= n -> P (set_now n s).

Ltac ui_step :=
  match goal with
  | |- P (?f _) =>
      let h := head_of f in
      first [ unfold h; apply P_ui | fail 1 ]
  end.

Lemma loop_onWaitIntent (origin : GateOrigin) (t : jsstring) (w : bool)
  (s : Session) : P s -> P (onWaitIntent origin t w s).
Proof.
  intros H.
  assert (E : onWaitIntent origin t w s
              = if w then resetSilenceTimer true
                            (setLiveTranscript [] (setIsExtendedWait true s))
                else processTranscript (closure (world s)) t
                       (setConnectionState processing (cleanup s)))
    by (destruct origin, w; reflexivity).
  rewrite E. destruct w.
  - apply P_reset. do 2 ui_step. exact H.
  - apply P_finalize.
    + ui_step. now apply P_cleanup.
    + left. symmetry. apply cleanup_closure.
    + apply torn_down_ui, cleanup_torn_down.
Qed.

Lemma loop_askWaitIntent (origin : GateOrigin) (t : jsstring) (s : Session) :
  P s -> websocketRef (refs s) = true \/ is_open (wsReady (world s)) = true ->
  P (askWaitIntent origin t s).
Proof.
  intros H C. pose proof (P_ask origin t s H C) as A.
  unfold askWaitIntent. unfold checkWaitIntent in A |- *.
  destruct (blank t || isCheckingWaitIntentRef (refs s)).
  - now apply loop_onWaitIntent.
  - exact A.
Qed.

Lemma loop_runCallback (cb : TimerCallback) (s : Session) :
  P s -> P (runCallback cb s).
Proof.
  intros H. destruct cb as [t|d]; cbn [runCallback].
  - unfold eagerEndCallback.
    destruct (truthy t); cbn [andb]; [|exact H].
    destruct (websocketRef (refs s)) eqn:W; [|exact H].
    apply loop_askWaitIntent; [exact H|now left].
  - unfold silenceCallback. do 2 ui_step. now apply P_cleanup.
Qed.

Lemma loop_onTurnInfo (ti : TurnInfo) (s : Session) :
  P s -> is_open (wsReady (world s)) = true -> P (onTurnInfo ti s).
Proof.
  intros H O. unfold onTurnInfo.
  set (s0 := when _ (setLiveTranscript _) _).
  assert (H0 : P s0 /\ wsReady (world s0) = wsReady (world s)).
  { subst s0. unfold when. destruct (truthy (transcript ti)); split;
      try reflexivity; repeat ui_step; exact H. }
  destruct H0 as [H0 W0].
  destruct (ti_event ti) as [[| | | |]|].
  - unfold when. destruct (truthy (transcript ti)); [now apply P_reset|exact H0].
  - apply P_clearEager, P_reset. do 2 ui_step. exact H0.
  - now apply P_arm.
  - ui_step. now apply P_clearEager, P_reset.
  - unfold when. destruct (truthy (transcript ti)); [|now apply P_clearEager].
    apply loop_askWaitIntent; [now apply P_clearEager|].
    right. now rewrite clearEagerEnd_wsReady, W0.
  - exact H0.
Qed.

Lemma loop_onChunk (frames : list Frame) : forall s,
  P s -> P (onChunk frames s).
Proof.
  unfold onChunk. induction frames as [|f r IH]; intros s H; [exact H|].
  cbn [fold_left]. apply IH.
  destruct f as [m|q [u|]|  |m| ]; cbn [onFrame]; try exact H;
    try (ui_step; exact H).
  - unfold when. destruct (truthy u); [apply P_play|]; do 3 ui_step; exact H.
  - do 3 ui_step; exact H.
Qed.

Theorem loop_step (s s' : Session) (tr : Trigger) :
  P s -> step s tr = Some s' -> P s'.
Proof.
  intros H S.
  destruct tr as [|m| | |ms|t|c o|c fr|c r| |]; cbn [step] in S.
  - destruct (wsReady (world s)) eqn:W; try discriminate S. injection S as <-.
    unfold onopen. apply P_reset.
    change (P (setConnectionState connected
                 (startAudioProcessing (set_wsReady OPEN s)))).
    ui_step. now apply P_opening.
  - destruct (is_open _) eqn:O; [|discriminate S]. injection S as <-.
    destruct m as [|ti|d|]; cbn [onmessage]; try exact H.
    + now apply loop_onTurnInfo.
    + ui_step. apply P_cleanup. ui_step. exact H.
  - destruct (is_closed _); [discriminate S|]. injection S as <-.
    unfold onerror. ui_step. apply P_cleanup. ui_step. exact H.
  - destruct (is_closed _); [discriminate S|]. injection S as <-.
    unfold onclose, when.
    destruct (ConnectionState_eqb _ _); [ui_step|]; now apply P_closed.
  - destruct (0 <=? ms) eqn:E; [|discriminate S]. injection S as <-.
    apply P_now; [exact H|]. apply Z.leb_le in E. lia.
  - destruct (find_timer t s) as [x|]; [|discriminate S].
    destruct (due x <=? now (world s)); [|discriminate S]. injection S as <-.
    now apply loop_runCallback, P_fire.
  - destruct (find_gateCall c s) as [g|] eqn:F; [|discriminate S].
    injection S as <-. apply loop_onWaitIntent. exact (P_settle c g s H F).
  - destruct (find_finalizerCall c s); [|discriminate S]. injection S as <-.
    now apply loop_onChunk.
  - destruct (find_finalizerCall c s) as [f|] eqn:F; [|discriminate S].
    injection S as <-. unfold onStreamEnd, when.
    pose proof (P_end c f s H F) as E.
    destruct r as [|m], (ConnectionState_eqb (fclosure f) processing);
      repeat ui_step; try exact E.
    + change (P (setError m (set_isProcessingRef false (drop_finalizerCall c s)))).
      ui_step. exact E.
    + change (P (setError m (set_isProcessingRef false (drop_finalizerCall c s)))).
      ui_step. exact E.
  - destruct (ConnectionState_eqb _ _) eqn:C; [|discriminate S].
    injection S as <-. unfold stopListening.
    destruct (negb (blank (liveTranscript (ui s)))).
    + apply P_finalize; [now apply P_cleanup| |apply cleanup_torn_down].
      right. destruct (connectionState (ui s)); (discriminate C || reflexivity).
    + ui_step. now apply P_cleanup.
  - injection S as <-. unfold handleAudioEnded. ui_step. exact H.
Qed.

End EventLoop.

(** A property every step keeps is kept by every run. *)
Lemma run_invariant (P : Session -> Prop) :
  (forall s s' tr, P s -> step s tr = Some s' -> P s') ->
  forall l s s', P s -> run s l = Some s' -> P s'.
Proof.
  intros K. induction l as [|tr l IH]; intros s s' H R; cbn [run] in R.
  - injection R as <-. exact H.
  - destruct (step s tr) as [s1|] eqn:S; [|discriminate R].
    exact (IH s1 s' (K s s1 tr H S) R).
Qed.

Import Invariants.

(** *** One process-stream call in flight *)

Section FinalizerInvariant.

Lemma fin_frame (s s' : Session) :
  finalizerCalls (world s') = finalizerCalls (world s) ->
  isProcessingRef (refs s') = isProcessingRef (refs s) ->
  one_finalizer_call s -> one_finalizer_call s'.
Proof. unfold one_finalizer_call. intros -> ->. exact (fun H => H). Qed.

Lemma fin_processTranscript (c : ConnectionState) (t : jsstring) (s : Session) :
  one_finalizer_call s -> one_finalizer_call (processTranscript c t s).
Proof.
  intros H. unfold processTranscript.
  destruct (blank t); cbn [orb]; [exact H|].
  destruct (isProcessingRef (refs s)) eqn:E; [exact H|].
  unfold one_finalizer_call in *. rewrite E in H. cbn.
  rewrite length_app, H. reflexivity.
Qed.

Lemma fin_end (c : id) (f : FinalizerCall) (s : Session) :
  one_finalizer_call s -> find_finalizerCall c s = Some f ->
  one_finalizer_call (set_isProcessingRef false (drop_finalizerCall c s)).
Proof.
  unfold one_finalizer_call, find_finalizerCall. intros H F. cbn.
  destruct (finalizerCalls (world s)) as [|x [|y l]] eqn:E.
  - discriminate F.
  - cbn in F |- *. destruct (Nat.eqb (fid x) c); [reflexivity|discriminate F].
  - destruct (isProcessingRef (refs s)); discriminate H.
Qed.

Lemma fin_step (s s' : Session) (tr : Trigger) :
  one_finalizer_call s -> step s tr = Some s' -> one_finalizer_call s'.
Proof.
  apply (loop_step one_finalizer_call).
  - intros f x. exact (fun H => H).
  - intros x. apply fin_frame; rewrite cleanup_eq; reflexivity.
  - intros b x. apply fin_frame; rewrite resetSilenceTimer_eq; reflexivity.
  - intros x. unfold clearEagerEnd, if_timer.
    destruct (eagerEndTimeoutRef (refs x)); exact (fun H => H).
  - intros t x. exact (fun H => H).
  - intros t x. exact (fun H => H).
  - intros o t x H _. unfold checkWaitIntent.
    destruct (blank t || isCheckingWaitIntentRef (refs x)); exact H.
  - intros c g x H _. exact H.
  - intros c t x H _ _. now apply fin_processTranscript.
  - intros u x. exact (fun H => H).
  - exact fin_end.
  - intros x H _. exact H.
  - intros x. exact (fun H => H).
  - intros n x H _. exact H.
Qed.

End FinalizerInvariant.

(** X1: in every state the session can reach, at most one process-stream
    call is in flight, and while one is, [processTranscript] does nothing:
    no request, no change of state. *)
Theorem one_process_stream_call_in_flight
  (captured : ConnectionState) (l : list Trigger) (s : Session) :
  run (initial_session captured) l = Some s ->
  (List.length (finalizerCalls (world s)) <= 1)%nat
  /\ (finalizerCalls (world s) <> [] ->
      forall c t, processTranscript c t s = s).
Proof.
  intros R.
  assert (H : one_finalizer_call s)
    by exact (run_invariant one_finalizer_call fin_step l
                (initial_session captured) s eq_refl R).
  unfold one_finalizer_call in H. split.
  - rewrite H. destruct (isProcessingRef (refs s)); auto.
  - intros N c t. unfold processTranscript.
    destruct (isProcessingRef (refs s)).
    + now rewrite orb_true_r.
    + apply length_zero_iff_nil in H. contradiction.
Qed.

Lemma one_process_stream_call_in_flight_witness :
  let s := after [turnInfo EndOfTurn "when will it arrive";
                  GateResolves 2%nat (reply false)] in
  List.length (finalizerCalls (world s)) = 1%nat
  /\ processTranscript connected (lit "again") s = s.
Proof.
  intros s.
  assert (R : run (initial_session disconnected)
                [WsOpen; turnInfo EndOfTurn "when will it arrive";
                 GateResolves 2%nat (reply false)] = Some s)
    by (vm_compute; reflexivity).
  destruct (one_process_stream_call_in_flight disconnected _ _ R) as [_ H].
  split; [vm_compute; reflexivity|]. apply H. vm_compute. discriminate.
Defined.


(** *** One watchdog *)

Section WatchdogInvariant.

Lemma no_elements {A : Type} (l : list A) :
  (forall x, In x l -> False) -> l = [].
Proof.
  destruct l as [|a l]; [reflexivity|].
  intros H. destruct (H a (or_introl eq_refl)).
Qed.

Lemma filter_length_le {A : Type} (p : A -> bool) (l : list A) :
  (List.length (filter p l) <= List.length l)%nat.
Proof.
  induction l as [|a l IH]; [apply Nat.le_refl|].
  simpl. destruct (p a); simpl; lia.
Qed.

Lemma filter_swap {A : Type} (p q : A -> bool) (l : list A) :
  filter p (filter q l) = filter q (filter p l).
Proof.
  induction l as [|a l IH]; [reflexivity|].
  simpl. destruct (p a) eqn:Ep, (q a) eqn:Eq; simpl;
    rewrite ?Ep, ?Eq, IH; reflexivity.
Qed.

Lemma watchdogs_cancel (r : option id) (l : list Timer) :
  filter is_watchdog (cancel r l) = cancel r (filter is_watchdog l).
Proof. destruct r; [apply filter_swap|reflexivity]. Qed.

Lemma wd_frame (s s' : Session) :
  timers (world s') = timers (world s) ->
  silenceTimeoutRef (refs s') = silenceTimeoutRef (refs s) ->
  one_watchdog s -> one_watchdog s'.
Proof. unfold one_watchdog, watchdogs. intros -> ->. exact (fun H => H). Qed.

(** Cancelling timers keeps the invariant as long as the ref stays. *)
Lemma wd_fewer (r : option id) (s s' : Session) :
  timers (world s') = cancel r (timers (world s)) ->
  silenceTimeoutRef (refs s') = silenceTimeoutRef (refs s) ->
  one_watchdog s -> one_watchdog s'.
Proof.
  unfold one_watchdog, watchdogs. intros -> -> [L H]. rewrite watchdogs_cancel.
  split.
  - destruct r; [|exact L]. simpl.
    eapply Nat.le_trans; [apply filter_length_le|exact L].
  - intros x I. apply H. exact (in_cancel _ _ _ I).
Qed.

(** Cancelling the timer the ref holds leaves no watchdog. *)
Lemma wd_cancelled (s : Session) :
  one_watchdog s ->
  cancel (silenceTimeoutRef (refs s)) (watchdogs s) = [].
Proof.
  intros [_ H]. apply no_elements. intros x I.
  pose proof (H x (in_cancel _ _ _ I)) as E. rewrite E in I.
  simpl in I. apply filter_In in I as [_ N].
  rewrite Nat.eqb_refl in N. discriminate N.
Qed.

Lemma wd_cleanup (s : Session) : one_watchdog s -> one_watchdog (cleanup s).
Proof.
  intros [_ H]. unfold one_watchdog, watchdogs. rewrite cleanup_eq. cbn.
  assert (E : filter is_watchdog
                (cancel (silenceTimeoutRef (refs s))
                   (cancel (eagerEndTimeoutRef (refs s)) (timers (world s))))
              = []).
  { apply no_elements. intros x I. apply filter_In in I as [I W].
    assert (X : In x (watchdogs s)).
    { apply filter_In. split; [|exact W].
      exact (in_cancel _ _ _ (in_cancel _ _ _ I)). }
    rewrite (H x X) in I. simpl in I. apply filter_In in I as [_ N].
    rewrite Nat.eqb_refl in N. discriminate N. }
  rewrite E. split; [apply Nat.le_0_l|intros x []].
Qed.

Lemma wd_resetSilenceTimer (b : bool) (s : Session) :
  one_watchdog s -> one_watchdog (resetSilenceTimer b s).
Proof.
  intros H. unfold one_watchdog, watchdogs. rewrite resetSilenceTimer_eq. cbn.
  rewrite filter_app, watchdogs_cancel.
  pose proof (wd_cancelled s H) as C. unfold watchdogs in C. rewrite C. cbn.
  split; [apply Nat.le_refl|]. intros x [<-|[]]. reflexivity.
Qed.

Lemma wd_step (s s' : Session) (tr : Trigger) :
  one_watchdog s -> step s tr = Some s' -> one_watchdog s'.
Proof.
  apply (loop_step one_watchdog).
  - intros f x. exact (fun H => H).
  - exact wd_cleanup.
  - exact wd_resetSilenceTimer.
  - intros x. unfold clearEagerEnd, if_timer.
    destruct (eagerEndTimeoutRef (refs x)) as [e|]; [|exact (fun H => H)].
    apply (wd_fewer (Some e)); reflexivity.
  - intros t x [L H]. unfold one_watchdog, watchdogs, setTimeout, fresh. cbn.
    rewrite filter_app. cbn. rewrite app_nil_r. split; assumption.
  - intros t x. apply (wd_fewer (Some t)); reflexivity.
  - intros o t x H _. unfold checkWaitIntent.
    destruct (blank t || isCheckingWaitIntentRef (refs x)); exact H.
  - intros c g x H _. exact H.
  - intros c t x H _ _. unfold processTranscript.
    destruct (blank t || isProcessingRef (refs x)); exact H.
  - intros u x. exact (fun H => H).
  - intros c f x H _. exact H.
  - intros x H _. exact H.
  - intros x. exact (fun H => H).
  - intros n x H _. exact H.
Qed.

End WatchdogInvariant.

(** X2: in every state the session can reach, at most one silence timer is
    pending, and it is the one [silenceTimeoutRef] holds: arming the watchdog
    always replaces the previous one, and teardown leaves none. *)
Theorem one_watchdog_pending
  (captured : ConnectionState) (l : list Trigger) (s : Session) :
  run (initial_session captured) l = Some s ->
  (List.length (watchdogs s) <= 1)%nat
  /\ (forall x, In x (watchdogs s) -> silenceTimeoutRef (refs s) = Some (tid x))
  /\ (silenceTimeoutRef (refs s) = None -> watchdogs s = []).
Proof.
  intros R.
  assert (H : one_watchdog s).
  { apply (run_invariant one_watchdog wd_step l (initial_session captured) s);
      [|exact R].
    split; [apply Nat.le_0_l|intros x []]. }
  destruct H as [L H]. split; [exact L|]. split; [exact H|].
  intros N. apply no_elements. intros x I.
  rewrite (H x I) in N. discriminate N.
Qed.

Lemma one_watchdog_pending_witness :
  let s := after [turnInfo StartOfTurn ""; turnInfo Update "hello";
                  turnInfo EndOfTurn "hold on";
                  GateResolves 4%nat (reply true)] in
  watchdogs s = [mkTimer 5%nat 20000 (SilenceCallback 20000)]
  /\ silenceTimeoutRef (refs s) = Some 5%nat.
Proof.
  intros s.
  assert (R : run (initial_session disconnected)
                [WsOpen; turnInfo StartOfTurn ""; turnInfo Update "hello";
                 turnInfo EndOfTurn "hold on";
                 GateResolves 4%nat (reply true)] = Some s)
    by (vm_compute; reflexivity).
  destruct (one_watchdog_pending disconnected _ _ R) as (_ & H & _).
  assert (W : watchdogs s = [mkTimer 5%nat 20000 (SilenceCallback 20000)])
    by (vm_compute; reflexivity).
  split; [exact W|]. apply (H (mkTimer 5%nat 20000 (SilenceCallback 20000))).
  rewrite W. now left.
Defined.


(** *** The socket after teardown, and the hand-off to the Finalizer *)

Lemma shut_closing (r : ReadyState) : shut (closing r).
Proof. destruct r; cbv; auto. Qed.

Lemma clearEagerEnd_refs (s : Session) :
  websocketRef (refs (clearEagerEnd s)) = websocketRef (refs s)
  /\ mediaStreamRef (refs (clearEagerEnd s)) = mediaStreamRef (refs s)
  /\ processorRef (refs (clearEagerEnd s)) = processorRef (refs s).
Proof.
  unfold clearEagerEnd, if_timer.
  destruct (eagerEndTimeoutRef (refs s)); repeat split.
Qed.

Lemma clearEagerEnd_trace (s : Session) :
  finalized (trace (world (clearEagerEnd s))) = finalized (trace (world s))
  /\ gated (trace (world (clearEagerEnd s))) = gated (trace (world s)).
Proof.
  unfold clearEagerEnd, if_timer.
  destruct (eagerEndTimeoutRef (refs s)); split; reflexivity.
Qed.

Lemma checkWaitIntent_frame (o : GateOrigin) (t : jsstring) (s : Session) :
  refs_but_flag (refs (fst (checkWaitIntent o t s))) = refs_but_flag (refs s)
  /\ wsReady (world (fst (checkWaitIntent o t s))) = wsReady (world s)
  /\ finalized (trace (world (fst (checkWaitIntent o t s))))
     = finalized (trace (world s))
  /\ finalizerCalls (world (fst (checkWaitIntent o t s)))
     = finalizerCalls (world s)
  /\ closure (world (fst (checkWaitIntent o t s))) = closure (world s).
Proof.
  unfold checkWaitIntent.
  destruct (blank t || isCheckingWaitIntentRef (refs s)); repeat split.
Qed.

Lemma processTranscript_frame (c : ConnectionState) (t : jsstring)
  (s : Session) :
  refs_but_flag (refs (processTranscript c t s)) = refs_but_flag (refs s)
  /\ wsReady (world (processTranscript c t s)) = wsReady (world s)
  /\ gated (trace (world (processTranscript c t s))) = gated (trace (world s))
  /\ closure (world (processTranscript c t s)) = closure (world s).
Proof.
  unfold processTranscript.
  destruct (blank t || isProcessingRef (refs s)); repeat split.
Qed.

Lemma clearEagerEnd_calls (s : Session) :
  finalizerCalls (world (clearEagerEnd s)) = finalizerCalls (world s)
  /\ closure (world (clearEagerEnd s)) = closure (world s).
Proof.
  unfold clearEagerEnd, if_timer.
  destruct (eagerEndTimeoutRef (refs s)); split; reflexivity.
Qed.

Section SocketInvariant.

Lemma sock_cleanup (s : Session) :
  dropped_socket_shut s -> dropped_socket_shut (cleanup s).
Proof.
  unfold dropped_socket_shut. intros H _. rewrite cleanup_eq. cbn.
  destruct (websocketRef (refs s)); [apply shut_closing|now apply H].
Qed.

Lemma sock_reset (b : bool) (s : Session) :
  dropped_socket_shut s -> dropped_socket_shut (resetSilenceTimer b s).
Proof.
  unfold dropped_socket_shut. rewrite resetSilenceTimer_eq. exact (fun H => H).
Qed.

Lemma sock_clearEager (s : Session) :
  dropped_socket_shut s -> dropped_socket_shut (clearEagerEnd s).
Proof.
  unfold dropped_socket_shut.
  rewrite clearEagerEnd_wsReady, (proj1 (clearEagerEnd_refs s)).
  exact (fun H => H).
Qed.

Lemma sock_ask (o : GateOrigin) (t : jsstring) (s : Session) :
  dropped_socket_shut s -> dropped_socket_shut (fst (checkWaitIntent o t s)).
Proof.
  unfold dropped_socket_shut. intros H.
  destruct (checkWaitIntent_frame o t s) as (R & W & _).
  rewrite W. intros E. apply H. rewrite <- E.
  exact (f_equal rb_websocket (eq_sym R)).
Qed.

Lemma sock_finalize (c : ConnectionState) (t : jsstring) (s : Session) :
  dropped_socket_shut s -> dropped_socket_shut (processTranscript c t s).
Proof.
  unfold dropped_socket_shut. intros H.
  destruct (processTranscript_frame c t s) as (R & W & _).
  rewrite W. intros E. apply H. rewrite <- E.
  exact (f_equal rb_websocket (eq_sym R)).
Qed.

Lemma sock_opening (s : Session) :
  dropped_socket_shut s -> wsReady (world s) = CONNECTING ->
  websocketRef (refs s) = true.
Proof.
  unfold dropped_socket_shut. intros H C.
  destruct (websocketRef (refs s)); [reflexivity|].
  destruct (H eq_refl) as [E|E]; rewrite C in E; discriminate E.
Qed.

Lemma sock_step (s s' : Session) (tr : Trigger) :
  dropped_socket_shut s -> step s tr = Some s' -> dropped_socket_shut s'.
Proof.
  apply (loop_step dropped_socket_shut).
  - intros f x. exact (fun H => H).
  - exact sock_cleanup.
  - exact sock_reset.
  - exact sock_clearEager.
  - intros t x. exact (fun H => H).
  - intros t x. exact (fun H => H).
  - intros o t x H _. now apply sock_ask.
  - intros c g x H _. exact H.
  - intros c t x H _ _. now apply sock_finalize.
  - intros u x. exact (fun H => H).
  - intros c f x H _. exact H.
  - intros x H C N. cbn in N. rewrite (sock_opening x H C) in N.
    discriminate N.
  - intros x _ _. now right.
  - intros n x H _. exact H.
Qed.

End SocketInvariant.

Section HandOff.

Let P (s : Session) : Prop := dropped_socket_shut s /\ idle_once_handed_off s.

Lemma released_frame (s s' : Session) :
  websocketRef (refs s') = websocketRef (refs s) ->
  mediaStreamRef (refs s') = mediaStreamRef (refs s) ->
  processorRef (refs s') = processorRef (refs s) ->
  released s -> released s'.
Proof. unfold released. intros -> -> ->. exact (fun H => H). Qed.

Lemma released_flags (s s' : Session) :
  refs_but_flag (refs s') = refs_but_flag (refs s) ->
  released s -> released s'.
Proof.
  intros R. apply released_frame.
  - exact (f_equal rb_websocket R).
  - exact (f_equal rb_mediaStream R).
  - exact (f_equal rb_processor R).
Qed.

Lemma idle_frame (s s' : Session) :
  (released s -> released s') ->
  finalized (trace (world s')) = finalized (trace (world s)) ->
  idle_once_handed_off s -> idle_once_handed_off s'.
Proof.
  unfold idle_once_handed_off. intros R T [H|H].
  - left. now rewrite T.
  - right. now apply R.
Qed.

Lemma handoff_step (s s' : Session) (tr : Trigger) :
  P s -> step s tr = Some s' -> P s'.
Proof.
  apply (loop_step P); unfold P.
  - intros f x. exact (fun H => H).
  - intros x [S _]. split; [now apply sock_cleanup|].
    right. rewrite cleanup_eq. repeat split.
  - intros b x [S H]. split; [now apply sock_reset|]. revert H.
    apply idle_frame; rewrite resetSilenceTimer_eq.
    + exact (fun H => H).
    + cbn. destruct (silenceTimeoutRef (refs x)); reflexivity.
  - intros x [S H]. split; [now apply sock_clearEager|]. revert H.
    destruct (clearEagerEnd_refs x) as (R1 & R2 & R3).
    apply idle_frame; [now apply released_frame|apply clearEagerEnd_trace].
  - intros t x. exact (fun H => H).
  - intros t x. exact (fun H => H).
  - intros o t x [S H] _. split; [now apply sock_ask|]. revert H.
    destruct (checkWaitIntent_frame o t x) as (R & _ & T & _).
    apply idle_frame; [now apply released_flags|exact T].
  - intros c g x H _. exact H.
  - intros c t x [S _] _ (T1 & T2 & T3 & _). split; [now apply sock_finalize|].
    right. apply (released_flags x).
    + apply processTranscript_frame.
    + repeat split; assumption.
  - intros u x. exact (fun H => H).
  - intros c f x H _. exact H.
  - intros x [S H] C. split.
    + intros N. cbn in N. rewrite (sock_opening x S C) in N. discriminate N.
    + destruct H as [H|(W & _)]; [now left|].
      rewrite (sock_opening x S C) in W. discriminate W.
  - intros x [_ H]. split; [intros _; now right|exact H].
  - intros n x H _. exact H.
Qed.

End HandOff.

(** X3: in every state the session can reach, once a transcript has been
    handed to the Finalizer the session holds no resource: the socket ref is
    null and the socket closing or closed, the microphone stream is released
    and the audio processor disconnected. Every process-stream request is
    sent after the teardown, never before. *)
Theorem handed_off_means_released
  (captured : ConnectionState) (l : list Trigger) (s : Session) :
  run (initial_session captured) l = Some s ->
  finalized (trace (world s)) <> [] ->
  released s /\ shut (wsReady (world s)).
Proof.
  intros R N.
  assert (H : dropped_socket_shut s /\ idle_once_handed_off s).
  { apply (run_invariant _ handoff_step l (initial_session captured) s);
      [|exact R].
    split; [intros E; discriminate E|now left]. }
  destruct H as [S [H|H]]; [contradiction|].
  split; [exact H|]. apply S, H.
Qed.

Lemma handed_off_means_released_witness :
  let s := after [turnInfo EndOfTurn "when will it arrive";
                  GateResolves 2%nat (reply false);
                  FinalizerChunk 3%nat [FResult 2 (Some (lit "/2question.mp3"))]]
  in
  finalized (trace (world s)) = [lit "when will it arrive"]
  /\ released s /\ shut (wsReady (world s)).
Proof.
  intros s.
  assert (R : run (initial_session disconnected)
                [WsOpen; turnInfo EndOfTurn "when will it arrive";
                 GateResolves 2%nat (reply false);
                 FinalizerChunk 3%nat
                   [FResult 2 (Some (lit "/2question.mp3"))]] = Some s)
    by (vm_compute; reflexivity).
  assert (T : finalized (trace (world s)) = [lit "when will it arrive"])
    by (vm_compute; reflexivity).
  split; [exact T|].
  apply (handed_off_means_released disconnected _ s R).
  rewrite T. discriminate.
Defined.


(** *** Teardown is final *)

Section TornDownForGood.

Variable s0 : Session.

Let P (s : Session) : Prop := closed_down s /\ no_gate s0 s.

Lemma no_gate_more (es : list Effect) (s s' : Session) :
  trace (world s') = es ++ trace (world s) -> gated es = [] ->
  no_gate s0 s -> no_gate s0 s'.
Proof.
  intros T G (e0 & T0 & G0). exists (es ++ e0).
  rewrite T, T0, app_assoc, gated_app, G, G0. split; reflexivity.
Qed.

Lemma closed_frame (s s' : Session) :
  websocketRef (refs s') = websocketRef (refs s) ->
  wsReady (world s') = wsReady (world s) ->
  closed_down s -> closed_down s'.
Proof. unfold closed_down. intros -> ->. exact (fun H => H). Qed.

Lemma closed_step (s s' : Session) (tr : Trigger) :
  P s -> step s tr = Some s' -> P s'.
Proof.
  apply (loop_step P); unfold P.
  - intros f x. exact (fun H => H).
  - intros x [[W S] G]. split.
    + unfold closed_down. rewrite cleanup_eq. cbn. now rewrite W.
    + apply (no_gate_more (rev (cleanup_effects x)) x); [| |exact G].
      * rewrite cleanup_eq. reflexivity.
      * rewrite gated_rev, (proj2 (cleanup_effects_no_request x)). reflexivity.
  - intros b x [C G]. split.
    + revert C. apply closed_frame; rewrite resetSilenceTimer_eq; reflexivity.
    + destruct (no_request_resetSilenceTimer b x) as (es & T & E & _).
      exact (no_gate_more es x _ T E G).
  - intros x [C G]. split.
    + revert C. apply closed_frame;
        [apply clearEagerEnd_refs|apply clearEagerEnd_wsReady].
    + destruct (no_request_clearEagerEnd x) as (es & T & E & _).
      exact (no_gate_more es x _ T E G).
  - intros t x [C G]. split; [exact C|].
    apply (no_gate_more [SetTimeout (nextId (world x)) EAGER_END_DELAY_MS] x);
      [reflexivity|reflexivity|exact G].
  - intros t x [C G]. split; [exact C|].
    apply (no_gate_more [] x); [reflexivity|reflexivity|exact G].
  - intros o t x [[W S] _] [E|E].
    + rewrite W in E. discriminate E.
    + destruct S as [S|S]; rewrite S in E; discriminate E.
  - intros c g x [C G] _. split; [exact C|].
    apply (no_gate_more [] x); [reflexivity|reflexivity|exact G].
  - intros c t x [C G] _ _.
    destruct (processTranscript_frame c t x) as (R & W & _). split.
    + revert C. apply closed_frame; [exact (f_equal rb_websocket R)|exact W].
    + unfold processTranscript.
      destruct (blank t || isProcessingRef (refs x)).
      * apply (no_gate_more [] x); [reflexivity|reflexivity|exact G].
      * apply (no_gate_more [FetchProcessStream (nextId (world x)) t] x);
          [reflexivity|reflexivity|exact G].
  - intros u x [C G]. split; [exact C|].
    apply (no_gate_more [AudioPlay u] x); [reflexivity|reflexivity|exact G].
  - intros c f x [C G] _. split; [exact C|].
    apply (no_gate_more [] x); [reflexivity|reflexivity|exact G].
  - intros x [[_ [S|S]] _] C; rewrite S in C; discriminate C.
  - intros x [[W _] G]. split; [split; [exact W|now right]|].
    apply (no_gate_more [] x); [reflexivity|reflexivity|exact G].
  - intros n x [C G] _. split; [exact C|].
    apply (no_gate_more [] x); [reflexivity|reflexivity|exact G].
Qed.

End TornDownForGood.

(** X4: within one listening session teardown is final. In every state the
    session can reach in which [websocketRef] is null, and in every state
    after it until the start button is pressed again, no frame of the socket
    is handled any more and no wait-intent request is sent: a timer for an
    eager end of turn that still fires finds the ref null and does nothing.
    The triggers are those of one session; [startListening], which sets the
    ref anew, is not among them (X23 is about that case). *)
Theorem torn_down_for_good
  (captured : ConnectionState) (l l' : list Trigger) (s s' : Session) :
  run (initial_session captured) l = Some s ->
  websocketRef (refs s) = false ->
  run s l' = Some s' ->
  websocketRef (refs s') = false
  /\ gated (since s s') = []
  /\ forall m, step s' (WsMessage m) = None.
Proof.
  intros R W R'.
  assert (S : dropped_socket_shut s).
  { apply (run_invariant _ sock_step l (initial_session captured) s);
      [|exact R].
    intros E. discriminate E. }
  assert (H : closed_down s' /\ no_gate s s').
  { apply (run_invariant _ (closed_step s) l' s s'); [|exact R'].
    split; [split; [exact W|exact (S W)]|].
    exists []. split; reflexivity. }
  destruct H as [[W' S'] (es & T & G)].
  split; [exact W'|]. split.
  - rewrite (since_app s s' es T), gated_rev, G. reflexivity.
  - intros m. cbn [step]. destruct S' as [E|E]; rewrite E; reflexivity.
Qed.

Lemma torn_down_for_good_witness :
  let s := after [turnInfo EagerEndOfTurn "one"; turnInfo EagerEndOfTurn "two";
                  WsMessage (MError [])] in
  let s' := after [turnInfo EagerEndOfTurn "one"; turnInfo EagerEndOfTurn "two";
                   WsMessage (MError []); Elapse 800; TimerFires 2%nat] in
  websocketRef (refs s) = false
  /\ find_timer 2%nat s
     = Some (mkTimer 2%nat 800 (EagerEndCallback (lit "one")))
  /\ gated (since s s') = []
  /\ step s' (turnInfo EndOfTurn "three") = None.
Proof.
  intros s s'.
  assert (R : run (initial_session disconnected)
                [WsOpen; turnInfo EagerEndOfTurn "one";
                 turnInfo EagerEndOfTurn "two"; WsMessage (MError [])]
              = Some s) by (vm_compute; reflexivity).
  assert (R' : run s [Elapse 800; TimerFires 2%nat] = Some s')
    by (vm_compute; reflexivity).
  assert (W : websocketRef (refs s) = false) by (vm_compute; reflexivity).
  destruct (torn_down_for_good disconnected _ _ s s' R W R') as (_ & G & M).
  split; [exact W|]. split; [vm_compute; reflexivity|].
  split; [exact G|apply M].
Defined.

(** *** The end of a process-stream call *)

Section Captured.

Lemma captured_frame (s s' : Session) :
  finalizerCalls (world s') = finalizerCalls (world s) ->
  closure (world s') = closure (world s) ->
  never_captured_processing s -> never_captured_processing s'.
Proof.
  unfold never_captured_processing. intros -> ->. exact (fun H => H).
Qed.

Lemma captured_step (s s' : Session) (tr : Trigger) :
  never_captured_processing s -> step s tr = Some s' ->
  never_captured_processing s'.
Proof.
  apply (loop_step never_captured_processing).
  - intros f x. exact (fun H => H).
  - intros x. apply captured_frame; rewrite cleanup_eq; reflexivity.
  - intros b x. apply captured_frame; rewrite resetSilenceTimer_eq; reflexivity.
  - intros x. apply captured_frame; apply clearEagerEnd_calls.
  - intros t x. exact (fun H => H).
  - intros t x. exact (fun H => H).
  - intros o t x H _. revert H.
    destruct (checkWaitIntent_frame o t x) as (_ & _ & _ & F & C).
    now apply captured_frame.
  - intros c g x H _. exact H.
  - intros c t x [N H] C _. unfold processTranscript.
    destruct (blank t || isProcessingRef (refs x)); [now split|].
    split; [exact N|]. cbn. intros f I.
    apply in_app_or in I as [I|[<-|[]]]; [now apply H|]. cbn.
    destruct C as [->| ->]; [exact N|discriminate].
  - intros u x. exact (fun H => H).
  - intros c f x [N H] _. split; [exact N|]. cbn. intros g I.
    apply filter_In in I as [I _]. now apply H.
  - intros x H _. exact H.
  - intros x. exact (fun H => H).
  - intros n x H _. exact H.
Qed.

End Captured.

(** X5: the end of a process-stream call releases [isProcessingRef] and, on
    failure, shows the error message, but it never changes
    [connectionState]: the [finally] block compares the [connectionState] its
    closure captured, and no closure the session can reach was made in the
    state [processing] (the start button is disabled then, and the stop
    button shows only while [connected]). After a failed hand-off the state
    stays as it was. *)
Theorem stream_end_keeps_connectionState
  (captured : ConnectionState) (l : list Trigger) (s s' : Session)
  (c : id) (r : StreamEnd) :
  captured <> processing ->
  run (initial_session captured) l = Some s ->
  step s (FinalizerEnds c r) = Some s' ->
  connectionState (ui s') = connectionState (ui s)
  /\ isProcessingRef (refs s') = false
  /\ error (ui s') = match r with
                     | StreamThrows m => m
                     | StreamDone => error (ui s)
                     end.
Proof.
  intros N R S.
  assert (H : never_captured_processing s).
  { apply (run_invariant _ captured_step l (initial_session captured) s);
      [|exact R].
    split; [exact N|intros f []]. }
  cbn [step] in S.
  destruct (find_finalizerCall c s) as [f|] eqn:F; [|discriminate S].
  injection S as <-.
  assert (E : ConnectionState_eqb (fclosure f) processing = false).
  { unfold find_finalizerCall in F. apply find_some in F as [I _].
    pose proof (proj2 H f I) as X.
    destruct (fclosure f); try reflexivity. now contradiction X. }
  unfold onStreamEnd. rewrite E. destruct r; repeat split.
Qed.

Lemma stream_end_keeps_connectionState_witness :
  let s := after [turnInfo EndOfTurn "when will it arrive";
                  GateResolves 2%nat (reply false)] in
  exists s',
    step s (FinalizerEnds 3%nat (StreamThrows (lit "Failed to process transcript")))
    = Some s'
    /\ connectionState (ui s') = processing
    /\ isProcessingRef (refs s') = false
    /\ error (ui s') = lit "Failed to process transcript".
Proof.
  intros s.
  assert (R : run (initial_session disconnected)
                [WsOpen; turnInfo EndOfTurn "when will it arrive";
                 GateResolves 2%nat (reply false)] = Some s)
    by (vm_compute; reflexivity).
  eexists. split; [vm_compute; reflexivity|].
  match goal with |- connectionState (ui ?x) = _ /\ _ => set (s' := x) end.
  assert (S : step s (FinalizerEnds 3%nat
                        (StreamThrows (lit "Failed to process transcript")))
              = Some s') by (vm_compute; reflexivity).
  destruct (stream_end_keeps_connectionState disconnected _ s s' 3%nat _
              ltac:(discriminate) R S) as (A & B & C).
  split; [rewrite A; vm_compute; reflexivity|]. split; assumption.
Defined.


(** *** Handles *)

Section Handles.

Lemma fresh_frame (s s' : Session) :
  (forall x, In x (timers (world s')) -> In x (timers (world s))) ->
  (forall e, eagerEndTimeoutRef (refs s') = Some e ->
             eagerEndTimeoutRef (refs s) = Some e) ->
  (forall w, silenceTimeoutRef (refs s') = Some w ->
             silenceTimeoutRef (refs s) = Some w) ->
  (nextId (world s) <= nextId (world s'))%nat ->
  handles_fresh s -> handles_fresh s'.
Proof.
  unfold handles_fresh, timers_fresh. intros T E W N (H1 & H2 & H3).
  split; [|split].
  - intros x I. specialize (H1 x (T x I)). lia.
  - intros e I. specialize (H2 e (E e I)). lia.
  - intros w I. specialize (H3 w (W w I)). lia.
Qed.

Lemma fresh_step (s s' : Session) (tr : Trigger) :
  handles_fresh s -> step s tr = Some s' -> handles_fresh s'.
Proof.
  apply (loop_step handles_fresh).
  - intros f x. exact (fun H => H).
  - intros x. apply fresh_frame; rewrite cleanup_eq; cbn;
      try discriminate; try apply Nat.le_refl.
    intros y I. exact (in_cancel _ _ _ (in_cancel _ _ _ I)).
  - intros b x (H1 & H2 & H3). rewrite resetSilenceTimer_eq.
    unfold handles_fresh, timers_fresh. cbn. split; [|split].
    + intros y I. apply in_app_or in I as [I|[<-|[]]]; [|cbn; lia].
      specialize (H1 y (in_cancel _ _ _ I)). lia.
    + intros e I. specialize (H2 e I). lia.
    + intros w [= <-]. lia.
  - intros x. unfold clearEagerEnd, if_timer.
    destruct (eagerEndTimeoutRef (refs x)) as [e|] eqn:E; [|exact (fun H => H)].
    apply fresh_frame; cbn; try discriminate; try apply Nat.le_refl;
      try exact (fun w H => H).
    intros y I. now apply filter_In in I.
  - intros t x (H1 & H2 & H3). unfold handles_fresh, timers_fresh, setTimeout,
      fresh. cbn. split; [|split].
    + intros y I. apply in_app_or in I as [I|[<-|[]]]; [|cbn; lia].
      specialize (H1 y I). lia.
    + intros e [= <-]. lia.
    + intros w I. specialize (H3 w I). lia.
  - intros t x. apply fresh_frame; cbn; try exact (fun w H => H);
      try apply Nat.le_refl.
    intros y I. now apply filter_In in I.
  - intros o t x H _. revert H. unfold checkWaitIntent.
    destruct (blank t || isCheckingWaitIntentRef (refs x));
      [exact (fun H => H)|].
    apply fresh_frame; cbn; try exact (fun w H => H). lia.
  - intros c g x H _. exact H.
  - intros c t x H _ _. revert H. unfold processTranscript.
    destruct (blank t || isProcessingRef (refs x)); [exact (fun H => H)|].
    apply fresh_frame; cbn; try exact (fun w H => H). lia.
  - intros u x. exact (fun H => H).
  - intros c f x H _. exact H.
  - intros x H _. exact H.
  - intros x. exact (fun H => H).
  - intros n x H _. exact H.
Qed.

Lemma fresh_initial (captured : ConnectionState) :
  handles_fresh (initial_session captured).
Proof. split; [intros x []|split; intros e E; discriminate E]. Qed.

End Handles.

(** *** Speech keeps the session alive *)

Lemma find_app_found {A : Type} (p : A -> bool) (l l' : list A) (x : A) :
  find p l = Some x -> find p (l ++ l') = Some x.
Proof.
  induction l as [|a l IH]; [discriminate|]. simpl.
  destruct (p a); [exact (fun H => H)|exact IH].
Qed.

(** X6: a frame that tells of speech ([StartOfTurn], [TurnResumed], or an
    [Update] with a transcript) replaces the watchdog by one due 7 s after
    the frame, whatever deadline was pending, the extended one included.
    Only [StartOfTurn] resets [isExtendedWait]. *)
Theorem speech_rearms_watchdog
  (captured : ConnectionState) (l : list Trigger) (s s' : Session)
  (ti : TurnInfo) :
  run (initial_session captured) l = Some s ->
  speech ti = true ->
  step s (WsMessage (MTurnInfo ti)) = Some s' ->
  watchdogs s'
  = [mkTimer (nextId (world s)) (now (world s) + 7000) (SilenceCallback 7000)]
  /\ silenceTimeoutRef (refs s') = Some (nextId (world s))
  /\ isExtendedWait (ui s')
     = match ti_event ti with
       | Some StartOfTurn => false
       | _ => isExtendedWait (ui s)
       end.
Proof.
  intros R Sp S.
  assert (W : one_watchdog s).
  { apply (run_invariant _ wd_step l (initial_session captured) s); [|exact R].
    split; [apply Nat.le_0_l|intros x []]. }
  assert (F : handles_fresh s)
    by exact (run_invariant _ fresh_step l _ s (fresh_initial captured) R).
  cbn [step] in S. destruct (is_open _); [|discriminate S].
  injection S as <-. cbn [onmessage]. unfold onTurnInfo.
  (* what [resetSilenceTimer] leaves, on a state that differs in [ui] only *)
  assert (A : forall x, refs x = refs s -> world x = world s ->
            watchdogs (resetSilenceTimer false x)
            = [mkTimer (nextId (world s)) (now (world s) + 7000)
                 (SilenceCallback 7000)]
            /\ silenceTimeoutRef (refs (resetSilenceTimer false x))
               = Some (nextId (world s))
            /\ eagerEndTimeoutRef (refs (resetSilenceTimer false x))
               = eagerEndTimeoutRef (refs s)
            /\ ui (resetSilenceTimer false x) = ui x).
  { intros x Rx Wx. rewrite resetSilenceTimer_eq. unfold watchdogs. cbn.
    rewrite Rx, Wx, filter_app, watchdogs_cancel.
    pose proof (wd_cancelled s W) as C. unfold watchdogs in C. rewrite C.
    repeat split. }
  (* and [clearEagerEnd] after it *)
  assert (B : forall y,
            watchdogs y
            = [mkTimer (nextId (world s)) (now (world s) + 7000)
                 (SilenceCallback 7000)] ->
            eagerEndTimeoutRef (refs y) = eagerEndTimeoutRef (refs s) ->
            watchdogs (clearEagerEnd y) = watchdogs y
            /\ silenceTimeoutRef (refs (clearEagerEnd y))
               = silenceTimeoutRef (refs y)).
  { intros y Wy Ey. unfold clearEagerEnd, if_timer. rewrite Ey.
    destruct (eagerEndTimeoutRef (refs s)) as [e|] eqn:E; [|now split].
    split; [|reflexivity].
    change (watchdogs (set_eagerEndTimeoutRef None (clearTimeout e y)))
      with (filter is_watchdog (cancel (Some e) (timers (world y)))).
    rewrite watchdogs_cancel. fold (watchdogs y). rewrite Wy. cbn.
    destruct F as (_ & F2 & _). specialize (F2 e E).
    destruct (Nat.eqb_spec (nextId (world s)) e); [lia|reflexivity]. }
  unfold speech in Sp. unfold when.
  destruct (ti_event ti) as [[| | | |]|]; try discriminate Sp.
  - rewrite Sp.
    destruct (A (setLiveTranscript (transcript ti)
                   (setTurnState
                      (mkTurnState (turn_index ti) (Some Update)
                         (end_of_turn_confidence ti)) s))
                eq_refl eq_refl) as (A1 & A2 & _ & A4).
    split; [exact A1|]. split; [exact A2|]. now rewrite A4.
  - match goal with
    | |- watchdogs (clearEagerEnd (resetSilenceTimer false ?x)) = _ /\ _ =>
        destruct (A x) as (A1 & A2 & A3 & A4);
          [destruct (truthy (transcript ti)); reflexivity
          |destruct (truthy (transcript ti)); reflexivity|];
        destruct (B (resetSilenceTimer false x) A1 A3) as (B1 & B2)
    end.
    rewrite B1, B2. split; [exact A1|]. split; [exact A2|].
    rewrite clearEagerEnd_ui, A4. reflexivity.
  - match goal with
    | |- watchdogs (setIsSpeaking true
                      (clearEagerEnd (resetSilenceTimer false ?x))) = _ /\ _ =>
        destruct (A x) as (A1 & A2 & A3 & A4);
          [destruct (truthy (transcript ti)); reflexivity
          |destruct (truthy (transcript ti)); reflexivity|];
        destruct (B (resetSilenceTimer false x) A1 A3) as (B1 & B2)
    end.
    unfold setIsSpeaking.
    match goal with
    | |- watchdogs (with_ui ?f ?y) = _ /\ _ =>
        change (watchdogs (with_ui f y)) with (watchdogs y);
        change (refs (with_ui f y)) with (refs y);
        change (isExtendedWait (ui (with_ui f y)))
          with (isExtendedWait (ui y))
    end.
    rewrite B1, B2. split; [exact A1|]. split; [exact A2|].
    rewrite clearEagerEnd_ui, A4.
    destruct (truthy (transcript ti)); reflexivity.
Qed.


Lemma speech_rearms_watchdog_witness :
  let s := after [turnInfo EndOfTurn "hold on";
                  GateResolves 2%nat (reply true); Elapse 1000] in
  exists s',
    step s (turnInfo Update "so") = Some s'
    /\ watchdogs s = [mkTimer 3%nat 20000 (SilenceCallback 20000)]
    /\ watchdogs s' = [mkTimer 4%nat 8000 (SilenceCallback 7000)]
    /\ isExtendedWait (ui s') = true.
Proof.
  intros s.
  assert (R : run (initial_session disconnected)
                [WsOpen; turnInfo EndOfTurn "hold on";
                 GateResolves 2%nat (reply true); Elapse 1000] = Some s)
    by (vm_compute; reflexivity).
  eexists. split; [vm_compute; reflexivity|].
  match goal with |- _ /\ watchdogs ?x = _ /\ _ => set (s' := x) end.
  assert (S : step s (turnInfo Update "so") = Some s')
    by (vm_compute; reflexivity).
  destruct (speech_rearms_watchdog disconnected _ s s'
              (mkTurnInfo (Some Update) 0 (lit "so") 0%Q) R eq_refl S)
    as (A & _ & C).
  split; [vm_compute; reflexivity|]. split; [exact A|].
  rewrite C. vm_compute. reflexivity.
Defined.

(** *** A second eager end of turn *)

Lemma eagerEnd_step (s s' : Session) (ti : TurnInfo) :
  ti_event ti = Some EagerEndOfTurn ->
  step s (WsMessage (MTurnInfo ti)) = Some s' ->
  timers (world s')
  = timers (world s)
    ++ [mkTimer (nextId (world s)) (now (world s) + 800)
          (EagerEndCallback (transcript ti))]
  /\ eagerEndTimeoutRef (refs s') = Some (nextId (world s))
  /\ silenceTimeoutRef (refs s') = silenceTimeoutRef (refs s)
  /\ nextId (world s') = S (nextId (world s))
  /\ now (world s') = now (world s).
Proof.
  intros E S. cbn [step] in S.
  destruct (is_open (wsReady (world s))); [|discriminate S].
  injection S as <-. cbn [onmessage]. unfold onTurnInfo. rewrite E.
  unfold setTimeout, fresh, when.
  destruct (truthy (transcript ti)); repeat split.
Qed.

Lemma turnResumed_step (s s' : Session) (ti : TurnInfo) :
  ti_event ti = Some TurnResumed ->
  step s (WsMessage (MTurnInfo ti)) = Some s' ->
  timers (world s')
  = cancel (eagerEndTimeoutRef (refs s))
      (cancel (silenceTimeoutRef (refs s)) (timers (world s))
       ++ [mkTimer (nextId (world s)) (now (world s) + 7000)
             (SilenceCallback 7000)])
  /\ eagerEndTimeoutRef (refs s') = None.
Proof.
  intros E S. cbn [step] in S.
  destruct (is_open (wsReady (world s))); [|discriminate S].
  injection S as <-. cbn [onmessage]. unfold onTurnInfo. rewrite E.
  unfold clearEagerEnd, if_timer. rewrite resetSilenceTimer_eq. unfold when.
  destruct (truthy (transcript ti)); cbn;
    destruct (eagerEndTimeoutRef (refs s)); split; reflexivity.
Qed.

(** X7: the [EagerEndOfTurn] handler overwrites [eagerEndTimeoutRef] without
    clearing the timer it held. After two such frames in a row, a
    [TurnResumed] frame cancels only the second timer: the first is still
    pending for its transcript, and no ref holds it. *)
Theorem second_eager_end_orphans_first
  (s s3 : Session) (t1 t2 : TurnInfo) (tr : TurnInfo) :
  handles_fresh s ->
  ti_event t1 = Some EagerEndOfTurn ->
  ti_event t2 = Some EagerEndOfTurn ->
  ti_event tr = Some TurnResumed ->
  run s [WsMessage (MTurnInfo t1); WsMessage (MTurnInfo t2);
         WsMessage (MTurnInfo tr)] = Some s3 ->
  find_timer (nextId (world s)) s3
  = Some (mkTimer (nextId (world s)) (now (world s) + 800)
            (EagerEndCallback (transcript t1)))
  /\ eagerEndTimeoutRef (refs s3) = None.
Proof.
  intros (F1 & F2 & F3) E1 E2 E3 R. cbn [run] in R.
  destruct (step s _) as [s1|] eqn:S1; [|discriminate R].
  destruct (step s1 _) as [s2|] eqn:S2; [|discriminate R].
  destruct (step s2 _) as [s3'|] eqn:S3; [|discriminate R].
  injection R as ->.
  destruct (eagerEnd_step s s1 t1 E1 S1) as (A1 & A2 & A3 & A4 & A5).
  destruct (eagerEnd_step s1 s2 t2 E2 S2) as (B1 & B2 & B3 & B4 & B5).
  destruct (turnResumed_step s2 s3 tr E3 S3) as (C1 & C2).
  split; [|exact C2]. set (k := nextId (world s)) in *.
  assert (Fk : find (fun y => Nat.eqb (tid y) k) (timers (world s2))
               = Some (mkTimer k (now (world s) + 800)
                         (EagerEndCallback (transcript t1)))).
  { rewrite B1, A1. apply find_app_found.
    apply find_app_fresh; [exact F1|reflexivity]. }
  unfold find_timer. rewrite C1, B2, A4, B3, A3.
  rewrite find_cancel_other by (intros [= E]; lia).
  apply find_app_found. rewrite find_cancel_other; [exact Fk|].
  intros E. specialize (F3 k E). unfold k in F3. lia.
Qed.

Lemma second_eager_end_orphans_first_witness :
  let s3 := after [turnInfo EagerEndOfTurn "one"; turnInfo EagerEndOfTurn "two";
                   turnInfo TurnResumed "two and"] in
  find_timer 2%nat s3 = Some (mkTimer 2%nat 800 (EagerEndCallback (lit "one")))
  /\ eagerEndTimeoutRef (refs s3) = None
  /\ gated (since s3 (after [turnInfo EagerEndOfTurn "one";
                             turnInfo EagerEndOfTurn "two";
                             turnInfo TurnResumed "two and";
                             Elapse 800; TimerFires 2%nat]))
     = [lit "one"].
Proof.
  intros s3.
  assert (F : handles_fresh listening).
  { split; [intros x [<-|[]]; vm_compute; reflexivity|].
    split; intros e E; vm_compute in E; [discriminate E|].
    injection E as <-. vm_compute. reflexivity. }
  assert (R : run listening
                [turnInfo EagerEndOfTurn "one"; turnInfo EagerEndOfTurn "two";
                 turnInfo TurnResumed "two and"] = Some s3)
    by (vm_compute; reflexivity).
  destruct (second_eager_end_orphans_first listening s3
              (mkTurnInfo (Some EagerEndOfTurn) 0 (lit "one") 0%Q)
              (mkTurnInfo (Some EagerEndOfTurn) 0 (lit "two") 0%Q)
              (mkTurnInfo (Some TurnResumed) 0 (lit "two and") 0%Q)
              F eq_refl eq_refl eq_refl R) as (A & B).
  split; [exact A|]. split; [exact B|]. vm_compute. reflexivity.
Defined.


(** *** The stop button *)

Lemma no_request_cleanup (s : Session) : no_request s (cleanup s).
Proof.
  exists (rev (cleanup_effects s)). rewrite cleanup_eq, gated_rev, finalized_rev.
  destruct (cleanup_effects_no_request s) as [-> ->]. repeat split.
Qed.

(** X8: the stop button tears the session down and sends no wait-intent
    request. A blank live transcript ends in [disconnected] with nothing
    handed on; otherwise the live transcript is handed to the Finalizer as it
    is, unless a process-stream call is already in flight, in which case
    nothing is sent and [connectionState] stays [connected]. *)
Theorem stopListening_outcome (s : Session) :
  connectionState (ui s) = connected ->
  exists s',
    step s StopListening = Some s'
    /\ torn_down s'
    /\ gated (since s s') = []
    /\ (blank (liveTranscript (ui s)) = true ->
        connectionState (ui s') = disconnected /\ finalized (since s s') = [])
    /\ (blank (liveTranscript (ui s)) = false ->
        isProcessingRef (refs s) = false ->
        connectionState (ui s') = processing
        /\ finalized (since s s') = [liveTranscript (ui s)])
    /\ (blank (liveTranscript (ui s)) = false ->
        isProcessingRef (refs s) = true ->
        connectionState (ui s') = connected /\ finalized (since s s') = []).
Proof.
  intros C. cbn [step]. rewrite C. cbn [ConnectionState_eqb].
  eexists. split; [reflexivity|].
  destruct (cleanup_effects_no_request s) as [F G].
  unfold stopListening, processTranscript. rewrite cleanup_eq.
  destruct (blank (liveTranscript (ui s))) eqn:B; cbn [negb orb].
  - split; [repeat split|].
    rewrite (since_app s _ (rev (cleanup_effects s))) by reflexivity.
    rewrite rev_involutive, G, F. repeat split; discriminate.
  - cbn [refs isProcessingRef]. destruct (isProcessingRef (refs s)) eqn:I.
    + split; [repeat split|].
      rewrite (since_app s _ (rev (cleanup_effects s))) by reflexivity.
      rewrite rev_involutive, G, F. repeat split; try discriminate. exact C.
    + cbn [fresh]. split; [repeat split|].
      rewrite (since_app s _
                 (FetchProcessStream (nextId (world s)) (liveTranscript (ui s))
                  :: rev (cleanup_effects s))) by reflexivity.
      cbn [rev]. rewrite rev_involutive, gated_app, finalized_app, G, F.
      repeat split; discriminate.
Qed.

Lemma stopListening_outcome_witness :
  let s := after [turnInfo StartOfTurn ""; turnInfo Update "what is a proof"] in
  exists s',
    step s StopListening = Some s'
    /\ connectionState (ui s') = processing
    /\ finalized (since s s') = [lit "what is a proof"].
Proof.
  intros s.
  destruct (stopListening_outcome s eq_refl) as (s' & S & _ & _ & _ & H & _).
  exists s'. split; [exact S|]. apply H; vm_compute; reflexivity.
Defined.

(** *** Fatal errors of the transport *)

(** X9: an [Error] frame of the recognizer and an error event of the socket
    both tear the session down and end in [disconnected], with the frame's
    description (or a default when it is empty) respectively a fixed message
    as the error shown; neither sends a request. *)
Theorem transport_error_tears_down (s : Session) (description : jsstring) :
  wsReady (world s) = OPEN ->
  (exists s',
     step s (WsMessage (MError description)) = Some s'
     /\ connectionState (ui s') = disconnected
     /\ torn_down s'
     /\ error (ui s') = (if truthy description then description
                         else lit "Deepgram error occurred")
     /\ gated (since s s') = [] /\ finalized (since s s') = [])
  /\ (exists s',
        step s WsError = Some s'
        /\ connectionState (ui s') = disconnected
        /\ torn_down s'
        /\ error (ui s') = lit "Connection error. Please try again."
        /\ gated (since s s') = [] /\ finalized (since s s') = []).
Proof.
  intros O.
  assert (K : forall m,
            let s' := setConnectionState disconnected (cleanup (setError m s)) in
            connectionState (ui s') = disconnected /\ torn_down s'
            /\ error (ui s') = m
            /\ gated (since s s') = [] /\ finalized (since s s') = []).
  { intros m. cbv zeta.
    destruct (cleanup_effects_no_request (setError m s)) as [F G].
    rewrite cleanup_eq.
    split; [reflexivity|]. split; [repeat split|]. split; [reflexivity|].
    rewrite (since_app s _ (rev (cleanup_effects (setError m s))))
      by reflexivity.
    rewrite rev_involutive, G, F. split; reflexivity. }
  split; eexists; (split; [cbn [step]; rewrite O; reflexivity|]); apply K.
Qed.

Lemma transport_error_tears_down_witness :
  exists s',
    step listening (WsMessage (MError [])) = Some s'
    /\ connectionState (ui s') = disconnected
    /\ error (ui s') = lit "Deepgram error occurred".
Proof.
  destruct (proj1 (transport_error_tears_down listening [] eq_refl))
    as (s' & S & C & _ & E & _).
  exists s'. split; [exact S|]. split; [exact C|exact E].
Defined.

(** *** Frames of the process-stream response *)

(** X10: handling the frames of a process-stream chunk touches the display
    only: the refs, the timers and the calls in flight stay as they are and
    no request is sent; [connectionState] becomes [responding] exactly when
    a result frame is among them, whatever else the chunk holds (error and
    unknown frames included). *)
Theorem chunk_touches_display_only (frames : list Frame) (s : Session) :
  refs (onChunk frames s) = refs s
  /\ timers (world (onChunk frames s)) = timers (world s)
  /\ gateCalls (world (onChunk frames s)) = gateCalls (world s)
  /\ finalizerCalls (world (onChunk frames s)) = finalizerCalls (world s)
  /\ no_request s (onChunk frames s)
  /\ connectionState (ui (onChunk frames s))
     = if existsb is_result frames then responding
       else connectionState (ui s).
Proof.
  revert s. unfold onChunk.
  induction frames as [|f r IH]; intros s.
  - repeat split. now apply no_request_refl.
  - cbn [fold_left existsb].
    destruct (IH (onFrame f s)) as (A & B & C & D & E & G).
    assert (K : refs (onFrame f s) = refs s
                /\ timers (world (onFrame f s)) = timers (world s)
                /\ gateCalls (world (onFrame f s)) = gateCalls (world s)
                /\ finalizerCalls (world (onFrame f s)) = finalizerCalls (world s)
                /\ no_request s (onFrame f s)
                /\ connectionState (ui (onFrame f s))
                   = if is_result f then responding else connectionState (ui s)).
    { destruct f as [m|q [u|]| |m|]; cbn [onFrame is_result];
        try (repeat split; now apply no_request_refl).
      unfold when. destruct (truthy u).
      - repeat split. exists [AudioPlay u]. repeat split.
      - repeat split. now apply no_request_refl. }
    destruct K as (K1 & K2 & K3 & K4 & K5 & K6).
    rewrite A, B, C, D, G, K1, K2, K3, K4, K6.
    repeat split.
    + exact (no_request_trans _ _ _ K5 E).
    + destruct (is_result f), (existsb is_result r); reflexivity.
Qed.


(** *** startListening *)

(** X11: a launch that succeeds, followed by the opening of the socket, gives
    a listening session: [connected], the results of the previous turn (error,
    live transcript, question number, audio URL, extended wait) cleared, the
    microphone stream, the open socket and the audio processor held, and one
    new watchdog due 7 s after the opening, which replaces the timer
    [silenceTimeoutRef] held, if any; no request is sent on the way. On the
    mounted component the launch gives [initial_session]. *)
Theorem launch_then_open_listens (s : Session) :
  exists s',
    step (Launch.startListening Launch.SocketConstructed s) WsOpen = Some s'
    /\ ui s' = mkUi connected [] (audioLevel (ui s)) (isSpeaking (ui s)) []
                 (mkTurnState 0 None 0%Q) None None (processingMessage (ui s))
                 false
    /\ refs s' = mkRefs true true true true true (isProcessingRef (refs s))
                   (eagerEndTimeoutRef (refs s)) (Some (nextId (world s)))
                   (isCheckingWaitIntentRef (refs s))
    /\ wsReady (world s') = OPEN
    /\ closure (world s') = connectionState (ui s)
    /\ timers (world s')
       = cancel (silenceTimeoutRef (refs s)) (timers (world s))
         ++ [mkTimer (nextId (world s)) (now (world s) + 7000)
               (SilenceCallback 7000)]
    /\ no_request s s'
    /\ Launch.startListening Launch.SocketConstructed Launch.mounted
       = initial_session disconnected.
Proof.
  destruct s as [u [ws ms ac pr af ip ee si ic] w].
  eexists. split; [reflexivity|].
  unfold onopen. rewrite resetSilenceTimer_eq.
  split; [reflexivity|]. split; [reflexivity|]. split; [reflexivity|].
  split; [reflexivity|]. split; [reflexivity|]. split; [|reflexivity].
  unfold no_request. destruct si as [t|].
  - exists [SetTimeout (nextId w) 7000; ClearTimeout t].
    split; [reflexivity|]. split; reflexivity.
  - exists [SetTimeout (nextId w) 7000].
    split; [reflexivity|]. split; reflexivity.
Qed.

(** X12: a launch that fails at any step (token request rejected or not OK,
    token body unusable, microphone refused, socket not constructible) ends
    in [disconnected] with the error shown, torn down, with no socket held
    and no request sent; a microphone stream already acquired is stopped. *)
Theorem launch_fails_safe (o : Launch.Outcome) (s : Session) :
  Launch.failed o = true ->
  let s' := Launch.startListening o s in
  connectionState (ui s') = disconnected
  /\ error (ui s') = Launch.shown o
  /\ torn_down s'
  /\ no_request s s'
  /\ (forall err, o = Launch.SocketThrows err ->
        In MediaTracksStop (since s s')).
Proof.
  intros F. cbv zeta.
  assert (K : forall err x,
            trace (world x) = trace (world s) ->
            let s' := Launch.caught err x in
            connectionState (ui s') = disconnected
            /\ error (ui s') = match err with
                               | Some m => m
                               | None => lit "Failed to start listening"
                               end
            /\ torn_down s'
            /\ trace (world s') = rev (cleanup_effects x) ++ trace (world s)).
  { intros err x T. cbv zeta. unfold Launch.caught. rewrite cleanup_eq.
    split; [reflexivity|]. split; [reflexivity|]. split; [repeat split|].
    cbn [world trace setConnectionState with_ui]. rewrite <- T.
    reflexivity. }
  assert (Q : forall x s', trace (world s')
                           = rev (cleanup_effects x) ++ trace (world s) ->
              no_request s s').
  { intros x s' T. exists (rev (cleanup_effects x)).
    rewrite gated_rev, finalized_rev.
    destruct (cleanup_effects_no_request x) as [-> ->]. repeat split. exact T. }
  assert (Done : forall err x,
            trace (world x) = trace (world s) ->
            connectionState (ui (Launch.caught err x)) = disconnected
            /\ error (ui (Launch.caught err x))
               = match err with
                 | Some m => m
                 | None => lit "Failed to start listening"
                 end
            /\ torn_down (Launch.caught err x)
            /\ no_request s (Launch.caught err x)).
  { intros err x T. destruct (K err x T) as (A & B & C & D).
    split; [exact A|]. split; [exact B|]. split; [exact C|exact (Q _ _ D)]. }
  destruct o as [err| |err|err|err|]; try discriminate F;
    unfold Launch.startListening.
  - destruct (Done err (Launch.begin s) eq_refl) as (A & B & C & D).
    split; [exact A|]. split; [exact B|]. split; [exact C|].
    split; [exact D|intros e E; discriminate E].
  - destruct (Done (Some (lit "Failed to get Deepgram token"))
                (Launch.begin s) eq_refl) as (A & B & C & D).
    split; [exact A|]. split; [exact B|]. split; [exact C|].
    split; [exact D|intros e E; discriminate E].
  - destruct (Done err (Launch.begin s) eq_refl) as (A & B & C & D).
    split; [exact A|]. split; [exact B|]. split; [exact C|].
    split; [exact D|intros e E; discriminate E].
  - destruct (Done err (Launch.begin s) eq_refl) as (A & B & C & D).
    split; [exact A|]. split; [exact B|]. split; [exact C|].
    split; [exact D|intros e E; discriminate E].
  - destruct (Done err (Launch.gotStream (Launch.begin s)) eq_refl)
      as (A & B & C & D).
    split; [exact A|]. split; [exact B|]. split; [exact C|].
    split; [exact D|].
    intros e _.
    destruct (K err (Launch.gotStream (Launch.begin s)) eq_refl)
      as (_ & _ & _ & T).
    rewrite (since_app s _ _ T), rev_involutive.
    unfold cleanup_effects.
    change (mediaStreamRef (refs (Launch.gotStream (Launch.begin s))))
      with true.
    do 5 (apply in_or_app; right). apply in_or_app. left. now left.
Qed.

Lemma launch_fails_safe_witness :
  let s' := Launch.startListening
              (Launch.MicrophoneRejected (Some (lit "Permission denied")))
              Launch.mounted in
  connectionState (ui s') = disconnected
  /\ error (ui s') = lit "Permission denied".
Proof.
  intros s'.
  destruct (launch_fails_safe
              (Launch.MicrophoneRejected (Some (lit "Permission denied")))
              Launch.mounted eq_refl) as (C & E & _).
  split; [exact C|exact E].
Defined.

(** *** A new session on the refs and timers of the last one *)

(** X23: the refs and the pending timers outlive a session. When
    [startListening] runs again and the new socket opens while a timer for an
    eager end of turn of the earlier session is still pending, that timer,
    when it fires, finds [websocketRef] set and sends a wait-intent request
    for the transcript of the earlier session. *)
Theorem restart_revives_pending_timer
  (s : Session) (k : id) (x : Timer) (t : jsstring) :
  find_timer k s = Some x ->
  callback x = EagerEndCallback t ->
  blank t = false ->
  silenceTimeoutRef (refs s) <> Some k ->
  isCheckingWaitIntentRef (refs s) = false ->
  due x <= now (world s) ->
  exists s1 s2,
    step (Launch.startListening Launch.SocketConstructed s) WsOpen = Some s1
    /\ websocketRef (refs s1) = true
    /\ step s1 (TimerFires k) = Some s2
    /\ gated (since s s2) = [t]
    /\ in_flight (nextId (world s1)) s2.
Proof.
  intros Hf Hc Hb Hs Hi Hd.
  pose proof (blank_false_truthy _ Hb) as Ht.
  apply Z.leb_le in Hd.
  destruct s as [u [ws ms ac pr af ip ee si ic] [nw ni tm gc fc wr acl cl tr]].
  cbn in Hs, Hi, Hd. subst ic.
  unfold find_timer in Hf. cbn [world timers] in Hf.
  set (u1 := mkUi connected [] (audioLevel u) (isSpeaking u) []
               (mkTurnState 0 None 0%Q) None None (processingMessage u) false).
  set (tm1 := cancel si tm
              ++ [mkTimer ni (nw + 7000) (SilenceCallback 7000)]).
  set (tr1 := SetTimeout ni 7000
              :: match si with
                 | Some w => [ClearTimeout w]
                 | None => []
                 end ++ tr).
  set (s1 := mkSession u1 (mkRefs true true true true true ip ee (Some ni) false)
               (mkWorld nw (S ni) tm1 gc fc OPEN false (connectionState u)
                  tr1)).
  set (s2 := mkSession u1 (mkRefs true true true true true ip ee (Some ni) true)
               (mkWorld nw (S (S ni))
                  (filter (fun y => negb (Nat.eqb (tid y) k)) tm1)
                  (gc ++ [mkGateCall (S ni) t AtEagerEnd]) fc OPEN false
                  (connectionState u)
                  (FetchCheckWaitIntent (S ni) t :: tr1))).
  assert (F : find (fun y => Nat.eqb (tid y) k) tm1 = Some x).
  { apply find_app_found. rewrite find_cancel_other by exact Hs. exact Hf. }
  exists s1, s2. split; [|split; [reflexivity|split; [|split]]].
  - subst s1 tm1 tr1. destruct si; reflexivity.
  - unfold step, find_timer.
    change (timers (world s1)) with tm1. rewrite F.
    change (now (world s1)) with nw. rewrite Hd, Hc.
    unfold runCallback, eagerEndCallback. rewrite Ht.
    change (websocketRef (refs (drop_timer k s1))) with true.
    cbn [andb]. unfold askWaitIntent, checkWaitIntent. rewrite Hb.
    change (isCheckingWaitIntentRef (refs (drop_timer k s1))) with false.
    cbn [orb]. reflexivity.
  - rewrite (since_app _ s2 (FetchCheckWaitIntent (S ni) t
                             :: SetTimeout ni 7000
                             :: match si with
                                | Some w => [ClearTimeout w]
                                | None => []
                                end)).
    + rewrite gated_rev. destruct si; reflexivity.
    + reflexivity.
  - unfold in_flight. change (gateCalls (world s2))
      with (gc ++ [mkGateCall (S ni) t AtEagerEnd]).
    rewrite map_app. apply in_or_app. right. left. reflexivity.
Qed.

Lemma restart_revives_pending_timer_witness :
  let s := after [turnInfo EagerEndOfTurn "one"; turnInfo EagerEndOfTurn "two";
                  WsMessage (MError []); Elapse 800] in
  websocketRef (refs s) = false
  /\ exists s1 s2,
       step (Launch.startListening Launch.SocketConstructed s) WsOpen = Some s1
       /\ step s1 (TimerFires 2%nat) = Some s2
       /\ gated (since s s2) = [lit "one"].
Proof.
  intros s. split; [reflexivity|].
  destruct (restart_revives_pending_timer s 2%nat
              (mkTimer 2%nat 800 (EagerEndCallback (lit "one"))) (lit "one"))
    as (s1 & s2 & S1 & _ & S2 & G & _).
  - vm_compute. reflexivity.
  - reflexivity.
  - reflexivity.
  - vm_compute. intros E; discriminate E.
  - vm_compute. reflexivity.
  - vm_compute. intros E; discriminate E.
  - exists s1, s2. split; [exact S1|]. split; [exact S2|exact G].
Defined.

(** *** C6: the verdict for a definitive end of turn *)

Section Verdict.

Lemma idle2_frame (s s' : Session) :
  finalized (trace (world s')) = finalized (trace (world s)) ->
  isProcessingRef (refs s') = isProcessingRef (refs s) ->
  idle_until_handed_off s -> idle_until_handed_off s'.
Proof. unfold idle_until_handed_off. intros -> ->. exact (fun H => H). Qed.

Lemma cleanup_finalized (s : Session) :
  finalized (trace (world (cleanup s))) = finalized (trace (world s)).
Proof.
  rewrite cleanup_eq. cbn [world trace].
  rewrite finalized_app, finalized_rev.
  rewrite (proj1 (cleanup_effects_no_request s)). reflexivity.
Qed.

Lemma idle2_step (s s' : Session) (tr : Trigger) :
  idle_until_handed_off s -> step s tr = Some s' -> idle_until_handed_off s'.
Proof.
  apply (loop_step idle_until_handed_off).
  - intros f x. exact (fun H => H).
  - intros x. apply idle2_frame; [apply cleanup_finalized|].
    rewrite cleanup_eq. reflexivity.
  - intros b x. apply idle2_frame; rewrite resetSilenceTimer_eq;
      [|reflexivity].
    cbn. destruct (silenceTimeoutRef (refs x)); reflexivity.
  - intros x. apply idle2_frame; [exact (proj1 (clearEagerEnd_trace x))|].
    unfold clearEagerEnd, if_timer.
    destruct (eagerEndTimeoutRef (refs x)); reflexivity.
  - intros t x. exact (fun H => H).
  - intros t x. exact (fun H => H).
  - intros o t x H _. revert H. unfold checkWaitIntent.
    destruct (blank t || isCheckingWaitIntentRef (refs x));
      exact (fun H => H).
  - intros c g x H _. exact H.
  - intros c t x H _ _. unfold processTranscript.
    destruct (blank t || isProcessingRef (refs x)); [exact H|].
    intros E. discriminate E.
  - intros u x. exact (fun H => H).
  - intros c f x _ _ _. reflexivity.
  - intros x H _. exact H.
  - intros x. exact (fun H => H).
  - intros n x H _. exact H.
Qed.

Variable base : list Effect.

Lemma extends_more (es : list Effect) (s s' : Session) :
  trace (world s') = es ++ trace (world s) ->
  extends base s -> extends base s'.
Proof.
  intros T [e0 E]. exists (es ++ e0). rewrite T, E. apply app_assoc.
Qed.

Lemma extends_step (s s' : Session) (tr : Trigger) :
  extends base s -> step s tr = Some s' -> extends base s'.
Proof.
  apply (loop_step (extends base)).
  - intros f x. exact (fun H => H).
  - intros x. apply (extends_more (rev (cleanup_effects x))).
    rewrite cleanup_eq. reflexivity.
  - intros b x. rewrite resetSilenceTimer_eq. cbn zeta.
    apply (extends_more
             (SetTimeout (nextId (world x)) (if b then 20000 else 7000)
              :: match silenceTimeoutRef (refs x) with
                 | Some t => [ClearTimeout t]
                 | None => []
                 end)).
    cbn. destruct (silenceTimeoutRef (refs x)); reflexivity.
  - intros x. unfold clearEagerEnd, if_timer.
    destruct (eagerEndTimeoutRef (refs x)) as [e|]; [|exact (fun H => H)].
    apply (extends_more [ClearTimeout e]). reflexivity.
  - intros t x.
    apply (extends_more [SetTimeout (nextId (world x)) EAGER_END_DELAY_MS]).
    reflexivity.
  - intros t x. exact (fun H => H).
  - intros o t x H _. revert H. unfold checkWaitIntent.
    destruct (blank t || isCheckingWaitIntentRef (refs x));
      [exact (fun H => H)|].
    apply (extends_more [FetchCheckWaitIntent (nextId (world x)) t]).
    reflexivity.
  - intros c g x H _. exact H.
  - intros c t x H _ _. revert H. unfold processTranscript.
    destruct (blank t || isProcessingRef (refs x)); [exact (fun H => H)|].
    apply (extends_more [FetchProcessStream (nextId (world x)) t]).
    reflexivity.
  - intros u x. apply (extends_more [AudioPlay u]). reflexivity.
  - intros c f x H _. exact H.
  - intros x H _. exact H.
  - intros x. exact (fun H => H).
  - intros n x H _. exact H.
Qed.

Variable g : GateCall.

Lemma issued_frame (s s' : Session) :
  gateCalls (world s') = gateCalls (world s) ->
  (nextId (world s) <= nextId (world s'))%nat ->
  call_issued g s -> call_issued g s'.
Proof.
  unfold call_issued. intros -> L [N H]. split; [lia|exact H].
Qed.

Lemma issued_step (s s' : Session) (tr : Trigger) :
  call_issued g s -> step s tr = Some s' -> call_issued g s'.
Proof.
  apply (loop_step (call_issued g)).
  - intros f x. exact (fun H => H).
  - intros x. apply issued_frame; rewrite cleanup_eq; cbn;
      [reflexivity|apply Nat.le_refl].
  - intros b x. apply issued_frame; rewrite resetSilenceTimer_eq; cbn;
      [reflexivity|lia].
  - intros x. unfold clearEagerEnd, if_timer.
    destruct (eagerEndTimeoutRef (refs x)); exact (fun H => H).
  - intros t x. apply issued_frame; cbn; [reflexivity|lia].
  - intros t x. exact (fun H => H).
  - intros o t x [N H] _. unfold checkWaitIntent.
    destruct (blank t || isCheckingWaitIntentRef (refs x));
      [split; assumption|].
    split; cbn; [lia|].
    intros y I E. apply in_app_or in I as [I|[<-|[]]]; [exact (H y I E)|].
    cbn in E. lia.
  - intros c c0 x [N H] _. split; [exact N|].
    intros y I E. cbn in I. apply filter_In in I as [I _]. exact (H y I E).
  - intros c t x [N H] _ _. unfold processTranscript.
    destruct (blank t || isProcessingRef (refs x)); [split; assumption|].
    split; cbn; [lia|exact H].
  - intros u x. exact (fun H => H).
  - intros c f x H _. exact H.
  - intros x H _. exact H.
  - intros x. exact (fun H => H).
  - intros n x H _. exact H.
Qed.

End Verdict.

(** A request in flight under the handle of an issued request is found. *)
Lemma issued_found (g : GateCall) (s : Session) :
  call_issued g s -> in_flight (gid g) s ->
  find_gateCall (gid g) s = Some g.
Proof.
  unfold call_issued, in_flight, find_gateCall. intros [_ H] I.
  induction (gateCalls (world s)) as [|x l IH]; [destruct I|].
  cbn [find]. destruct (Nat.eqb (gid x) (gid g)) eqn:E.
  - apply Nat.eqb_eq in E. rewrite (H x (or_introl eq_refl) E). reflexivity.
  - apply IH.
    + intros y Iy. apply H. right. exact Iy.
    + destruct I as [I|I]; [|exact I].
      apply Nat.eqb_neq in E. contradiction.
Qed.

(** The [EndOfTurn] frame whose wait-intent request goes out. *)
Lemma endOfTurn_asks (s s1 : Session) (ti : TurnInfo) :
  ti_event ti = Some EndOfTurn ->
  blank (transcript ti) = false ->
  isCheckingWaitIntentRef (refs s) = false ->
  gateCalls (world s) = [] ->
  step s (WsMessage (MTurnInfo ti)) = Some s1 ->
  gateCalls (world s1)
  = [mkGateCall (nextId (world s)) (transcript ti) AtEndOfTurn]
  /\ nextId (world s1) = S (nextId (world s))
  /\ exists es,
       trace (world s1)
       = FetchCheckWaitIntent (nextId (world s)) (transcript ti)
         :: es ++ trace (world s)
       /\ gated es = [] /\ finalized es = [].
Proof.
  intros Hev Hb Hc Hg S.
  pose proof (blank_false_truthy _ Hb) as Ht.
  destruct ti as [ev ix t cf]. cbn in Hev, Hb, Ht |- *. subst ev.
  unfold step in S. destruct (is_open (wsReady (world s))); [|discriminate S].
  injection S as <-.
  cbn [onmessage]. unfold onTurnInfo.
  cbn [ti_event transcript turn_index end_of_turn_confidence].
  rewrite Ht. cbn [when].
  destruct s as [u [ws ms ac pr af ip ee si ic] w].
  cbn in Hc, Hg. subst ic.
  unfold askWaitIntent, checkWaitIntent, clearEagerEnd, if_timer.
  destruct ee as [e|]; cbn; rewrite Hb; cbn; rewrite Hg.
  - split; [reflexivity|]. split; [reflexivity|].
    exists [ClearTimeout e]. repeat split.
  - split; [reflexivity|]. split; [reflexivity|].
    exists []. repeat split.
Qed.

(** What every state the session can reach satisfies. *)
Lemma reachable_invariants
  (captured : ConnectionState) (l : list Trigger) (s : Session) :
  run (initial_session captured) l = Some s ->
  one_gate_call s /\ idle_until_handed_off s
  /\ dropped_socket_shut s /\ idle_once_handed_off s.
Proof.
  intros R. split; [|split].
  - exact (gate_run_preserved l _ _
             (eq_refl : one_gate_call (initial_session captured)) R).
  - apply (run_invariant _ idle2_step l (initial_session captured) s);
      [|exact R].
    intros _. reflexivity.
  - apply (run_invariant _ handoff_step l (initial_session captured) s);
      [|exact R].
    split; [intros E; discriminate E|now left].
Qed.

(** A session that still holds its socket has handed nothing on and has no
    process-stream call in flight. *)
Lemma live_is_idle (s : Session) :
  idle_until_handed_off s -> dropped_socket_shut s ->
  idle_once_handed_off s ->
  websocketRef (refs s) = true \/ is_open (wsReady (world s)) = true ->
  finalized (trace (world s)) = [] /\ isProcessingRef (refs s) = false.
Proof.
  intros J D [F|Rl] L.
  - split; [exact F|exact (J F)].
  - exfalso. destruct Rl as (W & _). destruct L as [L|L].
    + rewrite W in L. discriminate L.
    + destruct (D W) as [C|C]; rewrite C in L; discriminate L.
Qed.

(** C6, as the code has it: for an [EndOfTurn] frame, on any session that
    can be reached, whose transcript holds a character that is not
    whitespace, when the wait-intent verdict is "not wait" and the session
    has not been torn down by then, the session is torn down,
    [connectionState] becomes [processing], and the Finalizer is handed
    exactly that transcript, once, counted from the frame. The verdict
    comes from the guard at once, while another request is in flight, or
    from the request the frame sends, after whatever else the session
    handles in the meantime. *)
Theorem endOfTurn_not_wait_finalizes_live
  (captured : ConnectionState) (before : list Trigger) (s s1 : Session)
  (ti : TurnInfo) (o : FetchOutcome) :
  run (initial_session captured) before = Some s ->
  ti_event ti = Some EndOfTurn ->
  blank (transcript ti) = false ->
  step s (WsMessage (MTurnInfo ti)) = Some s1 ->
  waitIntent_of o = false ->
  if isCheckingWaitIntentRef (refs s)
  then connectionState (ui s1) = processing
       /\ torn_down s1
       /\ finalized (since s s1) = [transcript ti]
  else gated (since s s1) = [transcript ti]
       /\ finalized (since s s1) = []
       /\ forall (mid : list Trigger) (s2 : Session),
            run s1 mid = Some s2 ->
            websocketRef (refs s2) = true ->
            in_flight (nextId (world s)) s2 ->
            exists s3,
              step s2 (GateResolves (nextId (world s)) o) = Some s3
              /\ connectionState (ui s3) = processing
              /\ torn_down s3
              /\ finalized (since s s3) = [transcript ti].
Proof.
  intros R Hev Hb S Ho.
  destruct (reachable_invariants captured before s R) as (G & J & D & I).
  assert (Op : is_open (wsReady (world s)) = true).
  { unfold step in S. destruct (is_open (wsReady (world s)));
      [reflexivity|discriminate S]. }
  destruct (live_is_idle s J D I (or_intror Op)) as [F0 P0].
  destruct (isCheckingWaitIntentRef (refs s)) eqn:Hc.
  - (* the guard *)
    assert (Ws : wsReady (world s) = OPEN)
      by (destruct (wsReady (world s)); (discriminate Op || reflexivity)).
    destruct (endOfTurn_verdict_next s ti o Ws Hev Hb G P0 Ho)
      as (x1 & x2 & S' & E & C & TD & Fn).
    rewrite Hc in E. subst x2. rewrite S in S'. injection S' as <-.
    split; [exact C|]. split; [exact TD|exact Fn].
  - (* the request *)
    unfold one_gate_call in G. rewrite Hc in G.
    apply length_zero_iff_nil in G.
    destruct (endOfTurn_asks s s1 ti Hev Hb Hc G S)
      as (Gc & Nx & es & T1 & Ge & Fe).
    set (c := nextId (world s)) in *.
    set (t := transcript ti) in *.
    set (g := mkGateCall c t AtEndOfTurn) in *.
    assert (Sn : since s s1 = rev (FetchCheckWaitIntent c t :: es))
      by (apply since_app; exact T1).
    split; [rewrite Sn, gated_rev; cbn; rewrite Ge; reflexivity|].
    split; [rewrite Sn, finalized_rev; cbn; rewrite Fe; reflexivity|].
    intros mid s2 R2 W2 Fl.
    assert (R02 : run (initial_session captured)
                    (before ++ WsMessage (MTurnInfo ti) :: mid) = Some s2).
    { clear - R S R2. revert R. generalize (initial_session captured).
      induction before as [|tr l IH]; intros x Rx; cbn [run app] in *.
      - injection Rx as ->. rewrite S. exact R2.
      - destruct (step x tr) as [y|]; [|discriminate Rx]. exact (IH y Rx). }
    destruct (reachable_invariants captured _ s2 R02) as (_ & J2 & D2 & I2).
    destruct (live_is_idle s2 J2 D2 I2 (or_introl W2)) as [F2 P2].
    assert (X2 : extends (trace (world s)) s2).
    { apply (run_invariant _ (extends_step (trace (world s))) mid s1 s2);
        [|exact R2].
      exists (FetchCheckWaitIntent c t :: es). exact T1. }
    assert (C2 : call_issued g s2).
    { apply (run_invariant _ (issued_step g) mid s1 s2); [|exact R2].
      split; [cbn; rewrite Nx; apply Nat.lt_succ_diag_r|].
      rewrite Gc. intros x [<-|[]] _. reflexivity. }
    pose proof (issued_found g s2 C2 Fl) as Hf. cbn [gid g] in Hf.
    set (s2' := set_isCheckingWaitIntentRef false (drop_gateCall c s2)).
    assert (P2' : isProcessingRef (refs s2') = false) by exact P2.
    destruct (not_wait_finalizes AtEndOfTurn t s2' Hb P2')
      as (C & TD & _ & _ & T).
    exists (onWaitIntent AtEndOfTurn t false s2').
    split; [unfold step; rewrite Hf, Ho; reflexivity|].
    split; [exact C|]. split; [exact TD|].
    destruct X2 as [e2 E2].
    rewrite (since_app s _ (FetchProcessStream (nextId (world s2')) t
                            :: rev (cleanup_effects s2') ++ e2)).
    + rewrite finalized_rev. cbn [finalized].
      rewrite finalized_app, finalized_rev.
      rewrite (proj1 (cleanup_effects_no_request s2')). cbn [rev app].
      assert (Fe2 : finalized e2 = []).
      { rewrite E2, finalized_app in F2.
        apply app_eq_nil in F2. exact (proj1 F2). }
      rewrite Fe2. reflexivity.
    + rewrite T. change (trace (world s2')) with (trace (world s2)).
      rewrite E2. cbn [app]. now rewrite <- app_assoc.
Qed.

Lemma endOfTurn_not_wait_finalizes_live_witness :
  exists s3,
    run listening
      [turnInfo EndOfTurn "how do I check my transfer status"; Elapse 300;
       GateResolves 2%nat (reply false)] = Some s3
    /\ connectionState (ui s3) = processing
    /\ torn_down s3
    /\ finalized (since listening s3)
       = [lit "how do I check my transfer status"].
Proof.
  pose (ti := mkTurnInfo (Some EndOfTurn) 0
                (lit "how do I check my transfer status") 0%Q).
  pose (s1 := after [WsMessage (MTurnInfo ti)]).
  pose (s2 := after [WsMessage (MTurnInfo ti); Elapse 300]).
  assert (R : run (initial_session disconnected) [WsOpen] = Some listening)
    by (vm_compute; reflexivity).
  assert (S : step listening (WsMessage (MTurnInfo ti)) = Some s1)
    by (vm_compute; reflexivity).
  assert (R2 : run s1 [Elapse 300] = Some s2) by (vm_compute; reflexivity).
  pose proof (endOfTurn_not_wait_finalizes_live disconnected [WsOpen]
                listening s1 ti (reply false) R eq_refl eq_refl S eq_refl)
    as H.
  change (isCheckingWaitIntentRef (refs listening)) with false in H.
  cbv iota in H. destruct H as (_ & _ & H).
  destruct (H [Elapse 300] s2 R2 eq_refl (or_introl eq_refl))
    as (s3 & S3 & C & TD & F).
  exists s3. split; [|split; [exact C|split; [exact TD|exact F]]].
  rewrite <- S3. vm_compute. reflexivity.
Defined.

(** C6, as stated, fails in two ways. For a transcript that is not empty
    but blank, the guard of [checkWaitIntent] answers "not wait" at once, the
    session is torn down and set to [processing], and the guard of
    [processTranscript] returns before the request: nothing is handed to the
    Finalizer and nothing is left pending that could. And when the session
    is torn down between the frame and the verdict, here by the stop button,
    which hands the live transcript to the Finalizer, the verdict "not wait"
    that arrives after that stream has ended hands the transcript over a
    second time. *)
Lemma endOfTurn_not_wait_not_once :
  (exists s',
     step listening (turnInfo EndOfTurn " ") = Some s'
     /\ truthy (lit " ") = true
     /\ connectionState (ui s') = processing
     /\ torn_down s'
     /\ finalized (since listening s') = []
     /\ timers (world s') = []
     /\ gateCalls (world s') = []
     /\ finalizerCalls (world s') = [])
  /\ (exists s',
        run listening
          [turnInfo EndOfTurn "how do I check"; StopListening;
           FinalizerEnds 3%nat StreamDone;
           GateResolves 2%nat (reply false)] = Some s'
        /\ finalized (since listening s')
           = [lit "how do I check"; lit "how do I check"]).
Proof.
  split.
  - eexists. repeat split.
  - exists (after [turnInfo EndOfTurn "how do I check"; StopListening;
                   FinalizerEnds 3%nat StreamDone;
                   GateResolves 2%nat (reply false)]).
    vm_compute. repeat split.
Qed.

(** *** The process-stream route *)

Lemma falsy_minus_one : falsy (Val StreamRoute.minus_one) = false.
Proof. reflexivity. Qed.

Lemma read_questionNumber_truthy
  (JSON_parse : jsstring -> option json) (text : jsstring) :
  falsy (Val (StreamRoute.read_questionNumber JSON_parse text)) = false.
Proof.
  unfold StreamRoute.read_questionNumber.
  destruct (Route.brace_match text) as [m|]; [|reflexivity].
  destruct (JSON_parse m) as [parsed|]; [|reflexivity].
  destruct (get_prop parsed (lit "questionNumber")) as [[|v]|];
    try reflexivity.
  destruct (falsy (Val v)) eqn:F; [reflexivity|exact F].
Qed.

Lemma in_range_integer
  (StringToNumber : jsstring -> StreamRoute.number)
  (ToString : json -> jsstring) (n : Z) :
  StreamRoute.in_range StringToNumber ToString (JNum (inject_Z n))
  = (1 <=? n) && (n <=? 6).
Proof.
  unfold StreamRoute.in_range, StreamRoute.to_number, StreamRoute.leq.
  apply eq_true_iff_eq.
  rewrite !andb_true_iff, !Qle_bool_iff, !Z.leb_le.
  change 1%Q with (inject_Z 1). change 6%Q with (inject_Z 6).
  rewrite <- !Zle_Qle. reflexivity.
Qed.

Lemma in_range_infinity
  (StringToNumber : jsstring -> StreamRoute.number)
  (ToString : json -> jsstring) (negative : bool) :
  StreamRoute.in_range StringToNumber ToString (JInfinity negative) = false.
Proof. destruct negative; reflexivity. Qed.

(** On a truthy value, what is written is falsy for an infinity only. *)
Lemma wire_falsy (q : json) :
  falsy (Val q) = false ->
  (falsy (Val (wire q)) = true <-> exists negative, q = JInfinity negative).
Proof.
  intros F. split.
  - destruct q as [|b|x|negative|s|l|fields]; cbn [wire]; intros W;
      try (rewrite F in W; discriminate W); try discriminate W.
    exists negative. reflexivity.
  - intros [negative ->]. reflexivity.
Qed.

Lemma wire_result_frame (q : json) (u : option jsstring) (t : jsstring) :
  wire (StreamRoute.result_frame q u t) = StreamRoute.result_frame (wire q) u t.
Proof. destruct u; reflexivity. Qed.

(** X13: the process-stream route answers a request whose transcript is
    missing, empty or only whitespace with status 400 and the error
    "No transcript provided", and sends nothing to the model, whatever the
    API key and the model are. *)
Theorem process_stream_rejects_blank
  (JSON_parse : jsstring -> option json)
  (StringToNumber : jsstring -> StreamRoute.number) (ToString : json -> jsstring)
  (llm : jsstring -> StreamRoute.Generated)
  (b : json) (apiKey : option jsstring) (v : jsvalue) :
  get_prop b (lit "transcript") = Some v ->
  NoTranscript v ->
  StreamRoute.POST JSON_parse StringToNumber ToString llm (Some b) apiKey
  = (StreamRoute.Plain 400
       (JObj [(lit "error", JStr (lit "No transcript provided"))]), []).
Proof.
  intros G N. unfold StreamRoute.POST. rewrite G.
  destruct N as [|t W]; [reflexivity|].
  destruct (falsy (Val (JStr t))); [reflexivity|].
  rewrite (blank_white t W). reflexivity.
Qed.

Lemma process_stream_rejects_blank_witness :
  StreamRoute.POST (fun _ => None) (fun _ => StreamRoute.NaN) (fun _ => [])
    (fun _ => StreamRoute.Replies (lit "{}"))
    (Some (JObj [(lit "transcript", JStr (lit "  "))])) (Some (lit "key"))
  = (StreamRoute.Plain 400
       (JObj [(lit "error", JStr (lit "No transcript provided"))]), []).
Proof.
  refine (@process_stream_rejects_blank _ _ _ _ _ _ (Val (JStr (lit "  "))) _ _).
  - reflexivity.
  - apply transcript_blank. reflexivity.
Defined.

(** X14: every event stream of the route starts with the processing event and
    then holds either one error event and nothing else, or one result event
    that echoes the transcript, followed by the done event. The question
    number the route reads is never a falsy value (never 0, null, false or
    the empty string); the result event carries it as [JSON.stringify] writes
    it, so the number in the event is falsy only as [null], which stands for
    a numeral beyond the range of a double, and the audio URL is then
    [null]. *)
Theorem process_stream_shape
  (JSON_parse : jsstring -> option json)
  (StringToNumber : jsstring -> StreamRoute.number)
  (ToString : json -> jsstring)
  (llm : jsstring -> StreamRoute.Generated) (transcript : jsstring) :
  let frames :=
    StreamRoute.stream JSON_parse StringToNumber ToString llm transcript in
  (exists message,
     frames = [StreamRoute.processing_frame; StreamRoute.error_frame message])
  \/ (exists q,
        falsy (Val q) = false
        /\ frames = [StreamRoute.processing_frame;
                     StreamRoute.result_frame (wire q)
                       (StreamRoute.audioUrl_of StringToNumber ToString q)
                       transcript;
                     StreamRoute.done_frame]
        /\ (falsy (Val (wire q)) = true
            <-> exists negative, q = JInfinity negative)
        /\ (falsy (Val (wire q)) = true ->
            wire q = JNull
            /\ StreamRoute.audioUrl_of StringToNumber ToString q = None)).
Proof.
  unfold StreamRoute.stream.
  destruct (llm (StreamRoute.prompt transcript)) as [err|text]; cbv zeta.
  - left. eexists. reflexivity.
  - right. exists (StreamRoute.read_questionNumber JSON_parse text).
    pose proof (read_questionNumber_truthy JSON_parse text) as F.
    split; [exact F|]. split.
    { cbn [map]. rewrite wire_result_frame. reflexivity. }
    split; [exact (wire_falsy _ F)|].
    intros W. apply (wire_falsy _ F) in W. destruct W as [negative ->].
    split; [reflexivity|].
    unfold StreamRoute.audioUrl_of. rewrite in_range_infinity. reflexivity.
Qed.

(** X15: when the model's reply holds the object [{questionNumber: n}] for an
    integer [n] from 1 to 6, a request with a transcript that is not blank
    and a configured API key is answered by the stream processing, result,
    done, where the result carries [n], the transcript and the audio URL
    [/<n>question.mp3], and the model was asked exactly once. *)
Theorem process_stream_matched_question
  (JSON_parse : jsstring -> option json)
  (StringToNumber : jsstring -> StreamRoute.number) (ToString : json -> jsstring)
  (llm : jsstring -> StreamRoute.Generated)
  (b : json) (key transcript text m : jsstring) (parsed : json) (n : Z) :
  get_prop b (lit "transcript") = Some (Val (JStr transcript)) ->
  blank transcript = false ->
  key <> [] ->
  llm (StreamRoute.prompt transcript) = StreamRoute.Replies text ->
  Route.brace_match text = Some m ->
  JSON_parse m = Some parsed ->
  get_prop parsed (lit "questionNumber") = Some (Val (JNum (inject_Z n))) ->
  1 <= n <= 6 ->
  StreamRoute.POST JSON_parse StringToNumber ToString llm (Some b) (Some key)
  = (StreamRoute.EventStream
       [StreamRoute.processing_frame;
        StreamRoute.result_frame (JNum (inject_Z n))
          (Some (lit "/" ++ StreamRoute.decimal n ++ lit "question.mp3"))
          transcript;
        StreamRoute.done_frame],
     [StreamRoute.prompt transcript])
  /\ In (lit "/" ++ StreamRoute.decimal n ++ lit "question.mp3")
       [lit "/1question.mp3"; lit "/2question.mp3"; lit "/3question.mp3";
        lit "/4question.mp3"; lit "/5question.mp3"; lit "/6question.mp3"].
Proof.
  intros G B K L M J Q R. split.
  - unfold StreamRoute.POST. rewrite G.
    assert (T : falsy (Val (JStr transcript)) = false).
    { destruct transcript; [discriminate B|reflexivity]. }
    rewrite T, B. destruct key as [|c key]; [contradiction|].
    unfold StreamRoute.stream. rewrite L. cbv zeta.
    assert (E : StreamRoute.read_questionNumber JSON_parse text
                = JNum (inject_Z n)).
    { unfold StreamRoute.read_questionNumber. rewrite M, J, Q.
      assert (F : falsy (Val (JNum (inject_Z n))) = false).
      { destruct n; try reflexivity. lia. }
      rewrite F. reflexivity. }
    rewrite E. unfold StreamRoute.audioUrl_of.
    rewrite in_range_integer.
    assert (I : (1 <=? n) && (n <=? 6) = true).
    { apply andb_true_iff. split; apply Z.leb_le; lia. }
    rewrite I.
    assert (S : StreamRoute.to_string ToString (JNum (inject_Z n))
                = StreamRoute.decimal n).
    { assert (C : n = 1 \/ n = 2 \/ n = 3 \/ n = 4 \/ n = 5 \/ n = 6) by lia.
      destruct C as [C|[C|[C|[C|[C|C]]]]]; subst n; reflexivity. }
    rewrite S. reflexivity.
  - assert (C : n = 1 \/ n = 2 \/ n = 3 \/ n = 4 \/ n = 5 \/ n = 6) by lia.
    destruct C as [C|[C|[C|[C|[C|C]]]]]; subst n; vm_compute; tauto.
Qed.

Lemma process_stream_matched_question_witness :
  StreamRoute.POST
    (fun _ => Some (JObj [(lit "questionNumber", JNum (inject_Z 2))]))
    (fun _ => StreamRoute.NaN) (fun _ => [])
    (fun _ => StreamRoute.Replies (lit "{}"))
    (Some (JObj [(lit "transcript", JStr (lit "when does it arrive"))]))
    (Some (lit "key"))
  = (StreamRoute.EventStream
       [StreamRoute.processing_frame;
        StreamRoute.result_frame (JNum (inject_Z 2))
          (Some (lit "/2question.mp3")) (lit "when does it arrive");
        StreamRoute.done_frame],
     [StreamRoute.prompt (lit "when does it arrive")]).
Proof.
  refine (proj1 (@process_stream_matched_question
    (fun _ => Some (JObj [(lit "questionNumber", JNum (inject_Z 2))]))
    (fun _ => StreamRoute.NaN) (fun _ => [])
    (fun _ => StreamRoute.Replies (lit "{}"))
    (JObj [(lit "transcript", JStr (lit "when does it arrive"))])
    (lit "key") (lit "when does it arrive") (lit "{}") (lit "{}")
    (JObj [(lit "questionNumber", JNum (inject_Z 2))]) 2
    _ _ _ _ _ _ _ _)).
  - reflexivity.
  - reflexivity.
  - intros E; discriminate E.
  - reflexivity.
  - reflexivity.
  - reflexivity.
  - reflexivity.
  - lia.
Defined.

(** X16: when the model's reply holds no braces, is not JSON, is [null],
    lacks a truthy [questionNumber], or holds an integer outside 1..6 or a
    numeral beyond the range of a double, the stream is processing, result,
    done with a null audio URL. The question number in the event is -1 in
    the first four cases, the integer in the fifth (for an integer a double
    holds exactly), and [null] in the last. *)
Theorem process_stream_unmatched
  (JSON_parse : jsstring -> option json)
  (StringToNumber : jsstring -> StreamRoute.number)
  (ToString : json -> jsstring)
  (llm : jsstring -> StreamRoute.Generated)
  (transcript text : jsstring) (q : json) :
  llm (StreamRoute.prompt transcript) = StreamRoute.Replies text ->
  StreamRoute.Unmatched JSON_parse text q ->
  StreamRoute.stream JSON_parse StringToNumber ToString llm transcript
  = [StreamRoute.processing_frame;
     StreamRoute.result_frame q None transcript;
     StreamRoute.done_frame].
Proof.
  intros L U. unfold StreamRoute.stream. rewrite L. cbv zeta.
  assert (E : wire (StreamRoute.read_questionNumber JSON_parse text) = q
              /\ StreamRoute.audioUrl_of StringToNumber ToString
                   (StreamRoute.read_questionNumber JSON_parse text) = None).
  { unfold StreamRoute.read_questionNumber.
    destruct U as [M|m M J|m parsed M J F|m parsed n M J Q R _
                   |m parsed negative M J Q].
    - rewrite M. split; reflexivity.
    - rewrite M, J. split; reflexivity.
    - rewrite M, J.
      destruct (get_prop parsed (lit "questionNumber")) as [[|v]|];
        try (split; reflexivity).
      rewrite (F _ eq_refl). split; reflexivity.
    - rewrite M, J, Q.
      assert (F : falsy (Val (JNum (inject_Z n))) = false).
      { destruct n; try reflexivity. lia. }
      rewrite F. split; [reflexivity|].
      unfold StreamRoute.audioUrl_of. rewrite in_range_integer.
      assert (I : (1 <=? n) && (n <=? 6) = false).
      { apply andb_false_iff. destruct R; [left|right]; apply Z.leb_gt; lia. }
      rewrite I. reflexivity.
    - rewrite M, J, Q. cbn [falsy]. split; [reflexivity|].
      unfold StreamRoute.audioUrl_of. rewrite in_range_infinity.
      reflexivity. }
  destruct E as [E1 E2]. cbn [map]. rewrite wire_result_frame, E1, E2.
  reflexivity.
Qed.

Lemma process_stream_unmatched_witness :
  StreamRoute.stream (fun _ => None) (fun _ => StreamRoute.NaN) (fun _ => [])
    (fun _ => StreamRoute.Replies (lit "I cannot tell")) (lit "hello there")
  = [StreamRoute.processing_frame;
     StreamRoute.result_frame StreamRoute.minus_one None (lit "hello there");
     StreamRoute.done_frame].
Proof.
  refine (@process_stream_unmatched _ _ _ _ _ (lit "I cannot tell") _ _ _).
  - reflexivity.
  - apply StreamRoute.no_braces. reflexivity.
Defined.

(** *** The lines of a chunk *)

Lemma split_lines_cons (chunk : jsstring) :
  exists l ls, EventLines.split_lines chunk = l :: ls.
Proof.
  induction chunk as [|c r [l [ls E]]]; simpl.
  - eexists. eexists. reflexivity.
  - destruct (c =? 10)%N; [eexists; eexists; reflexivity|].
    rewrite E. eexists. eexists. reflexivity.
Qed.

Lemma split_lines_line (p rest : jsstring) :
  EventLines.no_newline p = true ->
  EventLines.split_lines (p ++ 10%N :: rest)
  = p :: EventLines.split_lines rest.
Proof.
  induction p as [|c p IH]; simpl; intros H; [reflexivity|].
  apply andb_true_iff in H as [Hc Hp].
  apply negb_true_iff in Hc. rewrite Hc, (IH Hp). reflexivity.
Qed.

Lemma split_lines_last (p : jsstring) :
  EventLines.no_newline p = true -> EventLines.split_lines p = [p].
Proof.
  induction p as [|c p IH]; simpl; intros H; [reflexivity|].
  apply andb_true_iff in H as [Hc Hp].
  apply negb_true_iff in Hc. rewrite Hc, (IH Hp). reflexivity.
Qed.

Lemma payloads_event (p rest : jsstring) :
  EventLines.no_newline p = true ->
  EventLines.payloads (StreamRoute.encode_event p ++ rest)
  = p :: EventLines.payloads rest.
Proof.
  intros H. unfold EventLines.payloads, StreamRoute.encode_event.
  rewrite <- !app_assoc.
  change ((lit "data: " ++ p ++ [10%N; 10%N] ++ rest))
    with ((lit "data: " ++ p) ++ 10%N :: 10%N :: rest).
  rewrite split_lines_line.
  2:{ unfold EventLines.no_newline. rewrite forallb_app.
      apply andb_true_iff. split; [reflexivity|exact H]. }
  change (EventLines.split_lines (10%N :: rest))
    with ([] :: EventLines.split_lines rest).
  reflexivity.
Qed.

(** X17: the client recovers the payloads of the events the route encodes:
    for payloads without a line feed (which [JSON.stringify] never emits),
    a chunk made of their events, one after the other, yields exactly these
    payloads, in order, as the texts handed to [JSON.parse]. *)
Theorem events_round_trip (ps : list jsstring) :
  forallb EventLines.no_newline ps = true ->
  EventLines.payloads (List.concat (map StreamRoute.encode_event ps)) = ps.
Proof.
  induction ps as [|p ps IH]; intros H; [reflexivity|].
  apply andb_true_iff in H as [Hp Hps].
  change (List.concat (map StreamRoute.encode_event (p :: ps)))
    with (StreamRoute.encode_event p
          ++ List.concat (map StreamRoute.encode_event ps)).
  rewrite (payloads_event p _ Hp), (IH Hps). reflexivity.
Qed.

Lemma events_round_trip_witness :
  EventLines.payloads
    (List.concat (map StreamRoute.encode_event [lit "{}"; lit "[1]"]))
  = [lit "{}"; lit "[1]"].
Proof.
  apply (events_round_trip [lit "{}"; lit "[1]"]). reflexivity.
Defined.

(** X18: an event cut in two by the transport is not put together again: when
    the first chunk ends inside the payload, the client hands the cut-off
    head of the payload to [JSON.parse], and the tail in the next chunk,
    which does not start with the marker, is dropped. *)
Theorem split_event_not_reassembled (head tail : jsstring) :
  EventLines.no_newline head = true ->
  EventLines.no_newline tail = true ->
  EventLines.startsWith (lit "data: ") tail = false ->
  StreamRoute.encode_event (head ++ tail)
  = (lit "data: " ++ head) ++ (tail ++ [10%N; 10%N])
  /\ EventLines.payloads (lit "data: " ++ head) = [head]
  /\ EventLines.payloads (tail ++ [10%N; 10%N]) = [].
Proof.
  intros H T S. split; [|split].
  - unfold StreamRoute.encode_event. rewrite <- !app_assoc. reflexivity.
  - unfold EventLines.payloads. rewrite split_lines_last; [reflexivity|].
    unfold EventLines.no_newline. rewrite forallb_app.
    apply andb_true_iff. split; [reflexivity|exact H].
  - unfold EventLines.payloads.
    change (tail ++ [10%N; 10%N]) with (tail ++ 10%N :: [10%N]).
    rewrite (split_lines_line tail _ T).
    cbv [filter]. rewrite S. reflexivity.
Qed.

Lemma split_event_not_reassembled_witness :
  EventLines.payloads (lit "data: " ++ lit "[1,") = [lit "[1,"]
  /\ EventLines.payloads (lit "2]" ++ [10%N; 10%N]) = [].
Proof.
  exact (proj2 (split_event_not_reassembled (lit "[1,")
    (lit "2]") eq_refl eq_refl eq_refl)).
Defined.

(** *** The transcribe route and the one-shot recorder *)

Lemma silent_early (v : jsvalue) :
  Transcribe.silent v ->
  falsy v = true \/ exists s, v = Val (JStr s) /\ blank s = true.
Proof.
  intros [F|(s & E & W)]; [left; exact F|right].
  exists s. split; [exact E|exact (blank_white s W)].
Qed.

(** X19: when Deepgram answers with a body from which the chain
    [results?.channels?.[0]?.alternatives?.[0]?.transcript] reads nothing, a
    falsy value or only whitespace, the transcribe route answers 200 with an
    empty transcript and question number -1; it has sent one request to
    Deepgram and none to the model, whether or not the model's key is
    configured. *)
Theorem transcribe_no_speech
  (JSON_parse : jsstring -> option json)
  (StringToNumber : jsstring -> StreamRoute.number) (ToString : json -> jsstring)
  (engine_message : Transcribe.Fault -> jsstring)
  (deepgram : Transcribe.Listen -> Transcribe.Upstream)
  (llm : jsstring -> StreamRoute.Generated)
  (apiKey type : jsstring) (content : list N) (geminiKey : option jsstring)
  (status : Z) (text : jsstring) (data : json) (v : jsvalue) :
  let request :=
    Transcribe.mkListen (lit "Token " ++ apiKey)
      (if is_empty type then lit "audio/webm" else type) content in
  apiKey <> [] ->
  deepgram request = Transcribe.UpResponds status text ->
  200 <= status <= 299 ->
  JSON_parse text = Some data ->
  Transcribe.transcript_of data = Some v ->
  Transcribe.silent v ->
  Transcribe.POST JSON_parse StringToNumber ToString engine_message deepgram
    llm (Some apiKey) (Transcribe.File type content) geminiKey
  = (Route.mkResponse 200
       (JObj [(lit "transcript", JStr []);
              (lit "questionNumber", JNum (-1 # 1))]),
     [request], []).
Proof.
  intros request K D S J T V.
  destruct apiKey as [|k key]; [contradiction|].
  unfold Transcribe.POST. fold request. rewrite D.
  unfold Transcribe.onUpstream.
  assert (O : Transcribe.ok status = true).
  { unfold Transcribe.ok. apply andb_true_iff. split; apply Z.leb_le; lia. }
  rewrite O, J, T.
  destruct (silent_early v V) as [F|(s & -> & B)].
  - rewrite F. reflexivity.
  - destruct (falsy (Val (JStr s))); [reflexivity|]. rewrite B. reflexivity.
Qed.

Lemma transcribe_no_speech_witness :
  Transcribe.POST
    (fun _ => Some (JObj [(lit "results", JObj [(lit "channels", JArr [])])]))
    (fun _ => StreamRoute.NaN) (fun _ => []) (fun _ => [])
    (fun _ => Transcribe.UpResponds 200 (lit "{}"))
    (fun _ => StreamRoute.Replies (lit "{}"))
    (Some (lit "key")) (Transcribe.File [] [1%N; 2%N]) None
  = (Route.mkResponse 200
       (JObj [(lit "transcript", JStr []);
              (lit "questionNumber", JNum (-1 # 1))]),
     [Transcribe.mkListen (lit "Token key") (lit "audio/webm") [1%N; 2%N]],
     []).
Proof.
  refine (@transcribe_no_speech
    (fun _ => Some (JObj [(lit "results", JObj [(lit "channels", JArr [])])]))
    (fun _ => StreamRoute.NaN) (fun _ => []) (fun _ => [])
    (fun _ => Transcribe.UpResponds 200 (lit "{}"))
    (fun _ => StreamRoute.Replies (lit "{}"))
    (lit "key") [] [1%N; 2%N] None 200 (lit "{}")
    (JObj [(lit "results", JObj [(lit "channels", JArr [])])]) Undefined
    _ _ _ _ _ _).
  - intros E; discriminate E.
  - reflexivity.
  - lia.
  - reflexivity.
  - reflexivity.
  - left. reflexivity.
Defined.

(** The replies of the transcribe route: the early one, a result, or an
    error with one of five messages and a status that is not ok. *)
Lemma transcribe_replies
  (JSON_parse : jsstring -> option json)
  (StringToNumber : jsstring -> StreamRoute.number) (ToString : json -> jsstring)
  (engine_message : Transcribe.Fault -> jsstring)
  (deepgram : Transcribe.Listen -> Transcribe.Upstream)
  (llm : jsstring -> StreamRoute.Generated)
  (apiKey : option jsstring) (form : Transcribe.Form)
  (geminiKey : option jsstring) :
  let out := Transcribe.POST JSON_parse StringToNumber ToString engine_message
               deepgram llm apiKey form geminiKey in
  (fst (fst out) = Transcribe.early_reply /\ snd out = [])
  \/ (exists t q,
        blank t = false /\ falsy (Val q) = false
        /\ fst (fst out)
           = Transcribe.result_reply t q
               (StreamRoute.audioUrl_of StringToNumber ToString q)
        /\ snd out = [Transcribe.prompt t])
  \/ (exists status msg rest,
        fst (fst out)
        = Route.mkResponse status (JObj ((lit "error", JStr msg) :: rest))
        /\ Transcribe.ok status = false
        /\ In msg [lit "Deepgram API key not configured";
                   lit "No audio file provided";
                   lit "Failed to transcribe audio";
                   lit "Google GenAI API key not configured";
                   lit "Internal server error"]).
Proof.
  cbv zeta.
  assert (E500 : forall err,
            exists status msg rest,
              Transcribe.internal_error err
              = Route.mkResponse status
                  (JObj ((lit "error", JStr msg) :: rest))
              /\ Transcribe.ok status = false
              /\ In msg [lit "Deepgram API key not configured";
                         lit "No audio file provided";
                         lit "Failed to transcribe audio";
                         lit "Google GenAI API key not configured";
                         lit "Internal server error"]).
  { intros err. eexists. eexists. eexists.
    split; [reflexivity|]. split; [reflexivity|].
    do 4 right. left. reflexivity. }
  assert (P : forall status (m : string),
            Transcribe.ok status = false ->
            In (lit m) [lit "Deepgram API key not configured";
                        lit "No audio file provided";
                        lit "Failed to transcribe audio";
                        lit "Google GenAI API key not configured";
                        lit "Internal server error"] ->
            exists st msg rest,
              Transcribe.plain_error status m
              = Route.mkResponse st (JObj ((lit "error", JStr msg) :: rest))
              /\ Transcribe.ok st = false
              /\ In msg [lit "Deepgram API key not configured";
                         lit "No audio file provided";
                         lit "Failed to transcribe audio";
                         lit "Google GenAI API key not configured";
                         lit "Internal server error"]).
  { intros status m O I. exists status, (lit m), [].
    split; [reflexivity|]. split; [exact O|exact I]. }
  unfold Transcribe.POST.
  destruct apiKey as [[|k key]|].
  2:{ destruct form as [err| |[|c value]|err|type content].
      - right. right. exact (E500 err).
      - right. right. apply P; [reflexivity|]. right. left. reflexivity.
      - right. right. apply P; [reflexivity|]. right. left. reflexivity.
      - right. right. exact (E500 _).
      - right. right. exact (E500 err).
      - set (request := Transcribe.mkListen _ _ _).
        unfold Transcribe.onUpstream.
        destruct (deepgram request) as [err|status text].
        + right. right. exact (E500 err).
        + destruct (Transcribe.ok status) eqn:O.
          * destruct (JSON_parse text) as [data|];
              [|right; right; exact (E500 _)].
            destruct (Transcribe.transcript_of data) as [v|];
              [|right; right; exact (E500 _)].
            destruct (falsy v) eqn:F; [left; split; reflexivity|].
            destruct v as [|[| | | |s| |]]; try (right; right; exact (E500 _)).
            destruct (blank s) eqn:B; [left; split; reflexivity|].
            unfold Transcribe.classify.
            destruct geminiKey as [[|g gk]|].
            -- right. right. apply P; [reflexivity|].
               do 3 right. left. reflexivity.
            -- destruct (llm (Transcribe.prompt s)) as [err|responseText].
               ++ right. right. exact (E500 err).
               ++ right. left. eexists. eexists.
                  split; [exact B|]. split; [|split; reflexivity].
                  apply read_questionNumber_truthy.
            -- right. right. apply P; [reflexivity|].
               do 3 right. left. reflexivity.
          * destruct (negb ((200 <=? status) && (status <=? 599)));
              [right; right; exact (E500 _)|].
            destruct (status =? 304); [right; right; exact (E500 _)|].
            right. right. eexists. eexists. eexists.
            split; [reflexivity|]. split; [exact O|].
            do 2 right. left. reflexivity. }
  - right. right. apply P; [reflexivity|]. left. reflexivity.
  - right. right. apply P; [reflexivity|]. left. reflexivity.
Qed.

Lemma audioUrl_of_truthy
  (StringToNumber : jsstring -> StreamRoute.number) (ToString : json -> jsstring)
  (q : json) (u : jsstring) :
  StreamRoute.audioUrl_of StringToNumber ToString q = Some u ->
  falsy (Val (JStr u)) = false.
Proof.
  unfold StreamRoute.audioUrl_of.
  destruct (StreamRoute.in_range StringToNumber ToString q);
    [|intros E; discriminate E].
  intros E. injection E as <-. reflexivity.
Qed.

(** X20: whatever the transcribe route answers with a status other than 200
    is an error the one-shot recorder shows as it is: the response carries
    one of the route's five messages, and [transcribeAudio] ends with that
    message as the error, not loading, with transcript, question number and
    audio URL cleared. *)
Theorem one_shot_shows_route_error
  (JSON_parse : jsstring -> option json)
  (StringToNumber : jsstring -> StreamRoute.number) (ToString : json -> jsstring)
  (engine_message : Transcribe.Fault -> jsstring)
  (deepgram : Transcribe.Listen -> Transcribe.Upstream)
  (llm : jsstring -> StreamRoute.Generated)
  (ToString' : json -> jsstring)
  (engine_message' : Transcribe.Fault -> jsstring)
  (apiKey : option jsstring) (form : Transcribe.Form)
  (geminiKey : option jsstring) (v : OneShot.View) :
  let r := fst (fst (Transcribe.POST JSON_parse StringToNumber ToString
                       engine_message deepgram llm apiKey form geminiKey)) in
  Route.status r <> 200 ->
  exists msg,
    get_prop (Route.body r) (lit "error") = Some (Val (JStr msg))
    /\ In msg [lit "Deepgram API key not configured";
               lit "No audio file provided";
               lit "Failed to transcribe audio";
               lit "Google GenAI API key not configured";
               lit "Internal server error"]
    /\ OneShot.transcribeAudio ToString' engine_message'
         (OneShot.of_response r) v
       = OneShot.mkView false msg (JStr []) JNull JNull.
Proof.
  intros r S.
  destruct (transcribe_replies JSON_parse StringToNumber ToString
              engine_message deepgram llm apiKey form geminiKey)
    as [[E _]|[(t & q & _ & _ & E & _)|(status & msg & rest & E & O & I)]];
    fold r in E.
  - exfalso. apply S. rewrite E. reflexivity.
  - exfalso. apply S. rewrite E. reflexivity.
  - exists msg. rewrite E. split; [reflexivity|]. split; [exact I|].
    unfold OneShot.transcribeAudio, OneShot.of_response.
    cbn [Route.status Route.body]. rewrite O.
    unfold OneShot.fail, OneShot.begin, OneShot.thrown_for.
    cbn [OneShot.transcript OneShot.questionNumber OneShot.audioUrl].
    change (get_prop (JObj ((lit "error", JStr msg) :: rest)) (lit "error"))
      with (Some (Val (JStr msg))).
    cbv iota beta.
    destruct I as [<-|[<-|[<-|[<-|[<-|[]]]]]]; reflexivity.
Qed.

Lemma one_shot_shows_route_error_witness :
  OneShot.transcribeAudio (fun _ => []) (fun _ => [])
    (OneShot.of_response
       (fst (fst (Transcribe.POST (fun _ => None) (fun _ => StreamRoute.NaN)
                    (fun _ => []) (fun _ => [])
                    (fun _ => Transcribe.UpThrows None)
                    (fun _ => StreamRoute.Throws None)
                    (Some (lit "key")) Transcribe.Absent None))))
    (OneShot.mkView false [] (JStr (lit "old")) JNull JNull)
  = OneShot.mkView false (lit "No audio file provided") (JStr []) JNull JNull.
Proof.
  destruct (one_shot_shows_route_error (fun _ => None) (fun _ => StreamRoute.NaN)
              (fun _ => []) (fun _ => [])
              (fun _ => Transcribe.UpThrows None)
              (fun _ => StreamRoute.Throws None)
              (fun _ => []) (fun _ => [])
              (Some (lit "key")) Transcribe.Absent None
              (OneShot.mkView false [] (JStr (lit "old")) JNull JNull))
    as (msg & G & _ & T).
  - intros E; discriminate E.
  - injection G as <-. exact T.
Defined.

(** X21: whatever the transcribe route answers with status 200 the one-shot
    recorder shows without an error: for the early reply the placeholder
    "No transcript available" with question number -1 and no audio, the
    model not having been asked; otherwise the transcript, which is not
    blank, the question number read from the model's one reply, and the
    audio URL chosen for it, or none. The question number the route reads
    is never falsy; it is shown as the route writes it, which is [null]
    for a numeral beyond the range of a double. *)
Theorem one_shot_shows_route_result
  (JSON_parse : jsstring -> option json)
  (StringToNumber : jsstring -> StreamRoute.number)
  (ToString : json -> jsstring)
  (engine_message : Transcribe.Fault -> jsstring)
  (deepgram : Transcribe.Listen -> Transcribe.Upstream)
  (llm : jsstring -> StreamRoute.Generated)
  (ToString' : json -> jsstring)
  (engine_message' : Transcribe.Fault -> jsstring)
  (apiKey : option jsstring) (form : Transcribe.Form)
  (geminiKey : option jsstring) (v : OneShot.View) :
  let out := Transcribe.POST JSON_parse StringToNumber ToString
               engine_message deepgram llm apiKey form geminiKey in
  let shown := OneShot.transcribeAudio ToString' engine_message'
                 (OneShot.of_response (fst (fst out))) v in
  Route.status (fst (fst out)) = 200 ->
  (snd out = []
   /\ shown = OneShot.mkView false [] (JStr (lit "No transcript available"))
                (JNum (-1 # 1)) JNull)
  \/ (exists t q,
        blank t = false /\ falsy (Val q) = false
        /\ snd out = [Transcribe.prompt t]
        /\ shown = OneShot.mkView false [] (JStr t) (wire q)
                     (match StreamRoute.audioUrl_of StringToNumber ToString q
                      with
                      | Some u => JStr u
                      | None => JNull
                      end)
        /\ (wire q = JNull <-> exists negative, q = JInfinity negative)).
Proof.
  intros out shown S. subst shown.
  destruct (transcribe_replies JSON_parse StringToNumber ToString
              engine_message deepgram llm apiKey form geminiKey)
    as [[E P]|[(t & q & B & F & E & P)|(status & msg & rest & E & O & _)]];
    fold out in E; try fold out in P.
  - left. split; [exact P|]. rewrite E. reflexivity.
  - right. exists t, q. split; [exact B|]. split; [exact F|].
    split; [exact P|]. split.
    + rewrite E.
      unfold OneShot.transcribeAudio, OneShot.of_response, OneShot.show,
        Transcribe.result_reply.
      cbn [Route.status Route.body wire map].
      change (Transcribe.ok 200) with true. cbv iota.
      change (get_prop (JObj ?f) ?k) with (Some (lookup k f)).
      cbn [lookup].
      destruct t as [|c t]; [discriminate B|].
      destruct (StreamRoute.audioUrl_of StringToNumber ToString q)
        as [u|] eqn:U.
      * pose proof (audioUrl_of_truthy _ _ _ _ U) as A.
        destruct u as [|c0 u]; [discriminate A|]. reflexivity.
      * reflexivity.
    + split.
      * intros W. apply (wire_falsy _ F). rewrite W. reflexivity.
      * intros [negative ->]. reflexivity.
  - exfalso. fold out in S. rewrite E in S. cbn [Route.status] in S.
    subst status. discriminate O.
Qed.

Lemma one_shot_shows_route_result_witness :
  OneShot.transcribeAudio (fun _ => []) (fun _ => [])
    (OneShot.of_response
       (fst (fst (Transcribe.POST (fun _ => Some (JObj [])) (fun _ => StreamRoute.NaN)
                    (fun _ => []) (fun _ => [])
                    (fun _ => Transcribe.UpResponds 200 (lit "{}"))
                    (fun _ => StreamRoute.Throws None)
                    (Some (lit "key")) (Transcribe.File [] []) None))))
    (OneShot.mkView false [] (JStr (lit "old")) JNull JNull)
  = OneShot.mkView false [] (JStr (lit "No transcript available"))
      (JNum (-1 # 1)) JNull.
Proof.
  destruct (one_shot_shows_route_result (fun _ => Some (JObj []))
              (fun _ => StreamRoute.NaN) (fun _ => []) (fun _ => [])
              (fun _ => Transcribe.UpResponds 200 (lit "{}"))
              (fun _ => StreamRoute.Throws None)
              (fun _ => []) (fun _ => [])
              (Some (lit "key")) (Transcribe.File [] []) None
              (OneShot.mkView false [] (JStr (lit "old")) JNull JNull)
              eq_refl)
    as [[_ T]|(t & q & _ & _ & P & _)].
  - exact T.
  - discriminate P.
Defined.
